(** * Student and Teacher Management System: a shallow embedding

    The Python program keeps two JSON files (teachers, students), each a
    list of flat dictionaries, and rewrites a file wholesale on every
    change.  This development embeds the repository's modules

      - [file_operations.py]  (module [FileOperations])
      - [authentication.py]   (module [Authentication])
      - [models/teacher.py]   (module [Teacher])
      - [models/student.py]   (module [Student])
      - [main.py]             (module [Main], the three writing commands)

    over a small model of the Python values and builtins they use
    (module [Py]), and proves the properties of the specification about
    them. *)

From Stdlib Require Import ZArith Floats Ascii String List Lia Bool.
From Stdlib Require Import Permutation Sorted.
From stdpp Require Import base gmap strings list.
Import ListNotations.
Local Open Scope string_scope.
Local Open Scope list_scope.
Local Open Scope Z_scope.
Set Warnings "-register-all".

(* ===================================================================== *)
(** * Python values, exceptions and builtins *)
(* ===================================================================== *)

Module Py.

(** The values [json.load] produces from the two data files: the JSON
    numbers of the files are integers (the data model stores a phone
    number and integer marks). A dictionary is the list of its items in
    insertion order, with distinct keys, which is the order [values()]
    and [json.dump] follow. *)
Inductive pyval : Type :=
| PNone
| PBool (b : bool)
| PInt (z : Z)
| PStr (s : string)
| PList (l : list pyval)
| PDict (items : list (string * pyval)).

(** Exceptions: the three classes of [exceptions.py] and the builtin ones
    the modelled code can raise, with the message or key they carry. *)
Inductive exn : Type :=
| ValueError (msg : string)
| KeyError (key : string)
| TypeError
| AttributeError
| ZeroDivisionError
| OverflowError
| EOFError
| NoMatchingNameError (msg : string)
| NoMatchingIdError (msg : string)
| AuthenticationError (msg : string).

(** The result of evaluating an expression: a value or a raised exception. *)
Inductive outcome (A : Type) : Type :=
| Ok (a : A)
| Raise (e : exn).
Arguments Ok {A} a.
Arguments Raise {A} e.

#[global] Instance outcome_ret : MRet outcome := fun A a => Ok a.
#[global] Instance outcome_bind : MBind outcome :=
  fun A B f m => match m with Ok a => f a | Raise e => Raise e end.
#[global] Instance outcome_throw : MThrow exn outcome := fun A e => Raise e.

Definition is_ValueError (e : exn) : bool :=
  match e with ValueError _ => true | _ => false end.

(** ** Dictionaries and comparisons *)

Fixpoint lookup_item (k : string) (items : list (string * pyval)) : option pyval :=
  match items with
  | [] => None
  | (k', v) :: rest => if String.eqb k' k then Some v else lookup_item k rest
  end.

(** [v[k]] for a string key. *)
Definition getitem (v : pyval) (k : string) : outcome pyval :=
  match v with
  | PDict items =>
      match lookup_item k items with
      | Some x => Ok x
      | None => Raise (KeyError k)
      end
  | _ => Raise TypeError
  end.

(** [v.get(k)]: [None] for a missing key; only dictionaries have [get]. *)
Definition get (v : pyval) (k : string) : outcome pyval :=
  match v with
  | PDict items => Ok (default PNone (lookup_item k items))
  | _ => Raise AttributeError
  end.

(** [v.values()] *)
Definition values (v : pyval) : outcome (list pyval) :=
  match v with
  | PDict items => Ok (map snd items)
  | _ => Raise AttributeError
  end.

(** [len(v)] *)
Definition len (v : pyval) : outcome Z :=
  match v with
  | PDict items => Ok (Z.of_nat (length items))
  | PList l => Ok (Z.of_nat (length l))
  | PStr s => Ok (Z.of_nat (String.length s))
  | _ => Raise TypeError
  end.

(** [v == s] where [s] is a [str]: only an equal string is equal to it. *)
Definition eq_str (v : pyval) (s : string) : bool :=
  match v with
  | PStr s' => String.eqb s' s
  | _ => false
  end.

(** The integer a [bool] or [int] stands for in arithmetic and ordering. *)
Definition as_int (v : pyval) : outcome Z :=
  match v with
  | PInt z => Ok z
  | PBool b => Ok (if b then 1 else 0)
  | _ => Raise TypeError
  end.

(** [v >= n] and [v < n] for an integer [n]. *)
Definition ge_int (v : pyval) (n : Z) : outcome bool :=
  z ← as_int v; mret (n <=? z).

Definition lt_int (v : pyval) (n : Z) : outcome bool :=
  z ← as_int v; mret (z <? n).

(** [all(mark >= n for mark in vs)]: stops at the first false test. *)
Fixpoint all_ge (n : Z) (vs : list pyval) : outcome bool :=
  match vs with
  | [] => Ok true
  | v :: rest => b ← ge_int v n; if b : bool then all_ge n rest else Ok false
  end.

(** [any(mark < n for mark in vs)]: stops at the first true test. *)
Fixpoint any_lt (n : Z) (vs : list pyval) : outcome bool :=
  match vs with
  | [] => Ok false
  | v :: rest => b ← lt_int v n; if b : bool then Ok true else any_lt n rest
  end.

(** [sum(vs)], from the left, starting at [0]. *)
Fixpoint sum_from (acc : Z) (vs : list pyval) : outcome Z :=
  match vs with
  | [] => Ok acc
  | v :: rest => z ← as_int v; sum_from (acc + z) rest
  end.

Definition sum (vs : list pyval) : outcome Z := sum_from 0 vs.

(** ** [str] of an integer *)

Definition digit_char (d : Z) : ascii := ascii_of_nat (48 + Z.to_nat d).

(** The decimal digits of [n > 0], most significant first, pushed in front
    of [acc]. One unit of fuel is used per digit. *)
Fixpoint digits_from (fuel : nat) (n : Z) (acc : string) : string :=
  match fuel with
  | O => acc
  | S fuel' =>
      let acc' := String (digit_char (n mod 10)) acc in
      if n / 10 =? 0 then acc' else digits_from fuel' (n / 10) acc'
  end.

Definition str_nat (n : Z) : string :=
  digits_from (S (Z.to_nat (Z.log2 n))) n "".

Definition str_int (z : Z) : string :=
  if z <? 0 then String "-" (str_nat (- z)) else str_nat z.

(** [isinstance(v, int)]: [bool] is a subclass of [int]. *)
Definition isinstance_int (v : pyval) : bool :=
  match v with
  | PInt _ | PBool _ => true
  | _ => false
  end.

(** [str(v)] of a scalar. *)
Definition str (v : pyval) : outcome string :=
  match v with
  | PInt z => Ok (str_int z)
  | PBool true => Ok "True"
  | PBool false => Ok "False"
  | PStr s => Ok s
  | PNone => Ok "None"
  | _ => Raise TypeError
  end.

(** ** [int] of a string *)

(** ASCII white space, which [int] strips on both sides. *)
Definition is_space (c : ascii) : bool :=
  let n := nat_of_ascii c in
  ((9 <=? n) && (n <=? 13) || (28 <=? n) && (n <=? 32))%nat.

Definition is_digit (c : ascii) : bool :=
  let n := nat_of_ascii c in ((48 <=? n) && (n <=? 57))%nat.

Definition digit_val (c : ascii) : Z := Z.of_nat (nat_of_ascii c) - 48.

Fixpoint lstrip (s : string) : string :=
  match s with
  | String c rest => if is_space c then lstrip rest else s
  | EmptyString => s
  end.

(** [rstrip s] drops the trailing white space: a character is kept when
    something other than white space follows it or it is none itself. *)
Fixpoint rstrip (s : string) : string :=
  match s with
  | String c rest =>
      match rstrip rest with
      | EmptyString => if is_space c then EmptyString else String c EmptyString
      | kept => String c kept
      end
  | EmptyString => EmptyString
  end.

(** Decimal digits, where single underscores may separate two digits.
    [after_digit] tells whether the previous character was a digit. *)
Fixpoint int_digits (s : string) (acc : Z) (after_digit : bool) : option Z :=
  match s with
  | EmptyString => if after_digit then Some acc else None
  | String c rest =>
      if is_digit c then int_digits rest (10 * acc + digit_val c) true
      else if Ascii.eqb c "_" then
        if after_digit then int_digits rest acc false else None
      else None
  end.

(** The quoted form of the literal in the message of [int]. *)
Definition quoted (s : string) : string := "'" +:+ s +:+ "'".

(** [int(s)] for a string of ASCII characters, base 10: white space
    around the literal is dropped, a sign may come first, and the digits
    may be grouped by single underscores. (The limit that recent
    interpreters put on the length of such a literal is not modelled.) *)
Definition int (s : string) : outcome Z :=
  let bad := Raise (ValueError ("invalid literal for int() with base 10: " +:+ quoted s)) in
  match rstrip (lstrip s) with
  | String "-" ds => match int_digits ds 0 false with Some n => Ok (- n) | None => bad end
  | String "+" ds => match int_digits ds 0 false with Some n => Ok n | None => bad end
  | ds => match int_digits ds 0 false with Some n => Ok n | None => bad end
  end.

(** ** [re.match] *)

(** The patterns in use are sequences of single characters and negated
    single-character classes, each taken once or one-or-more times. *)
Inductive char_class : Type :=
| Lit (c : ascii)       (* the character c *)
| NotLit (c : ascii).   (* [^c] *)

Inductive quantifier : Type := Once | Plus.

Definition regex : Type := list (char_class * quantifier).

Definition in_class (cl : char_class) (c : ascii) : bool :=
  match cl with
  | Lit x => Ascii.eqb c x
  | NotLit x => negb (Ascii.eqb c x)
  end.

(** [re.match(p, s) is not None]: some prefix of [s] matches the whole of
    [p]. A [Plus] item first tries to take more characters and then backs
    off, as the backtracking matcher does. *)
Fixpoint re_match (p : regex) (s : string) {struct s} : bool :=
  match p with
  | [] => true
  | (cl, q) :: p' =>
      match s with
      | EmptyString => false
      | String c rest =>
          if in_class cl c then
            match q with
            | Once => re_match p' rest
            | Plus => re_match p rest || re_match p' rest
            end
          else false
      end
  end.

(** ** Floating point: [/] on integers and [round] *)

Definition float_of_Z (z : Z) : spec_float :=
  match z with
  | Z0 => S754_zero false
  | Zpos p => S754_finite false p 0
  | Zneg p => S754_finite true p 0
  end.

(** [a / b] on two integers: the quotient of the two exact integers,
    rounded once to the nearest double. *)
Definition truediv (a b : Z) : outcome float :=
  if b =? 0 then Raise ZeroDivisionError
  else
    match SFdiv prec emax (float_of_Z a) (float_of_Z b) with
    | S754_infinity _ => Raise OverflowError
    | q => Ok (SF2Prim q)
    end.

(** The integer nearest to [num / den] ([den > 0]), halves to even. *)
Definition div_half_even (num den : Z) : Z :=
  let q := num / den in
  let r := num mod den in
  match 2 * r ?= den with
  | Lt => q
  | Gt => q + 1
  | Eq => if Z.even q then q else q + 1
  end.

(** The double nearest to [num / den], for [num >= 0] and [den > 0]. *)
Definition nearest_double (num den : Z) : spec_float :=
  match num with
  | Z0 => S754_zero false
  | _ => SFdiv prec emax (float_of_Z num) (float_of_Z den)
  end.

(** [m * 2^e * scale] rounded to an integer, halves to even. *)
Definition scaled_half_even (m : positive) (e : Z) (scale : Z) : Z :=
  if 0 <=? e then Zpos m * 2 ^ e * scale
  else div_half_even (Zpos m * scale) (2 ^ (- e)).

(** [round(x, ndigits)] for [ndigits >= 0]: the exact value of [x] is
    rounded, halves to even, to a multiple of [10^-ndigits], and that
    decimal number is converted to the nearest double. Zeros, infinities
    and NaNs are returned as they are. *)
Definition round (x : float) (ndigits : Z) : float :=
  match Prim2SF x with
  | S754_finite sign m e =>
      let scale := 10 ^ ndigits in
      let magnitude := nearest_double (scaled_half_even m e scale) scale in
      SF2Prim (if sign then SFopp magnitude else magnitude)
  | _ => x
  end.

End Py.

(* ===================================================================== *)
(** * The program's environment: data files, keyboard and screen *)
(* ===================================================================== *)

Module Env.
Import Py.

(** What a command does that can be observed, in order. *)
Inductive event : Type :=
| EvPrint (line : string)                      (* print(line) *)
| EvPrompt (prompt : string)                   (* input(prompt) shows its prompt *)
| EvRead (answer : string)                     (* input returned this line *)
| EvWrite (path : string) (data : list pyval). (* the file was rewritten *)

(** The files that exist, each holding a JSON list, and the lines the user
    is going to type. *)
Record state : Type := State {
  files : gmap string (list pyval);
  stdin : list string
}.

Record run (A : Type) : Type := Run {
  result : outcome A;
  final : state;
  trace : list event
}.
Arguments Run {A} result final trace.
Arguments result {A} r.
Arguments final {A} r.
Arguments trace {A} r.

(** A command: from the state before it to its result, the state after
    it and the events in between. *)
Definition io (A : Type) : Type := state -> run A.

#[global] Instance io_ret : MRet io := fun A a s => Run (Ok a) s [].
#[global] Instance io_bind : MBind io :=
  fun A B f m s =>
    let r := m s in
    match result r with
    | Ok a => let r' := f a (final r) in
              Run (result r') (final r') (trace r ++ trace r')
    | Raise e => Run (Raise e) (final r) (trace r)
    end.
#[global] Instance io_throw : MThrow exn io := fun A e s => Run (Raise e) s [].

(** An expression evaluated inside a command. *)
Definition lift {A} (o : outcome A) : io A := fun s => Run o s [].

(** [try: body  except <caught>: handler] *)
Definition try_except {A} (body : io A) (caught : exn -> bool)
    (handler : exn -> io A) : io A :=
  fun s =>
    let r := body s in
    match result r with
    | Ok _ => r
    | Raise e =>
        if caught e then
          let r' := handler e (final r) in
          Run (result r') (final r') (trace r ++ trace r')
        else r
    end.

Definition print (line : string) : io unit :=
  fun s => Run (Ok tt) s [EvPrint line].

(** [input(prompt)]: the prompt is shown, then the next line typed is
    returned; [EOFError] when there is none. *)
Definition input (prompt : string) : io string :=
  fun s =>
    match stdin s with
    | answer :: rest =>
        Run (Ok answer) (State (files s) rest) [EvPrompt prompt; EvRead answer]
    | [] => Run (Raise EOFError) s [EvPrompt prompt]
    end.

(** [str(e)] as [print(e)] shows it, for the exceptions that carry a
    message; the handlers of [main.py] print no others. *)
Definition exn_message (e : exn) : string :=
  match e with
  | ValueError msg | NoMatchingNameError msg | NoMatchingIdError msg
  | AuthenticationError msg => msg
  | KeyError key => quoted key
  | _ => ""
  end.

End Env.

(* ===================================================================== *)
(** * file_operations.py *)
(* ===================================================================== *)

Module FileOperations.
Import Py Env.

(** The content of the file, the empty list when the file is not found. *)
Definition read_json (file_path : string) : io (list pyval) :=
  fun s => Run (Ok (default [] (files s !! file_path))) s [].

(** The file is replaced by [data]. *)
Definition write_json (file_path : string) (data : list pyval) : io unit :=
  fun s => Run (Ok tt) (State (<[file_path := data]> (files s)) (stdin s))
               [EvWrite file_path data].

Definition append_json (file_path : string) (new_data : pyval) : io unit :=
  data ← read_json file_path;
  write_json file_path (data ++ [new_data]).

End FileOperations.

(* ===================================================================== *)
(** * authentication.py *)
(* ===================================================================== *)

Module Authentication.
Import Py Env FileOperations.

(** The loop of [authenticate_teacher]: [true] at the first entry whose
    name and id both equal the claimed ones; [entry['id']] is looked up
    only when the name matched. *)
Fixpoint matching_entry (data : list pyval) (name teacher_id : string) : outcome bool :=
  match data with
  | [] => Ok false
  | entry :: rest =>
      n ← getitem entry "name";
      same ← (if eq_str n name
              then i ← getitem entry "id"; mret (eq_str i teacher_id)
              else mret false);
      if same : bool then Ok true else matching_entry rest name teacher_id
  end.

Definition verified_message : string := "Verified Successfully!!!".

Definition authenticate_teacher (teachers_file name teacher_id : string) : io bool :=
  data ← read_json teachers_file;
  found ← lift (matching_entry data name teacher_id);
  if found : bool then print verified_message;; mret true
  else mthrow (AuthenticationError "Invalid teacher credentials").

End Authentication.

(* ===================================================================== *)
(** * Search and deletion by name, shared by both models *)
(* ===================================================================== *)

Module Records.
Import Py.

(** The loop of [search]: the first entry whose name equals [name]. *)
Fixpoint first_named (data : list pyval) (name : string) : outcome pyval :=
  match data with
  | [] => Raise (NoMatchingNameError "No matching name found")
  | entry :: rest =>
      n ← getitem entry "name";
      if eq_str n name then Ok entry else first_named rest name
  end.

(** [[entry for entry in data if entry['name'] != name]] *)
Fixpoint not_named (data : list pyval) (name : string) : outcome (list pyval) :=
  match data with
  | [] => Ok []
  | entry :: rest =>
      n ← getitem entry "name";
      kept ← not_named rest name;
      mret (if negb (eq_str n name) then entry :: kept else kept)
  end.

End Records.

(* ===================================================================== *)
(** * models/teacher.py *)
(* ===================================================================== *)

Module Teacher.
Import Py Env FileOperations Records.

Record instance : Type := Build {
  name : string;
  subject : string;
  teacher_id : string;
  address : string;
  email : string;
  phone_number : pyval
}.

(** [[^@]+@[^@]+\.[^@]+] *)
Definition email_pattern : regex :=
  [(NotLit "@", Plus); (Lit "@", Once); (NotLit "@", Plus);
   (Lit ".", Once); (NotLit "@", Plus)].

Definition validate_email (email : string) : outcome string :=
  if re_match email_pattern email then Ok email
  else Raise (ValueError "Invalid email address").

Definition validate_phone_number (phone_number : pyval) : outcome pyval :=
  ten ← (if isinstance_int phone_number
         then s ← str phone_number; mret (Z.of_nat (String.length s) =? 10)
         else mret false);
  if ten : bool then Ok phone_number
  else Raise (ValueError "Phone number must be an integer with 10 digits").

(** [Teacher(name, subject, teacher_id, address, email, phone_number)] *)
Definition init (name subject teacher_id address email : string)
    (phone_number : pyval) : outcome instance :=
  email' ← validate_email email;
  phone_number' ← validate_phone_number phone_number;
  mret (Build name subject teacher_id address email' phone_number').

(** The dictionary [accept] stores for a teacher. *)
Definition new_data (self : instance) : pyval :=
  PDict [("name", PStr (name self));
         ("subject", PStr (subject self));
         ("id", PStr (teacher_id self));
         ("address", PStr (address self));
         ("email", PStr (email self));
         ("phone_number", phone_number self)].

Definition accept (self : instance) (file_path : string) : io unit :=
  append_json file_path (new_data self);;
  print "Teacher added successfully!".

Definition search (file_path name : string) : io pyval :=
  data ← read_json file_path;
  lift (first_named data name).

Definition delete (file_path name : string) : io unit :=
  data ← read_json file_path;
  new_data ← lift (not_named data name);
  write_json file_path new_data.

End Teacher.

(* ===================================================================== *)
(** * models/student.py *)
(* ===================================================================== *)

Module Student.
Import Py Env FileOperations Records.

Record instance : Type := Build {
  name : string;
  roll_number : string;
  email : string;
  phone_number : Z;
  marks : pyval;
  address : string
}.

(** The dictionary [accept] stores for a student. *)
Definition new_data (self : instance) : pyval :=
  PDict [("name", PStr (name self));
         ("roll_number", PStr (roll_number self));
         ("email", PStr (email self));
         ("phone_number", PInt (phone_number self));
         ("marks", marks self);
         ("address", PStr (address self))].

Definition is_AuthenticationError (e : exn) : bool :=
  match e with AuthenticationError _ => true | _ => false end.

Definition accept (self : instance) (file_path teachers_file : string) : io unit :=
  try_except
    (append_json file_path (new_data self);;
     print "Student added successfully!")
    is_AuthenticationError
    (fun e => print (exn_message e)).

Definition search (file_path name : string) : io pyval :=
  data ← read_json file_path;
  lift (first_named data name).

Definition delete (file_path name : string) : io unit :=
  data ← read_json file_path;
  new_data ← lift (not_named data name);
  write_json file_path new_data.

(** [all(mark >= 32 for mark in entry['marks'].values())] *)
Definition all_marks_pass (entry : pyval) : outcome bool :=
  m ← getitem entry "marks";
  vs ← values m;
  all_ge 32 vs.

(** [[entry for entry in data if all(...)]] *)
Fixpoint passed_students (data : list pyval) : outcome (list pyval) :=
  match data with
  | [] => Ok []
  | entry :: rest =>
      ok ← all_marks_pass entry;
      kept ← passed_students rest;
      mret (if ok : bool then entry :: kept else kept)
  end.

(** The loop of [pass_fail_determination]. *)
Fixpoint pass_students (data : list pyval) : outcome (list pyval) :=
  match data with
  | [] => Ok []
  | entry :: rest =>
      ok ← all_marks_pass entry;
      if ok : bool then
        n ← getitem entry "name";
        m ← getitem entry "marks";
        more ← pass_students rest;
        mret (PDict [("name", n); ("marks", m)] :: more)
      else pass_students rest
  end.

Definition pass_fail_determination (file_path : string) : io (list pyval) :=
  data ← read_json file_path;
  lift (pass_students data).

(** [sum(entry['marks'].values())] *)
Definition total_of (entry : pyval) : outcome Z :=
  m ← getitem entry "marks";
  vs ← values m;
  sum vs.

Fixpoint totals (entries : list pyval) : outcome (list Z) :=
  match entries with
  | [] => Ok []
  | entry :: rest =>
      t ← total_of entry;
      ts ← totals rest;
      mret (t :: ts)
  end.

(** [max] and [min] of a non-empty list of integers, given by its head
    and tail. *)
Definition max_list (t : Z) (ts : list Z) : Z := fold_left Z.max ts t.
Definition min_list (t : Z) (ts : list Z) : Z := fold_left Z.min ts t.

Definition extremes (data : list pyval) : outcome (pyval * pyval) :=
  passed ← passed_students data;
  total_marks ← totals passed;
  mret match total_marks with
       | t :: ts => (PInt (max_list t ts), PInt (min_list t ts))
       | [] => (PStr "-", PStr "-")
       end.

Definition highest_and_lowest_scores (file_path : string) : io (pyval * pyval) :=
  data ← read_json file_path;
  lift (extremes data).

(** What [calculate_percentage] returns: the string ["-"] or a float. *)
Inductive percentage : Type :=
| Dash
| Percent (x : float).

Definition calculate_percentage (marks : pyval) : outcome percentage :=
  vs ← values marks;
  total_marks ← sum vs;
  failed ← any_lt 32 vs;
  if failed : bool then Ok Dash
  else
    n ← len marks;
    q ← truediv total_marks (n * 100);
    mret (Percent (round (q * 100) 3)).

Fixpoint percentages (data : list pyval) : outcome (list (pyval * percentage)) :=
  match data with
  | [] => Ok []
  | entry :: rest =>
      m ← getitem entry "marks";
      p ← calculate_percentage m;
      n ← getitem entry "name";
      more ← percentages rest;
      mret ((n, p) :: more)
  end.

Definition calculate_percentage_for_all (file_path : string)
    : io (list (pyval * percentage)) :=
  data ← read_json file_path;
  lift (percentages data).

(** [sorted(entries, key=..., reverse=True)] on entries paired with their
    keys: a stable sort into descending key order, so entries of equal
    key keep the order they had. *)
Fixpoint insert_desc (x : Z * pyval) (l : list (Z * pyval)) : list (Z * pyval) :=
  match l with
  | [] => [x]
  | y :: rest => if fst x <? fst y then y :: insert_desc x rest else x :: l
  end.

Definition sorted_desc (l : list (Z * pyval)) : list (Z * pyval) :=
  fold_right insert_desc [] l.

(** The loop over [enumerate(sorted_data)], counting from [index]. *)
Fixpoint enumerate_ranks (index : Z) (sorted_data : list pyval)
    : outcome (list (pyval * Z)) :=
  match sorted_data with
  | [] => Ok []
  | entry :: rest =>
      n ← getitem entry "name";
      more ← enumerate_ranks (index + 1) rest;
      mret ((n, index + 1) :: more)
  end.

Definition ranks (data : list pyval) : outcome (list (pyval * Z)) :=
  passed ← passed_students data;
  keys ← totals passed;
  let sorted_data := map snd (sorted_desc (combine keys passed)) in
  enumerate_ranks 0 sorted_data.

Definition calculate_rank (file_path : string) : io (list (pyval * Z)) :=
  data ← read_json file_path;
  lift (ranks data).

End Student.

(* ===================================================================== *)
(** * main.py: the commands that write *)
(* ===================================================================== *)

Module Main.
Import Py Env FileOperations Authentication.

(** [any(teacher.get('teacher_id') == teacher_id for teacher in teachers)] *)
Fixpoint any_teacher_id (teachers : list pyval) (teacher_id : string) : outcome bool :=
  match teachers with
  | [] => Ok false
  | teacher :: rest =>
      v ← get teacher "teacher_id";
      if eq_str v teacher_id then Ok true else any_teacher_id rest teacher_id
  end.

(** [any(student['roll_number'] == roll_number for student in students)] *)
Fixpoint any_roll_number (students : list pyval) (roll_number : string) : outcome bool :=
  match students with
  | [] => Ok false
  | student :: rest =>
      v ← getitem student "roll_number";
      if eq_str v roll_number then Ok true else any_roll_number rest roll_number
  end.

(** The check both adding commands make: [authenticate_teacher] returns
    [True] or raises, so the [raise] of the command itself is never
    reached. *)
Definition verify (teachers_file teacher_name teacher_id : string) : io unit :=
  ok ← authenticate_teacher teachers_file teacher_name teacher_id;
  if negb ok
  then mthrow (AuthenticationError "Authentication failed. Only teachers can add new data.")
  else mret tt.

Definition add_new_teacher_from_user (file_path : string) : io unit :=
  try_except
    (teachers ← read_json file_path;
     match teachers with
     | _ :: _ =>
         print "You need to verify yourself as a teacher to add new entries.";;
         teacher_name ← input "Enter your name: ";
         teacher_id ← input "Enter your ID number: ";
         verify file_path teacher_name teacher_id
     | [] => mret tt
     end;;
     name ← input "Enter teacher's name: ";
     subject ← input "Enter subject: ";
     teacher_id ← input "Enter teacher ID: ";
     address ← input "Enter address: ";
     email ← input "Enter email: ";
     phone_number ← input "Enter phone number: ";
     taken ← lift (any_teacher_id teachers teacher_id);
     if taken : bool then mthrow (ValueError "Teacher ID must be unique.")
     else
       phone ← lift (int phone_number);
       new_teacher ← lift (Teacher.init name subject teacher_id address email (PInt phone));
       Teacher.accept new_teacher file_path)
    is_ValueError
    (fun e => print (exn_message e)).

Section AddStudent.

(** [json.loads], which parses the marks the user types; its failure is
    a [ValueError]. *)
Variable json_loads : string -> outcome pyval.

Definition is_ValueError_or_AuthenticationError (e : exn) : bool :=
  is_ValueError e || Student.is_AuthenticationError e.

(** [Enter marks (e.g., {"c": 56, "c++": 52, "python": 89}): ] *)
Definition marks_prompt : string :=
  let q := String (ascii_of_nat 34) EmptyString in
  "Enter marks (e.g., {" +:+ q +:+ "c" +:+ q +:+ ": 56, " +:+ q +:+ "c++" +:+ q
  +:+ ": 52, " +:+ q +:+ "python" +:+ q +:+ ": 89}): ".

Definition add_new_student_from_user (students_file teachers_file : string) : io unit :=
  try_except
    (print "You need to verify yourself as a teacher to add new entries.";;
     teacher_name ← input "Enter your name: ";
     teacher_id ← input "Enter your Id number: ";
     verify teachers_file teacher_name teacher_id;;
     name ← input "Enter student's name: ";
     roll_number ← input "Enter roll number: ";
     email ← input "Enter email: ";
     phone_number ← input "Enter phone number: ";
     marks_input ← input marks_prompt;
     marks ← lift (json_loads marks_input);
     address ← input "Enter address: ";
     students ← read_json students_file;
     taken ← lift (any_roll_number students roll_number);
     if taken : bool then mthrow (ValueError "Student roll number must be unique.")
     else
       phone ← lift (int phone_number);
       Student.accept (Student.Build name roll_number email phone marks address)
                      students_file teachers_file)
    is_ValueError_or_AuthenticationError
    (fun e => print (exn_message e)).

End AddStudent.

Definition is_NoMatchingNameError (e : exn) : bool :=
  match e with NoMatchingNameError _ => true | _ => false end.

Definition delete_record (teachers_file students_file name : string) : io unit :=
  teacher_deleted ←
    try_except (Teacher.delete teachers_file name;; mret true)
               is_NoMatchingNameError (fun _ => mret false);
  student_deleted ←
    try_except (Student.delete students_file name;; mret true)
               is_NoMatchingNameError (fun _ => mret false);
  if teacher_deleted || student_deleted
  then print ("Record for " +:+ name +:+ " deleted successfully.")
  else print "No matching name found.".

End Main.

(* ===================================================================== *)
(** * Vocabulary of the specification *)
(* ===================================================================== *)

Module Spec.
Import Py Env.

(** ** Validation *)

(** A positive integer written with exactly ten decimal digits. *)
Definition ten_digit_positive (z : Z) : Prop := 10 ^ 9 <= z < 10 ^ 10.

(** A negative integer written with nine digits: with its sign, ten
    characters. *)
Definition nine_digit_negative (z : Z) : Prop := - 10 ^ 9 < z <= - 10 ^ 8.

(** No character of [s] is [@]. *)
Fixpoint no_at (s : string) : bool :=
  match s with
  | EmptyString => true
  | String c rest => negb (Ascii.eqb c "@") && no_at rest
  end.

(** One or more characters, none of them [@]. *)
Definition part (s : string) : Prop := s <> "" /\ no_at s = true.

(** The whole of [s] is [part @ part . part]. *)
Definition email_shape (s : string) : Prop :=
  exists l d t, s = l +:+ "@" +:+ d +:+ "." +:+ t /\ part l /\ part d /\ part t.

(** Some prefix of [s] has the shape; anything may follow it. *)
Definition email_prefix (s : string) : Prop :=
  exists p rest, s = p +:+ rest /\ email_shape p.

(** Every character of [s] is in the class. *)
Fixpoint all_in (cl : char_class) (s : string) : bool :=
  match s with
  | EmptyString => true
  | String c rest => in_class cl c && all_in cl rest
  end.

Fixpoint count_at (s : string) : nat :=
  match s with
  | EmptyString => O
  | String c rest => ((if Ascii.eqb c "@" then 1 else 0) + count_at rest)%nat
  end.

(** ** Stored collections *)

(** The collection stored under [path]: what [read_json] returns. *)
Definition contents (s : state) (path : string) : list pyval :=
  default [] (files s !! path).

(** [entry] is a dictionary with the key [k]. *)
Definition has_key (k : string) (entry : pyval) : bool :=
  match entry with
  | PDict items => match lookup_item k items with Some _ => true | None => false end
  | _ => false
  end.

(** The field [k] of [entry] is the string [s]. *)
Definition field_is (k : string) (entry : pyval) (s : string) : bool :=
  match getitem entry k with
  | Ok v => eq_str v s
  | Raise _ => false
  end.

(** A record with a name (teachers and students alike). *)
Definition named (entry : pyval) : bool := has_key "name" entry.

(** A teacher record as far as authentication reads it. *)
Definition teacher_entry (entry : pyval) : bool :=
  has_key "name" entry && has_key "id" entry.

(** ** Ordering of writes and authenticator checks *)

(** The line [authenticate_teacher] prints when, and only when, it
    returns [True]. *)
Definition is_verified (e : event) : bool :=
  match e with
  | EvPrint line => String.eqb line Authentication.verified_message
  | _ => false
  end.

Definition is_write (e : event) : bool :=
  match e with
  | EvWrite _ _ => true
  | _ => false
  end.

(** [guarded_from seen tr]: every write of [tr] comes after a successful
    check, [seen] telling whether one happened before [tr]. *)
Fixpoint guarded_from (seen : bool) (tr : list event) : bool :=
  match tr with
  | [] => true
  | e :: rest =>
      (if is_write e then seen else true)
      && guarded_from (seen || is_verified e) rest
  end.

Definition guarded (tr : list event) : bool := guarded_from false tr.

(** A command that writes nothing. *)
Definition quiet {A} (m : io A) : Prop :=
  forall s, existsb is_write (trace (m s)) = false.

(** A command that writes nothing and, when it returns, has printed the
    line of a successful check. *)
Definition checking {A} (m : io A) : Prop :=
  forall s, existsb is_write (trace (m s)) = false /\
            (forall a, result (m s) = Ok a -> existsb is_verified (trace (m s)) = true).

(** A command all of whose writes come after a successful check. *)
Definition guarding {A} (m : io A) : Prop :=
  forall s, guarded (trace (m s)) = true.

(** A command that never prints the line of a successful check. *)
Definition unverified {A} (m : io A) : Prop :=
  forall s, existsb is_verified (trace (m s)) = false.

(** ** Students and their marks *)

(** The integer an [int] or [bool] mark counts as. *)
Definition int_of (v : pyval) : Z :=
  match as_int v with
  | Ok z => z
  | Raise _ => 0
  end.

(** A marks mapping: a dictionary whose values are integers. *)
Definition marks_dict (m : pyval) : bool :=
  match m with
  | PDict items => forallb isinstance_int (map snd items)
  | _ => false
  end.

(** The marks of a mapping, in stored order. *)
Definition marks_list (m : pyval) : list Z :=
  match m with
  | PDict items => map int_of (map snd items)
  | _ => []
  end.

(** A student record as far as the scoring functions read it: a name and
    a marks mapping. *)
Definition student_entry (entry : pyval) : bool :=
  has_key "name" entry &&
  match getitem entry "marks" with
  | Ok m => marks_dict m
  | Raise _ => false
  end.

Definition field (k : string) (entry : pyval) : pyval :=
  match getitem entry k with
  | Ok v => v
  | Raise _ => PNone
  end.

Definition marks_of (entry : pyval) : list Z := marks_list (field "marks" entry).

Definition sum_list (zs : list Z) : Z := fold_right Z.add 0 zs.

(** The total score of a student. *)
Definition total (entry : pyval) : Z := sum_list (marks_of entry).

(** The passing threshold: every mark is at least 32. *)
Definition passing (entry : pyval) : bool := forallb (Z.leb 32) (marks_of entry).

(** What [pass_fail_determination] lists for a student. *)
Definition summary (entry : pyval) : pyval :=
  PDict [("name", field "name" entry); ("marks", field "marks" entry)].

(** Names paired with the positions [i+1], [i+2], ... *)
Fixpoint numbered_from (i : Z) (entries : list pyval) : list (pyval * Z) :=
  match entries with
  | [] => []
  | entry :: rest => (field "name" entry, i + 1) :: numbered_from (i + 1) rest
  end.

(** Descending order of total score. *)
Definition descending : list pyval -> Prop :=
  StronglySorted (fun a b => total b <= total a).

(** The entries of [l] whose total is [t], in the order of [l]. *)
Definition with_total (t : Z) (l : list pyval) : list pyval :=
  List.filter (fun e => total e =? t) l.

(** Descending order of the sort keys. *)
Definition key_descending : list (Z * pyval) -> Prop :=
  StronglySorted (fun a b => fst b <= fst a).

(** Entries paired with their own totals. *)
Definition keyed (l : list (Z * pyval)) : Prop :=
  Forall (fun p => fst p = total (snd p)) l.

(** What [sorted] with the total as key and [reverse=True] returns. *)
Definition sorted_by_total (entries : list pyval) : list pyval :=
  map snd (Student.sorted_desc (combine (map total entries) entries)).

(** ** Percentages *)

(** The arithmetic of [calculate_percentage] on a total and a count. *)
Definition float_percentage (total count : Z) : outcome Student.percentage :=
  q ← truediv total (count * 100);
  mret (Student.Percent (round (q * 100) 3)).

(** The double written with the decimal digits of [k / 1000]. *)
Definition thousandths (k : Z) : float := SF2Prim (nearest_double k 1000).

(** The mean [total / count] rounded to three decimals, halves to even. *)
Definition mean_rounded (total count : Z) : float :=
  thousandths (div_half_even (total * 1000) count).

(** [float_percentage] yields the rounded mean: the integer of
    thousandths it rounds to is the one of the exact mean. *)
Definition agrees_with_mean (total count : Z) : bool :=
  match truediv total (count * 100) with
  | Ok q =>
      match Prim2SF (q * 100) with
      | S754_finite false m e =>
          scaled_half_even m e 1000 =? div_half_even (total * 1000) count
      | _ => false
      end
  | Raise _ => false
  end.

(** The integers from [lo] to [hi]. *)
Definition Zrange (lo hi : Z) : list Z :=
  map (fun i => lo + Z.of_nat i) (seq 0 (Z.to_nat (hi - lo + 1))).

(** Every total that [count] marks between 32 and 100 can reach. *)
Definition agrees_for_count (count : Z) : bool :=
  forallb (fun total => agrees_with_mean total count) (Zrange (32 * count) (100 * count)).

End Spec.

(* ===================================================================== *)
(** * Sample data *)
(* ===================================================================== *)

Module Examples.
Import Py Env.

Definition two_anns : list pyval :=
  [PDict [("name", PStr "Ann"); ("roll_number", PStr "1")];
   PDict [("name", PStr "Bob"); ("roll_number", PStr "2")];
   PDict [("name", PStr "Ann"); ("roll_number", PStr "3")]].

(** A teacher as [Teacher.accept] stored her. *)
Definition ada : pyval :=
  Teacher.new_data (Teacher.Build "Ada" "Maths" "T1" "1 Main St" "ada@school.org"
                                  (PInt 1234567890)).

(** The teacher file holds Ada; the user signs in as Ada and then enters
    a new teacher, Bob, under Ada's id [T1]. *)
Definition duplicate_id_session : state :=
  State {["teachers.json" := [ada]]}
        ["Ada"; "T1";
         "Bob"; "Physics"; "T1"; "2 Side St"; "bob@school.org"; "9876543210"].

Definition bob : pyval :=
  Teacher.new_data (Teacher.Build "Bob" "Physics" "T1" "2 Side St" "bob@school.org"
                                  (PInt 9876543210)).

(** Ada is stored and nobody has signed in: the user only types a name to
    delete. *)
Definition unauthenticated_session : state :=
  State {["teachers.json" := [ada]]} [].

Definition student (name : string) (marks : list (string * Z)) : pyval :=
  PDict [("name", PStr name);
         ("marks", PDict (map (fun '(subject, mark) => (subject, PInt mark)) marks))].

(** The class of the specification's example, then a student without
    marks and one whose total equals B's. *)
Definition class : list pyval :=
  [student "A" [("math", 40); ("sci", 30)];
   student "B" [("math", 90); ("sci", 85)];
   student "C" [];
   student "D" [("math", 85); ("sci", 90)]].

End Examples.

(* ===================================================================== *)
(** * main.py: the command that reports the extremes *)
(* ===================================================================== *)

Module Reports.
Import Py Env.

(** [find_highest_and_lowest_scores]: the two values are integers or the
    string ["-"], which an f-string shows as [str] does. *)
Definition find_highest_and_lowest_scores (students_file : string) : io unit :=
  scores ← Student.highest_and_lowest_scores students_file;
  highest ← lift (str (fst scores));
  print ("Highest Score: " +:+ highest);;
  lowest ← lift (str (snd scores));
  print ("Lowest Score: " +:+ lowest).

End Reports.

(* ===================================================================== *)
(** * The commands that display: models and main.py *)
(* ===================================================================== *)

Module Display.
Import Py Env FileOperations.

(** The line break that opens a heading. *)
Definition newline : string := String (ascii_of_nat 10) EmptyString.

Section Formatting.

(** What an f-string shows for a list or a dictionary, and for a float:
    their [repr]. *)
Variable repr : pyval -> string.
Variable repr_float : float -> string.

(** What an f-string shows for a value. *)
Definition shown (v : pyval) : string :=
  match str v with
  | Ok text => text
  | Raise _ => repr v
  end.

(** An f-string made of labels, each followed by [{entry[key]}]: the
    subscriptions are evaluated from left to right. *)
Fixpoint fields (entry : pyval) (parts : list (string * string)) : outcome string :=
  match parts with
  | [] => Ok EmptyString
  | (label, key) :: rest =>
      v ← getitem entry key;
      more ← fields entry rest;
      mret (label +:+ shown v +:+ more)
  end.

(** [for entry in data: print(f"...")] *)
Fixpoint print_each (parts : list (string * string)) (data : list pyval) : io unit :=
  match data with
  | [] => mret tt
  | entry :: rest =>
      line ← lift (fields entry parts);
      print line;;
      print_each parts rest
  end.

Definition teacher_brief : list (string * string) :=
  [("Name: ", "name"); (", Email: ", "email"); (", Phone: ", "phone_number");
   (", Subject: ", "subject")].

Definition teacher_full : list (string * string) :=
  [("Name: ", "name"); (", Subject: ", "subject"); (", ID: ", "id");
   (", Address: ", "address"); (", Email: ", "email"); (", Phone: ", "phone_number")].

Definition student_brief : list (string * string) :=
  [("Name: ", "name"); (", Email: ", "email"); (", Phone: ", "phone_number");
   (", Marks: ", "marks")].

Definition student_full : list (string * string) :=
  [("Name: ", "name"); (", Roll Number: ", "roll_number"); (", Email: ", "email");
   (", Phone: ", "phone_number"); (", Marks: ", "marks"); (", Address: ", "address")].

(** [Teacher.display_all] and [Teacher.display_full_details] *)
Definition teacher_display_all (file_path : string) : io unit :=
  data ← read_json file_path;
  print_each teacher_brief data.

Definition teacher_display_full_details (file_path : string) : io unit :=
  print (newline +:+ "Teacher Record:");;
  data ← read_json file_path;
  print_each teacher_full data.

(** [Student.display_all] and [Student.display_full_details] *)
Definition student_display_all (file_path : string) : io unit :=
  data ← read_json file_path;
  print_each student_brief data.

Definition student_display_full_details (file_path : string) : io unit :=
  print (newline +:+ "Student Record:");;
  data ← read_json file_path;
  print_each student_full data.

Definition display_general_info (teachers_file students_file : string) : io unit :=
  print (newline +:+ "Teachers:");;
  teacher_display_all teachers_file;;
  print (newline +:+ "Students:");;
  student_display_all students_file.

(** [search_record]: [found] is set once a record has been printed. *)
Definition search_record (teachers_file students_file name : string) : io unit :=
  found ←
    try_except
      (teacher_record ← Teacher.search teachers_file name;
       print (newline +:+ "Teacher Record:");;
       line ← lift (fields teacher_record teacher_full);
       print line;;
       mret true)
      Main.is_NoMatchingNameError (fun _ => mret false);
  found ←
    try_except
      (student_record ← Student.search students_file name;
       print (newline +:+ "Student Record:");;
       line ← lift (fields student_record student_full);
       print line;;
       mret true)
      Main.is_NoMatchingNameError (fun _ => mret found);
  if found : bool then mret tt else print "No matching record found.".

Definition determine_pass_fail (students_file : string) : io unit :=
  pass_students ← Student.pass_fail_determination students_file;
  print "Pass Students:";;
  print_each [("Name: ", "name"); (", Marks: ", "marks")] pass_students.

Definition shown_percentage (p : Student.percentage) : string :=
  match p with
  | Student.Dash => "-"
  | Student.Percent x => repr_float x
  end.

Fixpoint print_percentages (rows : list (pyval * Student.percentage)) : io unit :=
  match rows with
  | [] => mret tt
  | (name, percentage) :: rest =>
      print ("Name: " +:+ shown name +:+ ", Percentage: " +:+ shown_percentage percentage);;
      print_percentages rest
  end.

Definition calculate_percentages (students_file : string) : io unit :=
  percentages ← Student.calculate_percentage_for_all students_file;
  print_percentages percentages.

Fixpoint print_ranks (rows : list (pyval * Z)) : io unit :=
  match rows with
  | [] => mret tt
  | (name, rank) :: rest =>
      print ("Name: " +:+ shown name +:+ ", Rank: " +:+ str_int rank);;
      print_ranks rest
  end.

Definition calculate_rank (students_file : string) : io unit :=
  ranks ← Student.calculate_rank students_file;
  print_ranks ranks.

End Formatting.
End Display.

(* ===================================================================== *)
(** * main.py: the menu *)
(* ===================================================================== *)

Module Menu.
Import Py Env FileOperations.

Definition TEACHERS_FILE : string := "../data/teachers.json".
Definition STUDENTS_FILE : string := "../data/students.json".

Definition menu_lines : list string :=
  [Display.newline +:+ "Welcome to Student and Teacher Management System";
   "1. Add a new teacher";
   "2. Add a new student";
   "3. Display general information";
   "4. Display full details of all teachers";
   "5. Display full details of all students";
   "6. Search for a record";
   "7. Delete a record";
   "8. Determine pass/fail";
   "9. Find highest and lowest scores";
   "10. Calculate percentages";
   "11. Calculate rank";
   "12. Exit"].

Fixpoint print_lines (lines : list string) : io unit :=
  match lines with
  | [] => mret tt
  | line :: rest => print line;; print_lines rest
  end.

Section Session.

Variable json_loads : string -> outcome pyval.
Variable repr : pyval -> string.
Variable repr_float : float -> string.

(** The branch taken for a choice; [true] when the loop is left. *)
Definition dispatch (choice : string) : io bool :=
  if String.eqb choice "1" then
    Main.add_new_teacher_from_user TEACHERS_FILE;; mret false
  else if String.eqb choice "2" then
    Main.add_new_student_from_user json_loads STUDENTS_FILE TEACHERS_FILE;; mret false
  else if String.eqb choice "3" then
    Display.display_general_info repr TEACHERS_FILE STUDENTS_FILE;; mret false
  else if String.eqb choice "4" then
    Display.teacher_display_full_details repr TEACHERS_FILE;; mret false
  else if String.eqb choice "5" then
    Display.student_display_full_details repr STUDENTS_FILE;; mret false
  else if String.eqb choice "6" then
    name ← input "Enter name to search: ";
    Display.search_record repr TEACHERS_FILE STUDENTS_FILE name;; mret false
  else if String.eqb choice "7" then
    name ← input "Enter name to delete: ";
    Main.delete_record TEACHERS_FILE STUDENTS_FILE name;; mret false
  else if String.eqb choice "8" then
    Display.determine_pass_fail repr STUDENTS_FILE;; mret false
  else if String.eqb choice "9" then
    Reports.find_highest_and_lowest_scores STUDENTS_FILE;; mret false
  else if String.eqb choice "10" then
    Display.calculate_percentages repr repr_float STUDENTS_FILE;; mret false
  else if String.eqb choice "11" then
    Display.calculate_rank repr STUDENTS_FILE;; mret false
  else if String.eqb choice "12" then
    print "Exiting program...";; mret true
  else
    print "Invalid choice. Please enter a number from 1 to 12.";; mret false.

(** [while True]: one unit of fuel per turn of the loop; [None] when the
    fuel runs out before the loop is left. *)
Fixpoint main_loop (fuel : nat) : io (option unit) :=
  match fuel with
  | O => mret None
  | S fuel' =>
      print_lines menu_lines;;
      choice ← input "Enter your choice (1-12): ";
      leave ← dispatch choice;
      if leave : bool then mret (Some tt) else main_loop fuel'
  end.

End Session.
End Menu.

(* ===================================================================== *)
(** * Vocabulary for running commands step by step *)
(* ===================================================================== *)

Module Steps.
Import Py Env Spec.

(** The run [r] continued from a point where [t] had already happened. *)
Definition after {A} (t : list event) (r : run A) : run A :=
  Run (result r) (final r) (t ++ trace r).


(** ** Commands that only display *)

Definition is_print (e : event) : bool :=
  match e with
  | EvPrint _ => true
  | _ => false
  end.

(** A command that leaves the files and the typed lines as they are and
    does nothing but print. *)
Definition reads_only {A} (m : io A) : Prop :=
  forall s, final (m s) = s /\ forallb is_print (trace (m s)) = true.

(** A command that reads no more lines than were typed. *)
Definition reads_forward {A} (m : io A) : Prop :=
  forall s, (length (stdin (final (m s))) <= length (stdin s))%nat.

(** The record has every key the f-string [parts] asks for. *)
Definition complete (parts : list (string * string)) (entry : pyval) : bool :=
  forallb (fun part => has_key (snd part) entry) parts.

(** The line the f-string [parts] gives for a complete record. *)
Fixpoint line_of (repr : pyval -> string) (entry : pyval)
    (parts : list (string * string)) : string :=
  match parts with
  | [] => EmptyString
  | (label, key) :: rest =>
      label +:+ Display.shown repr (field key entry) +:+ line_of repr entry rest
  end.

(** What [search_record] prints for the record it found, if any. *)
Definition record_lines (repr : pyval -> string) (heading : string)
    (parts : list (string * string)) (found : option pyval) : list event :=
  match found with
  | Some entry => [EvPrint (Display.newline +:+ heading); EvPrint (line_of repr entry parts)]
  | None => []
  end.

(** ** The menu *)

(** The choices whose commands can write: adding a teacher, adding a
    student, deleting a record. *)
Definition writing_choice (choice : string) : bool :=
  String.eqb choice "1" || String.eqb choice "2" || String.eqb choice "7".

(** What one turn of the menu shows before the command of the choice
    runs. *)
Definition turn_trace (choice : string) : list event :=
  map EvPrint Menu.menu_lines
  ++ [EvPrompt "Enter your choice (1-12): "; EvRead choice].

(** The string consists of decimal digits. *)
Fixpoint all_digits (s : string) : bool :=
  match s with
  | EmptyString => true
  | String c rest => is_digit c && all_digits rest
  end.

(** The number of marks of a student. *)
Definition count_marks (entry : pyval) : Z := Z.of_nat (length (marks_of entry)).

(** What [calculate_percentage_for_all] lists for a student with marks. *)
Definition percentage_row (entry : pyval) : pyval * Student.percentage :=
  (field "name" entry,
   if passing entry
   then Student.Percent (mean_rounded (total entry) (count_marks entry))
   else Student.Dash).

(** A student with one to fifteen integer marks, none above 100. *)
Definition graded (entry : pyval) : bool :=
  student_entry entry &&
  (1 <=? count_marks entry) && (count_marks entry <=? 15) &&
  forallb (fun z => z <=? 100) (marks_of entry).

(** ** The adding commands, run on enough typed lines *)

(** What has been shown and typed once the sign-in has been asked for. *)
Definition sign_in_trace (prompt2 n i : string) : list event :=
  [EvPrint "You need to verify yourself as a teacher to add new entries.";
   EvPrompt "Enter your name: "; EvRead n;
   EvPrompt prompt2; EvRead i].

(** The handler of both adding commands: the message is printed and the
    command returns. *)
Definition reported (caught : exn -> bool) (r : run unit) : run unit :=
  match result r with
  | Ok _ => r
  | Raise e =>
      if caught e
      then Run (Ok tt) (final r) (trace r ++ [EvPrint (exn_message e)])
      else r
  end.

(** The six questions of [add_new_teacher_from_user] and what follows
    them, from the trace [t0] on, for the collection [teachers] read at
    the start. *)
Definition teacher_rest_run (file_path : string) (fs : gmap string (list pyval))
    (teachers : list pyval) (t0 : list event)
    (name subject teacher_id address email phone_number : string)
    (rest : list string) : run unit :=
  let t6 := t0 ++ [EvPrompt "Enter teacher's name: "; EvRead name;
                   EvPrompt "Enter subject: "; EvRead subject;
                   EvPrompt "Enter teacher ID: "; EvRead teacher_id;
                   EvPrompt "Enter address: "; EvRead address;
                   EvPrompt "Enter email: "; EvRead email;
                   EvPrompt "Enter phone number: "; EvRead phone_number] in
  match Main.any_teacher_id teachers teacher_id with
  | Raise e => Run (Raise e) (State fs rest) t6
  | Ok true => Run (Raise (ValueError "Teacher ID must be unique.")) (State fs rest) t6
  | Ok false =>
      match int phone_number with
      | Raise e => Run (Raise e) (State fs rest) t6
      | Ok phone =>
          match Teacher.init name subject teacher_id address email (PInt phone) with
          | Raise e => Run (Raise e) (State fs rest) t6
          | Ok new_teacher =>
              let stored := contents (State fs []) file_path
                            ++ [Teacher.new_data new_teacher] in
              Run (Ok tt) (State (<[file_path := stored]> fs) rest)
                  (t6 ++ [EvWrite file_path stored;
                          EvPrint "Teacher added successfully!"])
          end
      end
  end.

(** The body of [add_new_teacher_from_user] when the collection holds
    records: the sign-in, then the rest. *)
Definition teacher_body_run (file_path : string) (fs : gmap string (list pyval))
    (n i name subject teacher_id address email phone_number : string)
    (rest : list string) : run unit :=
  let teachers := contents (State fs []) file_path in
  let t2 := sign_in_trace "Enter your ID number: " n i in
  let after2 := name :: subject :: teacher_id :: address :: email
                  :: phone_number :: rest in
  match Authentication.matching_entry teachers n i with
  | Raise e => Run (Raise e) (State fs after2) t2
  | Ok false =>
      Run (Raise (AuthenticationError "Invalid teacher credentials")) (State fs after2) t2
  | Ok true =>
      teacher_rest_run file_path fs teachers
        (t2 ++ [EvPrint Authentication.verified_message])
        name subject teacher_id address email phone_number rest
  end.

Section StudentBody.

Variable json_loads : string -> outcome pyval.

(** The body of [add_new_student_from_user] on the lines of a sign-in
    and of a student. *)
Definition student_body_run (students_file teachers_file : string)
    (fs : gmap string (list pyval))
    (n i name roll_number email phone_number marks_input address : string)
    (rest : list string) : run unit :=
  let s := State fs [] in
  let t2 := sign_in_trace "Enter your Id number: " n i in
  let after2 := name :: roll_number :: email :: phone_number :: marks_input
                  :: address :: rest in
  match Authentication.matching_entry (contents s teachers_file) n i with
  | Raise e => Run (Raise e) (State fs after2) t2
  | Ok false =>
      Run (Raise (AuthenticationError "Invalid teacher credentials")) (State fs after2) t2
  | Ok true =>
      let t7 := t2 ++ [EvPrint Authentication.verified_message;
                       EvPrompt "Enter student's name: "; EvRead name;
                       EvPrompt "Enter roll number: "; EvRead roll_number;
                       EvPrompt "Enter email: "; EvRead email;
                       EvPrompt "Enter phone number: "; EvRead phone_number;
                       EvPrompt Main.marks_prompt; EvRead marks_input] in
      match json_loads marks_input with
      | Raise e => Run (Raise e) (State fs (address :: rest)) t7
      | Ok marks =>
          let t8 := t7 ++ [EvPrompt "Enter address: "; EvRead address] in
          match Main.any_roll_number (contents s students_file) roll_number with
          | Raise e => Run (Raise e) (State fs rest) t8
          | Ok true =>
              Run (Raise (ValueError "Student roll number must be unique."))
                  (State fs rest) t8
          | Ok false =>
              match int phone_number with
              | Raise e => Run (Raise e) (State fs rest) t8
              | Ok phone =>
                  let record := Student.new_data
                                  (Student.Build name roll_number email phone marks address) in
                  let stored := contents s students_file ++ [record] in
                  Run (Ok tt) (State (<[students_file := stored]> fs) rest)
                      (t8 ++ [EvWrite students_file stored;
                              EvPrint "Student added successfully!"])
              end
          end
      end
  end.

End StudentBody.

End Steps.

(* ===================================================================== *)
(** * Validation: phone numbers *)
(* ===================================================================== *)

Section PhoneNumber.
Import Py Spec.

Lemma digits_from_length (k : nat) :
  forall (fuel : nat) (n : Z) (acc : string),
    (k < fuel)%nat -> 10 ^ Z.of_nat k <= n < 10 ^ (Z.of_nat k + 1) ->
    String.length (digits_from fuel n acc) = (S k + String.length acc)%nat.
Proof.
  induction k as [|k IH]; intros fuel n acc Hfuel Hn;
    (destruct fuel as [|fuel]; [lia|]); cbn [digits_from].
  - change (10 ^ Z.of_nat 0) with 1 in Hn. change (10 ^ (Z.of_nat 0 + 1)) with 10 in Hn.
    rewrite (Z.div_small n 10) by lia. reflexivity.
  - assert (Hpow : 10 ^ Z.of_nat (S k) = 10 * 10 ^ Z.of_nat k).
    { rewrite Nat2Z.inj_succ, Z.pow_succ_r by lia. reflexivity. }
    assert (Hpow' : 10 ^ (Z.of_nat (S k) + 1) = 10 * 10 ^ (Z.of_nat k + 1)).
    { replace (Z.of_nat (S k) + 1) with (Z.succ (Z.of_nat k + 1)) by lia.
      rewrite Z.pow_succ_r by lia. reflexivity. }
    assert (Hk : 0 < 10 ^ Z.of_nat k) by (apply Z.pow_pos_nonneg; lia).
    assert (Hq : 10 ^ Z.of_nat k <= n / 10 < 10 ^ (Z.of_nat k + 1)).
    { split.
      - apply Z.div_le_lower_bound; lia.
      - apply Z.div_lt_upper_bound; lia. }
    destruct (Z.eqb_spec (n / 10) 0) as [Hz|_]; [lia|].
    rewrite (IH fuel (n / 10)) by (lia || exact Hq).
    cbn [String.length]. lia.
Qed.

Lemma decimal_width (m : nat) :
  forall n : Z, 1 <= n < 10 ^ Z.of_nat m ->
    exists k : nat, (k < m)%nat /\ 10 ^ Z.of_nat k <= n < 10 ^ (Z.of_nat k + 1).
Proof.
  induction m as [|m IH]; intros n Hn.
  - change (10 ^ Z.of_nat 0) with 1 in Hn. lia.
  - destruct (Z.lt_ge_cases n (10 ^ Z.of_nat m)) as [Hlt|Hge].
    + destruct (IH n) as (k & Hk & Hr); [lia|]. exists k. split; [lia|exact Hr].
    + exists m. split; [lia|].
      replace (Z.of_nat m + 1) with (Z.of_nat (S m)) by lia. lia.
Qed.

(** The fuel [str_nat] starts with is enough: a number between [10^k]
    and [10^(k+1)] is written with [k+1] digits. *)
Lemma str_nat_length (k : nat) (n : Z) :
  10 ^ Z.of_nat k <= n < 10 ^ (Z.of_nat k + 1) ->
  String.length (str_nat n) = S k.
Proof.
  intros Hn. unfold str_nat.
  assert (Hk : 0 < 10 ^ Z.of_nat k) by (apply Z.pow_pos_nonneg; lia).
  assert (Hlog : Z.of_nat k <= Z.log2 n).
  { apply Z.log2_le_pow2; [lia|].
    transitivity (10 ^ Z.of_nat k); [apply Z.pow_le_mono_l; lia | lia]. }
  assert (Hfuel : (k < S (Z.to_nat (Z.log2 n)))%nat) by lia.
  rewrite (digits_from_length k _ n "" Hfuel Hn).
  cbn. lia.
Qed.

Lemma str_nat_length_inv (n : Z) (k : nat) :
  1 <= n -> String.length (str_nat n) = S k ->
  10 ^ Z.of_nat k <= n < 10 ^ (Z.of_nat k + 1).
Proof.
  intros Hn Hlen.
  destruct (decimal_width (Z.to_nat n) n) as (k' & _ & Hr).
  { split; [lia|]. rewrite Z2Nat.id by lia. apply Z.pow_gt_lin_r; lia. }
  rewrite (str_nat_length k' n Hr) in Hlen.
  assert (k' = k) by lia. subst k'. exact Hr.
Qed.

Lemma str_nat_0 : str_nat 0 = "0".
Proof. reflexivity. Qed.

(** [str(z)] has ten characters exactly for the ten-digit positive
    integers and the nine-digit negative ones. *)
Lemma str_int_length_10 (z : Z) :
  String.length (str_int z) = 10%nat <-> ten_digit_positive z \/ nine_digit_negative z.
Proof.
  unfold str_int, ten_digit_positive, nine_digit_negative.
  destruct (Z.ltb_spec z 0) as [Hneg|Hpos]; cbn [String.length]; split.
  - intros Hlen. right.
    assert (Hr := str_nat_length_inv (- z) 8 ltac:(lia) ltac:(lia)).
    change (Z.of_nat 8 + 1) with 9 in Hr. change (Z.of_nat 8) with 8 in Hr. lia.
  - intros [H|H]; [lia|].
    rewrite (str_nat_length 8); [reflexivity|].
    change (Z.of_nat 8 + 1) with 9. change (Z.of_nat 8) with 8. lia.
  - intros Hlen. left.
    destruct (Z.eq_dec z 0) as [->|Hz]; [discriminate Hlen|].
    assert (Hr := str_nat_length_inv z 9 ltac:(lia) Hlen).
    change (Z.of_nat 9 + 1) with 10 in Hr. change (Z.of_nat 9) with 9 in Hr. exact Hr.
  - intros [H|H]; [|lia].
    apply (str_nat_length 9).
    change (Z.of_nat 9 + 1) with 10. change (Z.of_nat 9) with 9. exact H.
Qed.

(** What [validate_phone_number] accepts: the integers whose [str] has
    ten characters, the sign included. Everything else is refused with
    the [ValueError] of the method. *)
Lemma validate_phone_number_accepts (v : pyval) :
  (Teacher.validate_phone_number v = Ok v <->
   exists z, v = PInt z /\ (ten_digit_positive z \/ nine_digit_negative z)) /\
  (Teacher.validate_phone_number v = Ok v \/
   Teacher.validate_phone_number v =
     Raise (ValueError "Phone number must be an integer with 10 digits")).
Proof.
  unfold Teacher.validate_phone_number.
  destruct v as [|[|]|z|s|l|items]; cbn;
    try (split; [split; [discriminate | intros (z' & Heq & _); discriminate]
                | right; reflexivity]).
  destruct (Z.eqb_spec (Z.of_nat (String.length (str_int z))) 10) as [Hlen|Hlen].
  - split; [|left; reflexivity].
    split; [|reflexivity]. intros _. exists z. split; [reflexivity|].
    apply str_int_length_10. lia.
  - split; [|right; reflexivity].
    split; [discriminate|]. intros (z' & Heq & Hr). injection Heq as <-.
    apply str_int_length_10 in Hr. lia.
Qed.

(** C2 (code defect): [validate_phone_number] is claimed to accept exactly the
    ten-digit positive integers. It measures [len(str(n))], which counts
    the minus sign: the nine-digit negative integer [-123456789], which
    [int] yields for the typed line [-123456789], is accepted and
    returned, although it is neither positive nor ten digits long. *)
Theorem validate_phone_number_negative_accepted :
  int "-123456789" = Ok (-123456789) /\
  Teacher.validate_phone_number (PInt (-123456789)) = Ok (PInt (-123456789)) /\
  ~ ten_digit_positive (-123456789).
Proof.
  split; [reflexivity|]. split; [reflexivity|].
  unfold ten_digit_positive. lia.
Qed.

(** The two examples of the specification. *)
Example validate_phone_number_examples :
  Teacher.validate_phone_number (PInt 1234567890) = Ok (PInt 1234567890) /\
  Teacher.validate_phone_number (PInt 123) =
    Raise (ValueError "Phone number must be an integer with 10 digits").
Proof. split; reflexivity. Qed.

End PhoneNumber.

(* ===================================================================== *)
(** * Validation: e-mail addresses *)
(* ===================================================================== *)

Section Email.
Import Py Spec.

Lemma append_nil_l (s : string) : "" +:+ s = s.
Proof. reflexivity. Qed.

Lemma append_cons (c : ascii) (a b : string) :
  String c a +:+ b = String c (a +:+ b).
Proof. reflexivity. Qed.

Lemma append_nil_r (s : string) : s +:+ "" = s.
Proof.
  induction s as [|c s IH]; [reflexivity | now rewrite append_cons, IH].
Qed.

Lemma append_assoc (a b c : string) : (a +:+ b) +:+ c = a +:+ (b +:+ c).
Proof.
  induction a as [|x a IH]; [reflexivity | now rewrite !append_cons, IH].
Qed.

Ltac normalize_append :=
  repeat (rewrite append_assoc || rewrite append_cons || rewrite append_nil_l).

Lemma re_match_nil (s : string) : re_match [] s = true.
Proof. destruct s; reflexivity. Qed.

(** A single character of the class, then the rest of the pattern. *)
Lemma re_match_once (cl : char_class) (p : regex) (s : string) :
  re_match ((cl, Once) :: p) s = true <->
  exists c rest, s = String c rest /\ in_class cl c = true /\ re_match p rest = true.
Proof.
  destruct s as [|c rest]; cbn.
  - split; [discriminate | intros (c & r & H & _); discriminate].
  - destruct (in_class cl c) eqn:Hc.
    + split; [intros H; exists c, rest; auto|].
      intros (c' & r & Heq & _ & H). injection Heq as -> ->. exact H.
    + split; [discriminate|].
      intros (c' & r & Heq & Hc' & _). injection Heq as -> ->. congruence.
Qed.

(** One or more characters of the class, then the rest of the pattern:
    backtracking finds every split. *)
Lemma re_match_plus (cl : char_class) (p : regex) (s : string) :
  re_match ((cl, Plus) :: p) s = true <->
  exists r rest, s = r +:+ rest /\ r <> "" /\ all_in cl r = true /\
                 re_match p rest = true.
Proof.
  induction s as [|c s IH].
  - cbn. split; [discriminate|].
    intros ([|x r] & rest & Heq & Hne & _); [congruence | discriminate].
  - cbn [re_match]. destruct (in_class cl c) eqn:Hc.
    + rewrite orb_true_iff, IH. split.
      * intros [(r & rest & -> & _ & Hall & Hm) | Hm].
        -- exists (String c r), rest. cbn. rewrite Hc, Hall. auto.
        -- exists (String c ""), s. cbn. rewrite Hc. auto.
      * intros ([|x r] & rest & Heq & Hne & Hall & Hm); [congruence|].
        rewrite append_cons in Heq. cbn in Hall. injection Heq as <- ->.
        apply andb_true_iff in Hall as [_ Hall].
        destruct r as [|y r]; [right; exact Hm|].
        left. exists (String y r), rest. auto.
    + split; [discriminate|].
      intros ([|x r] & rest & Heq & Hne & Hall & _); [congruence|].
      rewrite append_cons in Heq. cbn in Hall. injection Heq as <- ->.
      rewrite Hc in Hall. discriminate.
Qed.

Lemma all_in_no_at (s : string) : all_in (NotLit "@") s = no_at s.
Proof. induction s as [|c s IH]; cbn; [reflexivity | now rewrite IH]. Qed.

Lemma in_class_lit (x c : ascii) : in_class (Lit x) c = true <-> c = x.
Proof. cbn. apply Ascii.eqb_eq. Qed.

(** The pattern of [validate_email] matches exactly when a prefix of the
    string has the shape. *)
Lemma email_pattern_prefix (s : string) :
  re_match Teacher.email_pattern s = true <-> email_prefix s.
Proof.
  unfold Teacher.email_pattern, email_prefix, email_shape, part.
  rewrite re_match_plus. split.
  - intros (l & r1 & -> & Hl & Hla & H1).
    apply re_match_once in H1 as (c1 & r2 & -> & Hc1 & H2).
    apply in_class_lit in Hc1 as ->.
    apply re_match_plus in H2 as (d & r3 & -> & Hd & Hda & H3).
    apply re_match_once in H3 as (c2 & r4 & -> & Hc2 & H4).
    apply in_class_lit in Hc2 as ->.
    apply re_match_plus in H4 as (t & r5 & -> & Ht & Hta & _).
    rewrite all_in_no_at in Hla, Hda, Hta.
    exists (l +:+ "@" +:+ d +:+ "." +:+ t), r5. split.
    + now normalize_append.
    + exists l, d, t. auto.
  - intros (p & rest & -> & l & d & t & -> & [Hl Hla] & [Hd Hda] & [Ht Hta]).
    exists l, ("@" +:+ d +:+ "." +:+ t +:+ rest).
    split; [now normalize_append|].
    split; [exact Hl|]. split; [now rewrite all_in_no_at|].
    normalize_append. apply re_match_once. exists "@"%char, (d +:+ "." +:+ t +:+ rest).
    split; [reflexivity|]. split; [reflexivity|].
    apply re_match_plus. exists d, ("." +:+ t +:+ rest).
    split; [reflexivity|]. split; [exact Hd|]. split; [now rewrite all_in_no_at|].
    normalize_append. apply re_match_once. exists "."%char, (t +:+ rest).
    split; [reflexivity|]. split; [reflexivity|].
    apply re_match_plus. exists t, rest.
    split; [reflexivity|]. split; [exact Ht|]. split; [now rewrite all_in_no_at|].
    apply re_match_nil.
Qed.

Lemma count_at_append (a b : string) :
  count_at (a +:+ b) = (count_at a + count_at b)%nat.
Proof.
  induction a as [|c a IH]; [reflexivity|].
  rewrite append_cons. cbn. rewrite IH. lia.
Qed.

Lemma no_at_count (s : string) : no_at s = true -> count_at s = O.
Proof.
  induction s as [|c s IH]; cbn; [reflexivity|].
  destruct (Ascii.eqb c "@"); cbn; [discriminate | exact IH].
Qed.

(** A string of the shape holds exactly one [@]. *)
Lemma email_shape_one_at (s : string) : email_shape s -> count_at s = 1%nat.
Proof.
  intros (l & d & t & -> & [_ Hl] & [_ Hd] & [_ Ht]).
  rewrite !count_at_append, (no_at_count l Hl), (no_at_count d Hd), (no_at_count t Ht).
  reflexivity.
Qed.

(** C3 (as stated, refuted): the claim says that [validate_email] accepts
    only strings that have the shape as a whole. [re.match] anchors the
    pattern at the start of the string only: [a@b.c@d], which holds two
    [@], is accepted. *)
Lemma validate_email_not_whole_string :
  Teacher.validate_email "a@b.c@d" = Ok "a@b.c@d" /\ ~ email_shape "a@b.c@d".
Proof.
  split; [reflexivity|].
  intros H. apply email_shape_one_at in H. discriminate H.
Qed.

(** C3 (amended): for every string [s], [validate_email] accepts, returning
    [s], iff some prefix of [s] has the shape: one or more non-[@]
    characters, [@], one or more non-[@] characters, [.], one or more
    non-[@] characters; whatever follows that prefix is not looked at.
    Every other string fails with the [ValueError] of the method. In
    particular every string that has the shape as a whole is accepted. *)
Theorem validate_email_accepts_prefix (s : string) :
  (Teacher.validate_email s = Ok s <-> email_prefix s) /\
  (~ email_prefix s ->
   Teacher.validate_email s = Raise (ValueError "Invalid email address")) /\
  (email_shape s -> Teacher.validate_email s = Ok s).
Proof.
  unfold Teacher.validate_email.
  destruct (re_match Teacher.email_pattern s) eqn:Hm.
  - apply email_pattern_prefix in Hm. repeat split; auto. intros H; contradiction.
  - assert (Hn : ~ email_prefix s).
    { intros H. apply email_pattern_prefix in H. congruence. }
    split; [split; [discriminate | intros H; contradiction]|].
    split; [reflexivity|].
    intros H. exfalso. apply Hn. exists s, "". split; [|exact H].
    now rewrite append_nil_r.
Qed.

(** An address of the shape is accepted; one without [@] is refused. *)
Lemma validate_email_accepts_prefix_witness :
  Teacher.validate_email "ada@school.org" = Ok "ada@school.org" /\
  Teacher.validate_email "ada.school.org" = Raise (ValueError "Invalid email address").
Proof.
  split.
  - apply (validate_email_accepts_prefix "ada@school.org").
    exists "ada", "school", "org". repeat split; (reflexivity || discriminate).
  - apply (validate_email_accepts_prefix "ada.school.org").
    intros H. apply email_pattern_prefix in H. vm_compute in H. discriminate H.
Defined.

End Email.

(* ===================================================================== *)
(** * Commands run on a state *)
(* ===================================================================== *)

Section Running.
Import Py Env FileOperations.
Context {A B : Type}.

Lemma run_bind_ok (m : io A) (f : A -> io B) (s : state) (a : A) :
  result (m s) = Ok a ->
  (m ≫= f) s = Run (result (f a (final (m s)))) (final (f a (final (m s))))
                   (trace (m s) ++ trace (f a (final (m s)))).
Proof. intros H. unfold mbind, io_bind. now rewrite H. Qed.

Lemma run_bind_raise (m : io A) (f : A -> io B) (s : state) (e : exn) :
  result (m s) = Raise e ->
  (m ≫= f) s = Run (Raise e) (final (m s)) (trace (m s)).
Proof. intros H. unfold mbind, io_bind. now rewrite H. Qed.

Lemma run_lift_bind (o : outcome A) (f : A -> io B) (s : state) :
  (lift o ≫= f) s =
  match o with
  | Ok a => Run (result (f a s)) (final (f a s)) (trace (f a s))
  | Raise e => Run (Raise e) s []
  end.
Proof. destruct o; reflexivity. Qed.

End Running.

Lemma run_eta {A : Type} (r : Env.run A) :
  Env.Run (Env.result r) (Env.final r) (Env.trace r) = r.
Proof. destruct r; reflexivity. Qed.

Lemma run_read_json_bind {B : Type} (path : string)
    (f : list Py.pyval -> Env.io B) (s : Env.state) :
  (FileOperations.read_json path ≫= f) s = f (Spec.contents s path) s.
Proof.
  unfold mbind, Env.io_bind, FileOperations.read_json. cbn.
  apply run_eta.
Qed.

(* ===================================================================== *)
(** * Deleting and searching by name *)
(* ===================================================================== *)

Section ByName.
Import Py Env FileOperations Records Spec.

Lemma has_key_getitem (k : string) (entry : pyval) :
  has_key k entry = true -> exists v, getitem entry k = Ok v.
Proof.
  destruct entry as [| | | | |items]; cbn; try discriminate.
  destruct (lookup_item k items) as [v|]; [eauto | discriminate].
Qed.

Lemma eq_str_true (v : pyval) (s : string) : eq_str v s = true <-> v = PStr s.
Proof.
  destruct v; cbn; try (split; discriminate).
  rewrite String.eqb_eq. split; [now intros -> | now intros [= ->]].
Qed.

Lemma field_is_true (k : string) (entry : pyval) (s : string) :
  field_is k entry s = true <-> getitem entry k = Ok (PStr s).
Proof.
  unfold field_is. destruct (getitem entry k) as [v|e].
  - rewrite eq_str_true. split; [now intros -> | now intros [= ->]].
  - split; discriminate.
Qed.

(** On named records the comprehension of [delete] is a filter. *)
Lemma not_named_filter (data : list pyval) (name : string) :
  forallb named data = true ->
  not_named data name = Ok (List.filter (fun e => negb (field_is "name" e name)) data).
Proof.
  induction data as [|entry rest IH]; [reflexivity|].
  cbn [forallb]. intros [Hn Hrest]%andb_true_iff.
  cbn [not_named List.filter]. rewrite (IH Hrest).
  unfold field_is. destruct (has_key_getitem _ _ Hn) as [v ->]. cbn.
  destruct (eq_str v name); reflexivity.
Qed.

(** The loop of [search] finds nothing among records of other names. *)
Lemma first_named_none (data : list pyval) (name : string) :
  forallb named data = true ->
  forallb (fun e => negb (field_is "name" e name)) data = true ->
  first_named data name = Raise (NoMatchingNameError "No matching name found").
Proof.
  induction data as [|entry rest IH]; [reflexivity|].
  cbn [forallb]. intros [Hn Hrest]%andb_true_iff [He Hothers]%andb_true_iff.
  cbn [first_named]. unfold field_is in He.
  destruct (has_key_getitem _ _ Hn) as [v Hv]. rewrite Hv in *. cbn.
  destruct (eq_str v name); [discriminate | now apply IH].
Qed.

(** The first record of the name is found, whatever comes after it. *)
Lemma first_named_some (data : list pyval) (name : string) :
  forallb named data = true ->
  existsb (fun e => field_is "name" e name) data = true ->
  exists e, first_named data name = Ok e /\ In e data /\ field_is "name" e name = true.
Proof.
  induction data as [|entry rest IH]; [discriminate|].
  cbn [forallb existsb]. intros [Hn Hrest]%andb_true_iff Hex.
  cbn [first_named]. unfold field_is at 1 in Hex.
  destruct (has_key_getitem _ _ Hn) as [v Hv]. rewrite Hv in *. cbn.
  destruct (eq_str v name) eqn:Hv'.
  - exists entry. split; [reflexivity|]. split; [now left|].
    unfold field_is. now rewrite Hv.
  - cbn in Hex. destruct (IH Hrest Hex) as (e & -> & Hin & He).
    exists e. split; [reflexivity|]. split; [now right | exact He].
Qed.

Lemma forallb_filter_same {X : Type} (p : X -> bool) (l : list X) :
  forallb p (List.filter p l) = true.
Proof.
  induction l as [|x l IH]; [reflexivity|]. cbn.
  destruct (p x) eqn:Hp; cbn; [now rewrite Hp|exact IH].
Qed.

Lemma forallb_filter_keeps {X : Type} (p q : X -> bool) (l : list X) :
  forallb p l = true -> forallb p (List.filter q l) = true.
Proof.
  induction l as [|x l IH]; [reflexivity|]. cbn.
  intros [Hx Hl]%andb_true_iff.
  destruct (q x); cbn; [rewrite Hx|]; auto.
Qed.

Lemma contents_insert (s : state) (path : string) (data : list pyval) :
  contents (State (<[path := data]> (files s)) (stdin s)) path = data.
Proof. unfold contents. cbn. now rewrite lookup_insert_eq. Qed.

Lemma contents_insert_ne (s : state) (path path' : string) (data : list pyval) :
  path <> path' ->
  contents (State (<[path := data]> (files s)) (stdin s)) path' = contents s path'.
Proof. intros H. unfold contents. cbn. now rewrite lookup_insert_ne. Qed.

(** What [delete] does on a collection of named records. *)
Lemma delete_run (s : state) (path name : string) :
  forallb named (contents s path) = true ->
  let kept := List.filter (fun e => negb (field_is "name" e name)) (contents s path) in
  Student.delete path name s =
    Run (Ok tt) (State (<[path := kept]> (files s)) (stdin s)) [EvWrite path kept].
Proof.
  intros Hn kept. unfold Student.delete.
  rewrite run_read_json_bind, run_lift_bind, (not_named_filter _ _ Hn).
  reflexivity.
Qed.

Lemma teacher_delete_same : Teacher.delete = Student.delete.
Proof. reflexivity. Qed.

Lemma teacher_search_same : Teacher.search = Student.search.
Proof. reflexivity. Qed.

(** C5: for every collection of (named) records and every name, [delete]
    removes every record whose name equals it, duplicates included, and
    writes the filtered sequence back; a [search] for the same name on
    the collection it leaves fails with [NoMatchingNameError]. *)
Theorem delete_then_search_fails (s : state) (path name : string) :
  forallb named (contents s path) = true ->
  let r := Student.delete path name s in
  let kept := List.filter (fun e => negb (field_is "name" e name)) (contents s path) in
  result r = Ok tt /\
  trace r = [EvWrite path kept] /\
  contents (final r) path = kept /\
  (forall e, In e (contents (final r) path) -> field_is "name" e name = false) /\
  result (Student.search path name (final r)) =
    Raise (NoMatchingNameError "No matching name found").
Proof.
  intros Hn r kept. subst r. rewrite (delete_run s path name Hn). cbn [result trace final].
  fold kept. rewrite contents_insert.
  split; [reflexivity|]. split; [reflexivity|]. split; [reflexivity|]. split.
  - intros e He. apply filter_In in He as [_ He]. now apply negb_true_iff.
  - unfold Student.search. rewrite run_read_json_bind, contents_insert. cbn.
    rewrite first_named_none; [reflexivity | | apply forallb_filter_same].
    now apply forallb_filter_keeps.
Qed.

(** Both records named Ann go; the search for Ann then fails. *)
Lemma delete_then_search_fails_witness :
  contents (final (Student.delete "students.json" "Ann"
                     (State {["students.json" := Examples.two_anns]} [])))
           "students.json"
  = [PDict [("name", PStr "Bob"); ("roll_number", PStr "2")]] /\
  result (Student.search "students.json" "Ann"
            (final (Student.delete "students.json" "Ann"
                      (State {["students.json" := Examples.two_anns]} []))))
  = Raise (NoMatchingNameError "No matching name found").
Proof.
  pose proof (delete_then_search_fails
                (State {["students.json" := Examples.two_anns]} []) "students.json" "Ann"
                eq_refl) as (_ & _ & Hkept & _ & Hsearch).
  split; [exact Hkept | exact Hsearch].
Defined.

End ByName.

(* ===================================================================== *)
(** * Authentication *)
(* ===================================================================== *)

Section Authenticating.
Import Py Env FileOperations Authentication Spec.

(** On teacher records the loop of [authenticate_teacher] tells whether
    some record has the name and the id. *)
Lemma matching_entry_existsb (data : list pyval) (name teacher_id : string) :
  forallb teacher_entry data = true ->
  matching_entry data name teacher_id =
    Ok (existsb (fun e => field_is "name" e name && field_is "id" e teacher_id) data).
Proof.
  induction data as [|entry rest IH]; [reflexivity|].
  cbn [forallb]. intros [[Hn Hi]%andb_true_iff Hrest]%andb_true_iff.
  cbn [matching_entry existsb]. unfold field_is.
  destruct (has_key_getitem _ _ Hn) as [n ->].
  destruct (has_key_getitem _ _ Hi) as [i ->]. cbn.
  destruct (eq_str n name); cbn; [destruct (eq_str i teacher_id); cbn|];
    auto.
Qed.

Lemma authenticate_teacher_run (s : state) (path name teacher_id : string) :
  authenticate_teacher path name teacher_id s =
  match matching_entry (contents s path) name teacher_id with
  | Ok true => Run (Ok true) s [EvPrint verified_message]
  | Ok false => Run (Raise (AuthenticationError "Invalid teacher credentials")) s []
  | Raise e => Run (Raise e) s []
  end.
Proof.
  unfold authenticate_teacher. rewrite run_read_json_bind, run_lift_bind.
  destruct (matching_entry (contents s path) name teacher_id) as [[|]|e]; reflexivity.
Qed.

(** C6: for every teacher collection and every claimed pair of name and
    id, [authenticate_teacher] returns [True] iff some stored teacher
    record has both its name field equal to the name and its id field
    equal to the id, as strings; when there is no such record it fails
    with [AuthenticationError]. It never returns [False] and changes
    nothing. *)
Theorem authenticate_teacher_iff (s : state) (path name teacher_id : string) :
  forallb teacher_entry (contents s path) = true ->
  let r := authenticate_teacher path name teacher_id s in
  let present := exists e, In e (contents s path) /\
                           getitem e "name" = Ok (PStr name) /\
                           getitem e "id" = Ok (PStr teacher_id) in
  (result r = Ok true <-> present) /\
  (~ present -> result r = Raise (AuthenticationError "Invalid teacher credentials")) /\
  final r = s.
Proof.
  intros Hwf r present. subst r. rewrite authenticate_teacher_run.
  rewrite (matching_entry_existsb _ _ _ Hwf).
  assert (Hiff : existsb (fun e => field_is "name" e name && field_is "id" e teacher_id)
                   (contents s path) = true <-> present).
  { rewrite existsb_exists. unfold present.
    split; intros (e & Hin & H); exists e; (split; [exact Hin|]).
    - apply andb_true_iff in H as [H1 H2]. now rewrite <- !field_is_true.
    - apply andb_true_iff. now rewrite !field_is_true. }
  destruct (existsb _ _); cbn [result final].
  - split; [tauto|]. split; [|reflexivity]. intros Hn. exfalso. apply Hn, Hiff. reflexivity.
  - split; [|split; reflexivity].
    split; [discriminate|]. intros Hp. apply Hiff in Hp. discriminate.
Qed.

(** Ada signs in with her name and id; with another id she is refused. *)
Lemma authenticate_teacher_iff_witness :
  result (authenticate_teacher "teachers.json" "Ada" "T1" Examples.unauthenticated_session)
    = Ok true /\
  result (authenticate_teacher "teachers.json" "Ada" "T2" Examples.unauthenticated_session)
    = Raise (AuthenticationError "Invalid teacher credentials").
Proof.
  split.
  - apply (authenticate_teacher_iff Examples.unauthenticated_session
             "teachers.json" "Ada" "T1" eq_refl).
    exists Examples.ada. split; [now left|]. split; reflexivity.
  - apply (authenticate_teacher_iff Examples.unauthenticated_session
             "teachers.json" "Ada" "T2" eq_refl).
    intros (e & [<-|[]] & _ & Hid). discriminate Hid.
Defined.

End Authenticating.

(* ===================================================================== *)
(** * Uniqueness of the teacher id *)
(* ===================================================================== *)

Section TeacherId.
Import Py Env FileOperations Spec.

(** A record stored by [Teacher.accept] keeps the id under the key [id]:
    it has no key [teacher_id], so the uniqueness test of
    [add_new_teacher_from_user], which reads [teacher.get('teacher_id')],
    compares [None] with the new id and never finds it taken. *)
Lemma any_teacher_id_never (ts : list Teacher.instance) (teacher_id : string) :
  Main.any_teacher_id (map Teacher.new_data ts) teacher_id = Ok false.
Proof.
  induction ts as [|t ts IH]; [reflexivity|].
  cbn [map Main.any_teacher_id]. cbn. exact IH.
Qed.

(** The test of the student command reads the key that [Student.accept]
    writes, and does find a roll number that is taken. *)
Lemma any_roll_number_finds (ss : list Student.instance) (roll_number : string) :
  Main.any_roll_number (map Student.new_data ss) roll_number =
    Ok (existsb (fun st => String.eqb (Student.roll_number st) roll_number) ss).
Proof.
  induction ss as [|st ss IH]; [reflexivity|].
  cbn [map Main.any_roll_number existsb]. cbn.
  destruct (String.eqb (Student.roll_number st) roll_number); [reflexivity | exact IH].
Qed.

(** C1 (code defect): creating a teacher whose [teacher_id] is the id of a
    stored record is claimed to fail before any write. In the session
    below the file holds Ada with id [T1] and the user, signed in as Ada,
    enters Bob with the id [T1]: the command succeeds, rewrites the file
    and leaves two records with the id [T1]. *)
Theorem duplicate_teacher_id_is_stored :
  let r := Main.add_new_teacher_from_user "teachers.json" Examples.duplicate_id_session in
  contents Examples.duplicate_id_session "teachers.json" = [Examples.ada] /\
  getitem Examples.ada "id" = Ok (PStr "T1") /\
  result r = Ok tt /\
  contents (final r) "teachers.json" = [Examples.ada; Examples.bob] /\
  getitem Examples.bob "id" = Ok (PStr "T1") /\
  In (EvWrite "teachers.json" [Examples.ada; Examples.bob]) (trace r).
Proof.
  cbv zeta. repeat split; vm_compute; try reflexivity.
  repeat (first [left; reflexivity | right]).
Qed.

End TeacherId.

(* ===================================================================== *)
(** * Writes and authenticator checks *)
(* ===================================================================== *)

Section Guarding.
Import Py Env FileOperations Authentication Spec.

Lemma guarded_from_true (tr : list event) : guarded_from true tr = true.
Proof.
  induction tr as [|e tr IH]; [reflexivity|]. cbn.
  rewrite IH. now destruct (is_write e).
Qed.

Lemma guarded_from_app (seen : bool) (t1 t2 : list event) :
  guarded_from seen (t1 ++ t2) =
  guarded_from seen t1 && guarded_from (seen || existsb is_verified t1) t2.
Proof.
  revert seen. induction t1 as [|e t1 IH]; intros seen; cbn.
  - now rewrite orb_false_r.
  - now rewrite IH, andb_assoc, orb_assoc.
Qed.

Lemma guarded_from_no_write (seen : bool) (tr : list event) :
  existsb is_write tr = false -> guarded_from seen tr = true.
Proof.
  revert seen. induction tr as [|e tr IH]; intros seen; [reflexivity|]. cbn.
  intros [-> H]%orb_false_iff. cbn. now apply IH.
Qed.

Lemma trace_bind {A B} (m : io A) (f : A -> io B) (s : state) :
  trace ((m ≫= f) s) =
  trace (m s) ++ match result (m s) with
                 | Ok a => trace (f a (final (m s)))
                 | Raise _ => []
                 end.
Proof.
  unfold mbind, io_bind. destruct (result (m s)); cbn; [reflexivity|].
  now rewrite app_nil_r.
Qed.

Lemma trace_try_except {A} (body : io A) (caught : exn -> bool)
    (handler : exn -> io A) (s : state) :
  trace (try_except body caught handler s) =
  trace (body s) ++ match result (body s) with
                    | Raise e => if caught e then trace (handler e (final (body s))) else []
                    | Ok _ => []
                    end.
Proof.
  unfold try_except. destruct (result (body s)) as [a|e] eqn:Hr.
  - now rewrite app_nil_r.
  - destruct (caught e); cbn; [reflexivity | now rewrite app_nil_r].
Qed.

Lemma quiet_bind {A B} (m : io A) (f : A -> io B) :
  quiet m -> (forall a, quiet (f a)) -> quiet (m ≫= f).
Proof.
  intros Hm Hf s. rewrite trace_bind, existsb_app, (Hm s). cbn.
  destruct (result (m s)); [apply Hf | reflexivity].
Qed.

Lemma quiet_print (line : string) : quiet (print line).
Proof. intros s. reflexivity. Qed.

Lemma quiet_input (prompt : string) : quiet (input prompt).
Proof. intros s. unfold input. now destruct (stdin s). Qed.

Lemma quiet_lift {A} (o : outcome A) : quiet (lift o).
Proof. intros s. reflexivity. Qed.

Lemma checking_after_quiet {A B} (m : io A) (f : A -> io B) :
  quiet m -> (forall a, checking (f a)) -> checking (m ≫= f).
Proof.
  intros Hm Hf s. rewrite trace_bind, !existsb_app, (Hm s). cbn [orb].
  unfold mbind, io_bind. destruct (result (m s)) as [a|e]; cbn [result].
  - destruct (Hf a (final (m s))) as [Hw Hv]. split; [exact Hw|].
    intros b Hb. rewrite (Hv b Hb). apply orb_true_r.
  - split; [reflexivity | discriminate].
Qed.

Lemma guarding_after_quiet {A B} (m : io A) (f : A -> io B) :
  quiet m -> (forall a, guarding (f a)) -> guarding (m ≫= f).
Proof.
  intros Hm Hf s. unfold guarded. rewrite trace_bind, guarded_from_app.
  rewrite (guarded_from_no_write _ _ (Hm s)). cbn [andb orb].
  destruct (result (m s)) as [a|e]; [|reflexivity].
  destruct (existsb is_verified (trace (m s))); [apply guarded_from_true | apply Hf].
Qed.

(** Whatever follows a successful check is guarded. *)
Lemma guarding_after_checking {A B} (m : io A) (f : A -> io B) :
  checking m -> guarding (m ≫= f).
Proof.
  intros Hm s. destruct (Hm s) as [Hw Hv].
  unfold guarded. rewrite trace_bind, guarded_from_app.
  rewrite (guarded_from_no_write _ _ Hw). cbn [andb orb].
  destruct (result (m s)) as [a|e]; [|reflexivity].
  rewrite (Hv a eq_refl). apply guarded_from_true.
Qed.

Lemma guarding_try_except {A} (body : io A) (caught : exn -> bool)
    (handler : exn -> io A) :
  guarding body -> (forall e, quiet (handler e)) ->
  guarding (try_except body caught handler).
Proof.
  intros Hb Hh s. pose proof (Hb s) as Hbs. unfold guarded in *.
  rewrite trace_try_except, guarded_from_app, Hbs. cbn [andb]. apply guarded_from_no_write.
  destruct (result (body s)) as [a|e]; [reflexivity|].
  destruct (caught e); [apply Hh | reflexivity].
Qed.

Lemma verify_run (s : state) (path name teacher_id : string) :
  Main.verify path name teacher_id s =
  match matching_entry (contents s path) name teacher_id with
  | Ok true => Run (Ok tt) s [EvPrint verified_message]
  | Ok false => Run (Raise (AuthenticationError "Invalid teacher credentials")) s []
  | Raise e => Run (Raise e) s []
  end.
Proof.
  unfold Main.verify, mbind, io_bind. rewrite authenticate_teacher_run.
  destruct (matching_entry (contents s path) name teacher_id) as [[|]|e]; reflexivity.
Qed.

Lemma checking_verify (path name teacher_id : string) :
  checking (Main.verify path name teacher_id).
Proof.
  intros s. rewrite verify_run.
  destruct (matching_entry (contents s path) name teacher_id) as [[|]|e];
    cbn; (split; [reflexivity|]); intros a; (reflexivity || discriminate).
Qed.

(** The sign-in of both adding commands: a line, two questions, the check. *)
Lemma checking_sign_in (prompt1 prompt2 line path : string) :
  checking (print line;;
            teacher_name ← input prompt1;
            teacher_id ← input prompt2;
            Main.verify path teacher_name teacher_id).
Proof.
  apply checking_after_quiet; [apply quiet_print|]. intros _.
  apply checking_after_quiet; [apply quiet_input|]. intros n.
  apply checking_after_quiet; [apply quiet_input|]. intros i.
  apply checking_verify.
Qed.

Lemma guarding_add_new_student (json_loads : string -> outcome pyval)
    (students_file teachers_file : string) :
  guarding (Main.add_new_student_from_user json_loads students_file teachers_file).
Proof.
  unfold Main.add_new_student_from_user.
  apply guarding_try_except; [|intros e; apply quiet_print].
  apply guarding_after_quiet; [apply quiet_print|]. intros _.
  apply guarding_after_quiet; [apply quiet_input|]. intros n.
  apply guarding_after_quiet; [apply quiet_input|]. intros i.
  apply guarding_after_checking, checking_verify.
Qed.

Lemma guarding_add_new_teacher (file_path : string) (s : state) :
  contents s file_path <> [] ->
  guarded (trace (Main.add_new_teacher_from_user file_path s)) = true.
Proof.
  intros Hne. unfold Main.add_new_teacher_from_user, guarded.
  rewrite trace_try_except, guarded_from_app.
  rewrite run_read_json_bind.
  destruct (contents s file_path) as [|t ts]; [congruence|].
  match goal with |- context [trace ((?m ≫= ?f) s)] =>
    pose proof (guarding_after_checking m f
                  (checking_sign_in _ _ _ _) s) as Hg;
    unfold guarded in Hg; rewrite Hg
  end.
  cbn [andb]. apply guarded_from_no_write.
  match goal with |- context [result ?r] => destruct (result r) as [a|e] end;
    [reflexivity|].
  destruct (is_ValueError e); reflexivity.
Qed.

End Guarding.

Section Deleting.
Import Py Env FileOperations Authentication Spec.

Lemma unverified_bind {A B} (m : io A) (f : A -> io B) :
  unverified m -> (forall a, unverified (f a)) -> unverified (m ≫= f).
Proof.
  intros Hm Hf s. rewrite trace_bind, existsb_app, (Hm s). cbn.
  destruct (result (m s)); [apply Hf | reflexivity].
Qed.

Lemma unverified_try_except {A} (body : io A) (caught : exn -> bool)
    (handler : exn -> io A) :
  unverified body -> (forall e, unverified (handler e)) ->
  unverified (try_except body caught handler).
Proof.
  intros Hb Hh s. rewrite trace_try_except, existsb_app, (Hb s). cbn.
  destruct (result (body s)) as [a|e]; [reflexivity|].
  destruct (caught e); [apply Hh | reflexivity].
Qed.

Lemma unverified_ret {A} (a : A) : unverified (mret a : io A).
Proof. intros s. reflexivity. Qed.

Lemma unverified_print (line : string) :
  String.eqb line verified_message = false -> unverified (print line).
Proof. intros H s. cbn. now rewrite H. Qed.

Lemma unverified_delete (path name : string) : unverified (Student.delete path name).
Proof.
  intros s. unfold Student.delete. rewrite run_read_json_bind, run_lift_bind.
  destruct (Records.not_named (contents s path) name); reflexivity.
Qed.

(** [delete_record] never asks for a sign-in. *)
Lemma unverified_delete_record (teachers_file students_file name : string) :
  unverified (Main.delete_record teachers_file students_file name).
Proof.
  unfold Main.delete_record.
  apply unverified_bind.
  { apply unverified_try_except; [|intros e; apply unverified_ret].
    apply unverified_bind; [apply unverified_delete | intros _; apply unverified_ret]. }
  intros teacher_deleted. apply unverified_bind.
  { apply unverified_try_except; [|intros e; apply unverified_ret].
    apply unverified_bind; [apply unverified_delete | intros _; apply unverified_ret]. }
  intros student_deleted.
  destruct (teacher_deleted || student_deleted); apply unverified_print; reflexivity.
Qed.

Lemma run_try_except_ok {A} (body : io A) (caught : exn -> bool)
    (handler : exn -> io A) (s : state) (a : A) :
  result (body s) = Ok a -> try_except body caught handler s = body s.
Proof. intros H. unfold try_except. now rewrite H. Qed.

(** A deletion inside [delete_record], with the flag it sets. *)
Lemma delete_flag_run (path name : string) (s : state) :
  forallb named (contents s path) = true ->
  let kept := List.filter (fun e => negb (field_is "name" e name)) (contents s path) in
  try_except (Student.delete path name;; mret true)
             Main.is_NoMatchingNameError (fun _ => mret false) s =
    Run (Ok true) (State (<[path := kept]> (files s)) (stdin s)) [EvWrite path kept].
Proof.
  intros Hn kept.
  assert (Hrun : (Student.delete path name;; mret true) s =
                 Run (Ok true) (State (<[path := kept]> (files s)) (stdin s))
                     [EvWrite path kept]).
  { rewrite (run_bind_ok _ _ s tt); rewrite (delete_run s path name Hn); reflexivity. }
  rewrite (run_try_except_ok _ _ _ s true); rewrite Hrun; reflexivity.
Qed.

(** On two collections of named records, [delete_record] rewrites both
    files and reports success, whether or not the name was there. *)
Lemma delete_record_run (teachers_file students_file name : string) (s : state) :
  teachers_file <> students_file ->
  forallb named (contents s teachers_file) = true ->
  forallb named (contents s students_file) = true ->
  let keep := List.filter (fun e => negb (field_is "name" e name)) in
  let r := Main.delete_record teachers_file students_file name s in
  result r = Ok tt /\
  trace r = [EvWrite teachers_file (keep (contents s teachers_file));
             EvWrite students_file (keep (contents s students_file));
             EvPrint ("Record for " +:+ name +:+ " deleted successfully.")].
Proof.
  intros Hne Ht Hs keep r. subst r. unfold Main.delete_record.
  change Teacher.delete with Student.delete.
  pose proof (delete_flag_run teachers_file name s Ht) as H1. cbv zeta in H1.
  rewrite (run_bind_ok _ _ s true) by (rewrite H1; reflexivity).
  rewrite H1. cbn [result final trace].
  set (s1 := State _ (stdin s)).
  assert (Hs1 : contents s1 students_file = contents s students_file)
    by (apply contents_insert_ne; exact Hne).
  pose proof (delete_flag_run students_file name s1) as H2. cbv zeta in H2.
  rewrite Hs1 in H2. specialize (H2 Hs).
  rewrite (run_bind_ok _ _ s1 true) by (rewrite H2; reflexivity).
  rewrite H2. cbn. split; reflexivity.
Qed.

(** C4 (as stated, refuted): every write to a collection is claimed to come
    after a successful Authenticator check when prior records exist. With
    Ada stored and nobody signed in, [delete_record] rewrites both files:
    its trace starts with a write. *)
Lemma delete_record_writes_unchecked :
  let r := Main.delete_record "teachers.json" "students.json" "Ada"
                              Examples.unauthenticated_session in
  contents Examples.unauthenticated_session "teachers.json" = [Examples.ada] /\
  trace r = [EvWrite "teachers.json" []; EvWrite "students.json" [];
             EvPrint "Record for Ada deleted successfully."] /\
  contents (final r) "teachers.json" = [] /\
  guarded (trace r) = false.
Proof. cbv zeta. repeat split; reflexivity. Qed.

(** C4 (amended): adding a teacher to a collection that holds records and
    adding a student write only after a successful Authenticator check:
    in the trace of either command every write comes after the line the
    Authenticator prints on success. Deleting a record involves no check
    at all: [delete_record] never consults the Authenticator and, on
    collections of named records, rewrites both files. *)
Theorem adding_is_guarded_deleting_is_not :
  (forall (file_path : string) (s : state),
      contents s file_path <> [] ->
      guarded (trace (Main.add_new_teacher_from_user file_path s)) = true) /\
  (forall (json_loads : string -> outcome pyval)
          (students_file teachers_file : string) (s : state),
      guarded (trace (Main.add_new_student_from_user json_loads
                        students_file teachers_file s)) = true) /\
  (forall (teachers_file students_file name : string) (s : state),
      existsb is_verified
        (trace (Main.delete_record teachers_file students_file name s)) = false) /\
  (forall (teachers_file students_file name : string) (s : state),
      teachers_file <> students_file ->
      forallb named (contents s teachers_file) = true ->
      forallb named (contents s students_file) = true ->
      existsb is_write
        (trace (Main.delete_record teachers_file students_file name s)) = true).
Proof.
  split; [exact guarding_add_new_teacher|].
  split; [intros j sf tf; exact (guarding_add_new_student j sf tf)|].
  split; [intros tf sf name; exact (unverified_delete_record tf sf name)|].
  intros tf sf name s Hne Ht Hs.
  destruct (delete_record_run tf sf name s Hne Ht Hs) as [_ ->]. reflexivity.
Qed.

(** Signed in as Ada, the user adds Bob: the write comes after the check.
    Nobody signed in, the user deletes Ada: a write and no check. *)
Lemma adding_is_guarded_deleting_is_not_witness :
  guarded (trace (Main.add_new_teacher_from_user "teachers.json"
                    Examples.duplicate_id_session)) = true /\
  existsb is_write
    (trace (Main.delete_record "teachers.json" "students.json" "Ada"
              Examples.unauthenticated_session)) = true.
Proof.
  destruct adding_is_guarded_deleting_is_not as (Hteacher & _ & _ & Hdelete).
  split.
  - apply Hteacher. vm_compute. discriminate.
  - apply Hdelete; [discriminate | reflexivity | reflexivity].
Defined.

End Deleting.

(* ===================================================================== *)
(** * Scoring: marks, totals and the passing students *)
(* ===================================================================== *)

Section Marks.
Import Py Env Spec.

Lemma as_int_int_of (v : pyval) : isinstance_int v = true -> as_int v = Ok (int_of v).
Proof. unfold int_of. destruct v as [|[|]| | | |]; cbn; (reflexivity || discriminate). Qed.

Lemma all_ge_ints (n : Z) (vs : list pyval) :
  forallb isinstance_int vs = true ->
  all_ge n vs = Ok (forallb (Z.leb n) (map int_of vs)).
Proof.
  induction vs as [|v vs IH]; [reflexivity|].
  cbn [forallb map]. intros [Hv Hvs]%andb_true_iff.
  cbn [all_ge]. unfold ge_int. rewrite (as_int_int_of v Hv). cbn.
  destruct (n <=? int_of v); [now apply IH | reflexivity].
Qed.

Lemma any_lt_ints (n : Z) (vs : list pyval) :
  forallb isinstance_int vs = true ->
  any_lt n vs = Ok (existsb (fun z => z <? n) (map int_of vs)).
Proof.
  induction vs as [|v vs IH]; [reflexivity|].
  cbn [forallb map]. intros [Hv Hvs]%andb_true_iff.
  cbn [any_lt]. unfold lt_int. rewrite (as_int_int_of v Hv). cbn.
  destruct (int_of v <? n); [reflexivity | now apply IH].
Qed.

Lemma sum_from_ints (acc : Z) (vs : list pyval) :
  forallb isinstance_int vs = true ->
  sum_from acc vs = Ok (acc + sum_list (map int_of vs)).
Proof.
  revert acc. induction vs as [|v vs IH]; intros acc.
  - intros _. unfold sum_list. cbn. f_equal. lia.
  - cbn [forallb map]. intros [Hv Hvs]%andb_true_iff.
    cbn [sum_from]. rewrite (as_int_int_of v Hv). cbn.
    rewrite (IH _ Hvs). unfold sum_list. cbn. f_equal. lia.
Qed.

Lemma sum_ints (vs : list pyval) :
  forallb isinstance_int vs = true -> Py.sum vs = Ok (sum_list (map int_of vs)).
Proof. intros H. unfold Py.sum. now rewrite (sum_from_ints 0 vs H). Qed.

(** Only a value that is no number makes [sum] and [any] fail. *)
Lemma sum_from_raises (acc : Z) (vs : list pyval) (e : exn) :
  sum_from acc vs = Raise e -> e = TypeError.
Proof.
  revert acc. induction vs as [|v vs IH]; intros acc; [discriminate|].
  cbn [sum_from]. destruct v as [|[|]|z|s|l|items]; cbn; eauto; congruence.
Qed.

Lemma any_lt_raises (n : Z) (vs : list pyval) (e : exn) :
  any_lt n vs = Raise e -> e = TypeError.
Proof.
  induction vs as [|v vs IH]; [discriminate|].
  cbn [any_lt]. unfold lt_int.
  destruct v as [|[|]|z|s|l|items]; cbn; try congruence;
    match goal with |- context [if ?b then _ else _] => destruct b end;
    eauto; congruence.
Qed.

(** A student record, taken apart. *)
Lemma student_entry_inv (entry : pyval) :
  student_entry entry = true ->
  exists n items,
    getitem entry "name" = Ok n /\
    getitem entry "marks" = Ok (PDict items) /\
    forallb isinstance_int (map snd items) = true /\
    field "name" entry = n /\ field "marks" entry = PDict items /\
    marks_of entry = map int_of (map snd items).
Proof.
  unfold student_entry, marks_of, field. intros [Hn Hm]%andb_true_iff.
  destruct (has_key_getitem _ _ Hn) as [n Hn'].
  destruct (getitem entry "marks") as [[| | | | |items]|] eqn:Hm'; try discriminate.
  exists n, items. rewrite Hn'. repeat split; auto.
Qed.

Lemma all_marks_pass_entry (entry : pyval) :
  student_entry entry = true -> Student.all_marks_pass entry = Ok (passing entry).
Proof.
  intros (n & items & _ & Hm & Hints & _ & _ & Hmarks)%student_entry_inv.
  unfold Student.all_marks_pass, passing. rewrite Hm, Hmarks. cbn.
  now apply all_ge_ints.
Qed.

Lemma total_of_entry (entry : pyval) :
  student_entry entry = true -> Student.total_of entry = Ok (total entry).
Proof.
  intros (n & items & _ & Hm & Hints & _ & _ & Hmarks)%student_entry_inv.
  unfold Student.total_of, total. rewrite Hm, Hmarks. cbn.
  now apply sum_ints.
Qed.

(** The comprehension that keeps the passing students is a filter. *)
Lemma passed_students_filter (data : list pyval) :
  forallb student_entry data = true ->
  Student.passed_students data = Ok (List.filter passing data).
Proof.
  induction data as [|entry rest IH]; [reflexivity|].
  cbn [forallb]. intros [He Hrest]%andb_true_iff.
  cbn [Student.passed_students List.filter].
  rewrite (all_marks_pass_entry _ He), (IH Hrest). cbn.
  destruct (passing entry); reflexivity.
Qed.

Lemma pass_students_summaries (data : list pyval) :
  forallb student_entry data = true ->
  Student.pass_students data = Ok (map summary (List.filter passing data)).
Proof.
  induction data as [|entry rest IH]; [reflexivity|].
  cbn [forallb]. intros [He Hrest]%andb_true_iff.
  cbn [Student.pass_students List.filter].
  rewrite (all_marks_pass_entry _ He), (IH Hrest).
  destruct (student_entry_inv _ He) as (n & items & Hn & Hm & _ & Hfn & Hfm & _).
  unfold mbind, outcome_bind.
  destruct (passing entry); [|reflexivity].
  cbn [map]. unfold summary at 2. now rewrite Hn, Hm, Hfn, Hfm.
Qed.

Lemma totals_map (entries : list pyval) :
  forallb student_entry entries = true ->
  Student.totals entries = Ok (map total entries).
Proof.
  induction entries as [|entry rest IH]; [reflexivity|].
  cbn [forallb]. intros [He Hrest]%andb_true_iff.
  cbn [Student.totals map]. now rewrite (total_of_entry _ He), (IH Hrest).
Qed.

Lemma enumerate_ranks_numbered (index : Z) (entries : list pyval) :
  forallb student_entry entries = true ->
  Student.enumerate_ranks index entries = Ok (numbered_from index entries).
Proof.
  revert index. induction entries as [|entry rest IH]; intros index; [reflexivity|].
  cbn [forallb]. intros [He Hrest]%andb_true_iff.
  cbn [Student.enumerate_ranks numbered_from]. rewrite (IH _ Hrest).
  destruct (student_entry_inv _ He) as (n & items & Hn & _ & _ & Hfn & _).
  unfold field in *. rewrite Hn. reflexivity.
Qed.

Lemma forallb_In {X : Type} (p : X -> bool) (l : list X) (x : X) :
  forallb p l = true -> In x l -> p x = true.
Proof. intros H Hin. rewrite forallb_forall in H. now apply H. Qed.

End Marks.

(* ===================================================================== *)
(** * Scoring: the stable sort and the ranks *)
(* ===================================================================== *)

Section Ranking.
Import Py Env FileOperations Spec.

Lemma insert_desc_perm (x : Z * pyval) (l : list (Z * pyval)) :
  Permutation (Student.insert_desc x l) (x :: l).
Proof.
  induction l as [|y l IH]; cbn; [reflexivity|].
  destruct (fst x <? fst y); [|reflexivity].
  rewrite IH. apply perm_swap.
Qed.

Lemma sorted_desc_perm (l : list (Z * pyval)) :
  Permutation (Student.sorted_desc l) l.
Proof.
  induction l as [|x l IH]; cbn; [reflexivity|].
  now rewrite insert_desc_perm, IH.
Qed.

Lemma insert_desc_sorted (x : Z * pyval) (l : list (Z * pyval)) :
  key_descending l -> key_descending (Student.insert_desc x l).
Proof.
  induction l as [|y l IH]; cbn; intros Hl.
  - constructor; constructor.
  - apply StronglySorted_inv in Hl as [Hl Hy].
    destruct (Z.ltb_spec (fst x) (fst y)) as [Hlt|Hge].
    + constructor; [now apply IH|].
      apply (Permutation_Forall (Permutation_sym (insert_desc_perm x l))).
      constructor; [lia | exact Hy].
    + constructor; [constructor; assumption|].
      constructor; [exact Hge|].
      eapply Forall_impl; [exact Hy|]. cbn. intros z Hz. lia.
Qed.

Lemma sorted_desc_sorted (l : list (Z * pyval)) :
  key_descending (Student.sorted_desc l).
Proof.
  induction l as [|x l IH]; cbn; [constructor | now apply insert_desc_sorted].
Qed.

(** The sort is stable: the entries of one key keep their order. *)
Lemma insert_desc_stable (k : Z) (x : Z * pyval) (l : list (Z * pyval)) :
  List.filter (fun p => fst p =? k) (Student.insert_desc x l) =
  List.filter (fun p => fst p =? k) (x :: l).
Proof.
  induction l as [|y l IH]; [reflexivity|].
  cbn [Student.insert_desc].
  destruct (Z.ltb_spec (fst x) (fst y)) as [Hlt|Hge]; [|reflexivity].
  cbn [List.filter] in *. rewrite IH.
  destruct (Z.eqb_spec (fst x) k), (Z.eqb_spec (fst y) k); try reflexivity. lia.
Qed.

Lemma sorted_desc_stable (k : Z) (l : list (Z * pyval)) :
  List.filter (fun p => fst p =? k) (Student.sorted_desc l) =
  List.filter (fun p => fst p =? k) l.
Proof.
  induction l as [|x l IH]; [reflexivity|].
  cbn [Student.sorted_desc fold_right]. rewrite insert_desc_stable.
  cbn [List.filter]. fold (Student.sorted_desc l). now rewrite IH.
Qed.

Lemma keyed_combine (entries : list pyval) :
  keyed (combine (map total entries) entries).
Proof. induction entries; cbn; constructor; auto. Qed.

Lemma snd_combine (entries : list pyval) :
  map snd (combine (map total entries) entries) = entries.
Proof. induction entries as [|e l IH]; cbn; [reflexivity | now rewrite IH]. Qed.

Lemma keyed_descending (l : list (Z * pyval)) :
  keyed l -> key_descending l -> descending (map snd l).
Proof.
  intros Hk Hs. induction Hs as [|p l Hs IH Hp]; cbn; [constructor|].
  apply Forall_cons_iff in Hk as [Hp' Hk]. constructor; [now apply IH|].
  clear IH Hs. induction l as [|q l IH]; cbn; constructor.
  - apply Forall_cons_iff in Hk as [Hq _]. apply Forall_cons_iff in Hp as [Hpq _].
    rewrite <- Hp', <- Hq. exact Hpq.
  - apply Forall_cons_iff in Hk as [_ Hk]. apply Forall_cons_iff in Hp as [_ Hp].
    now apply IH.
Qed.

Lemma keyed_with_total (t : Z) (l : list (Z * pyval)) :
  keyed l ->
  with_total t (map snd l) = map snd (List.filter (fun p => fst p =? t) l).
Proof.
  unfold with_total. induction l as [|p l IH]; intros Hk; [reflexivity|].
  apply Forall_cons_iff in Hk as [Hp Hk]. cbn [map List.filter].
  rewrite <- Hp, (IH Hk). now destruct (fst p =? t).
Qed.

Lemma sorted_by_total_perm (entries : list pyval) :
  Permutation (sorted_by_total entries) entries.
Proof.
  unfold sorted_by_total.
  rewrite (Permutation_map snd (sorted_desc_perm _)). now rewrite snd_combine.
Qed.

Lemma sorted_by_total_keyed (entries : list pyval) :
  keyed (Student.sorted_desc (combine (map total entries) entries)).
Proof.
  apply (Permutation_Forall (Permutation_sym (sorted_desc_perm _))), keyed_combine.
Qed.

Lemma sorted_by_total_descending (entries : list pyval) :
  descending (sorted_by_total entries).
Proof.
  apply keyed_descending; [apply sorted_by_total_keyed | apply sorted_desc_sorted].
Qed.

Lemma sorted_by_total_stable (t : Z) (entries : list pyval) :
  with_total t (sorted_by_total entries) = with_total t entries.
Proof.
  unfold sorted_by_total.
  rewrite (keyed_with_total t _ (sorted_by_total_keyed entries)), sorted_desc_stable.
  rewrite <- (keyed_with_total t _ (keyed_combine entries)). now rewrite snd_combine.
Qed.

Lemma ranks_numbered (data : list pyval) :
  forallb student_entry data = true ->
  Student.ranks data = Ok (numbered_from 0 (sorted_by_total (List.filter passing data))).
Proof.
  intros Hwf. unfold Student.ranks.
  assert (Hp : forallb student_entry (List.filter passing data) = true)
    by now apply forallb_filter_keeps.
  rewrite (passed_students_filter _ Hwf). cbn [mbind outcome_bind].
  rewrite (totals_map _ Hp). cbn [mbind outcome_bind].
  apply enumerate_ranks_numbered.
  apply forallb_forall. intros e He.
  apply (Permutation_in _ (sorted_by_total_perm _)) in He.
  now apply (forallb_In _ _ _ Hp).
Qed.

Lemma numbered_from_lookup (i : Z) (entries : list pyval) (n : nat) (e : pyval) :
  entries !! n = Some e ->
  numbered_from i entries !! n = Some (field "name" e, i + Z.of_nat n + 1).
Proof.
  revert i n. induction entries as [|x l IH]; intros i [|n] H;
    try discriminate H; cbn [numbered_from].
  - injection H as ->. change (Some (field "name" e, i + 1) =
                               Some (field "name" e, i + Z.of_nat 0 + 1)).
    do 2 f_equal. lia.
  - change (numbered_from (i + 1) l !! n =
            Some (field "name" e, i + Z.of_nat (S n) + 1)).
    rewrite (IH (i + 1) n H). do 2 f_equal. lia.
Qed.

Lemma numbered_from_ranks (i : Z) (entries : list pyval) :
  map snd (numbered_from i entries) =
  map (fun n => i + Z.of_nat n) (seq 1 (length entries)).
Proof.
  revert i. induction entries as [|x l IH]; intros i; [reflexivity|].
  cbn [numbered_from map length seq]. rewrite IH, <- (seq_shift (length l) 1), map_map.
  f_equal; try lia. apply map_ext. intros n. lia.
Qed.

Lemma numbered_from_In (i : Z) (entries : list pyval) (e : pyval) :
  In e entries -> exists r, In (field "name" e, r) (numbered_from i entries).
Proof.
  revert i. induction entries as [|x l IH]; intros i; [intros []|].
  intros [->|Hin].
  - exists (i + 1). now left.
  - destruct (IH (i + 1) Hin) as [r Hr]. exists r. now right.
Qed.

(** In descending order an earlier entry has the greater or equal total. *)
Lemma descending_lookup (l : list pyval) (i j : nat) (a b : pyval) :
  descending l -> (i <= j)%nat -> l !! i = Some a -> l !! j = Some b ->
  total b <= total a.
Proof.
  intros Hl. revert i j. induction Hl as [|x l Hl IH Hx]; intros i j Hij Ha Hb.
  - discriminate Ha.
  - destruct i as [|i], j as [|j]; try lia.
    + injection Ha as ->. injection Hb as ->. lia.
    + injection Ha as ->. change (l !! j = Some b) in Hb.
      rewrite Forall_lookup in Hx. exact (Hx j b Hb).
    + change (l !! i = Some a) in Ha. change (l !! j = Some b) in Hb.
      apply (IH i j); [lia | exact Ha | exact Hb].
Qed.

(** Entries of equal total stand next to one another. *)
Lemma descending_ties_adjacent (l : list pyval) (i k j : nat) (a c b : pyval) :
  descending l -> (i <= k <= j)%nat ->
  l !! i = Some a -> l !! k = Some c -> l !! j = Some b ->
  total a = total b -> total c = total a.
Proof.
  intros Hl [Hik Hkj] Ha Hc Hb Hab.
  pose proof (descending_lookup l i k a c Hl Hik Ha Hc).
  pose proof (descending_lookup l k j c b Hl Hkj Hc Hb). lia.
Qed.

Lemma calculate_rank_run (file_path : string) (s : state) :
  Student.calculate_rank file_path s = Run (Student.ranks (contents s file_path)) s [].
Proof. unfold Student.calculate_rank. now rewrite run_read_json_bind. Qed.

(** C8: for every sequence of student records, [calculate_rank] restricts
    to the passing students (every mark at least 32), sorts them by the
    sum of their marks in descending order, and pairs each name with its
    1-based position in that order. Students of equal total stand next
    to one another, in their stored order, and so receive distinct,
    consecutive ranks: the ranks are 1, 2, ..., one per passing student,
    never shared. *)
Theorem calculate_rank_positional (file_path : string) (s : state) :
  forallb student_entry (contents s file_path) = true ->
  let passed := List.filter passing (contents s file_path) in
  exists sorted_data ranks,
    result (Student.calculate_rank file_path s) = Ok ranks /\
    Permutation sorted_data passed /\
    descending sorted_data /\
    (forall t, with_total t sorted_data = with_total t passed) /\
    (forall i k j a c b,
        (i <= k <= j)%nat ->
        sorted_data !! i = Some a -> sorted_data !! k = Some c ->
        sorted_data !! j = Some b ->
        total a = total b -> total c = total a) /\
    (forall n e, sorted_data !! n = Some e ->
                 ranks !! n = Some (field "name" e, Z.of_nat n + 1)) /\
    map snd ranks = map Z.of_nat (seq 1 (length passed)).
Proof.
  intros Hwf passed.
  exists (sorted_by_total passed), (numbered_from 0 (sorted_by_total passed)).
  rewrite calculate_rank_run. cbn [result].
  split; [now apply ranks_numbered|].
  split; [apply sorted_by_total_perm|].
  split; [apply sorted_by_total_descending|].
  split; [intros t; apply sorted_by_total_stable|].
  split; [intros i k j a c b; apply descending_ties_adjacent,
                                 sorted_by_total_descending|].
  split; [intros n e H; now rewrite (numbered_from_lookup 0 _ n e H)|].
  rewrite numbered_from_ranks, (Permutation_length (sorted_by_total_perm passed)).
  reflexivity.
Qed.

(** In the sample class A fails; B and D both total 175 and are ranked 1
    and 2 in their stored order; C, without marks, is ranked 3. *)
Lemma calculate_rank_positional_witness :
  exists sorted_data,
    result (Student.calculate_rank "students.json"
              (State {["students.json" := Examples.class]} []))
      = Ok [(PStr "B", 1); (PStr "D", 2); (PStr "C", 3)] /\
    descending sorted_data /\ length sorted_data = 3%nat.
Proof.
  assert (Hwf : forallb student_entry
                  (contents (State {["students.json" := Examples.class]} [])
                            "students.json") = true) by (vm_compute; reflexivity).
  destruct (calculate_rank_positional "students.json" _ Hwf)
    as (sorted_data & ranks & Hres & Hperm & Hdesc & _).
  exists sorted_data. split; [reflexivity|]. split; [exact Hdesc|].
  exact (Permutation_length Hperm).
Defined.

End Ranking.

(* ===================================================================== *)
(** * Scoring: students without marks *)
(* ===================================================================== *)

Section EmptyMarks.
Import Py Env FileOperations Spec.

Lemma max_list_ge (t : Z) (ts : list Z) :
  t <= Student.max_list t ts /\ Forall (fun x => x <= Student.max_list t ts) ts.
Proof.
  unfold Student.max_list. revert t. induction ts as [|x ts IH]; intros t; cbn.
  - split; [lia | constructor].
  - destruct (IH (Z.max t x)) as [H1 H2]. split; [lia|].
    constructor; [lia | exact H2].
Qed.

Lemma min_list_le (t : Z) (ts : list Z) :
  Student.min_list t ts <= t /\ Forall (fun x => Student.min_list t ts <= x) ts.
Proof.
  unfold Student.min_list. revert t. induction ts as [|x ts IH]; intros t; cbn.
  - split; [lia | constructor].
  - destruct (IH (Z.min t x)) as [H1 H2]. split; [lia|].
    constructor; [lia | exact H2].
Qed.

Lemma extremes_totals (data : list pyval) :
  forallb student_entry data = true ->
  Student.extremes data =
    Ok match map total (List.filter passing data) with
       | t :: ts => (PInt (Student.max_list t ts), PInt (Student.min_list t ts))
       | [] => (PStr "-", PStr "-")
       end.
Proof.
  intros Hwf. unfold Student.extremes.
  rewrite (passed_students_filter _ Hwf). cbn [mbind outcome_bind].
  rewrite totals_map by now apply forallb_filter_keeps. reflexivity.
Qed.

(** Every total of a non-empty list lies between its extremes. *)
Lemma extremes_bound (x t : Z) (ts : list Z) :
  In x (t :: ts) -> Student.min_list t ts <= x <= Student.max_list t ts.
Proof.
  destruct (max_list_ge t ts) as [Hmax Hmaxs], (min_list_le t ts) as [Hmin Hmins].
  rewrite List.Forall_forall in Hmaxs, Hmins.
  intros [<-|Hin]; [lia|]. split; [now apply Hmins | now apply Hmaxs].
Qed.

(** C10: a student whose marks mapping is empty is classified as passing
    (every mark is at least 32, vacuously): the student is listed by
    [pass_fail_determination], counts in [highest_and_lowest_scores] with
    the total 0, which therefore lies between the two extremes, and is
    given a rank by [calculate_rank]. *)
Theorem empty_marks_student_passes (file_path : string) (s : state) (entry : pyval) :
  forallb student_entry (contents s file_path) = true ->
  In entry (contents s file_path) ->
  getitem entry "marks" = Ok (PDict []) ->
  Student.all_marks_pass entry = Ok true /\
  Student.total_of entry = Ok 0 /\
  (exists listed,
      result (Student.pass_fail_determination file_path s) = Ok listed /\
      In (summary entry) listed) /\
  (exists highest lowest,
      result (Student.highest_and_lowest_scores file_path s)
        = Ok (PInt highest, PInt lowest) /\
      lowest <= 0 <= highest) /\
  (exists ranks rank,
      result (Student.calculate_rank file_path s) = Ok ranks /\
      In (field "name" entry, rank) ranks).
Proof.
  intros Hwf Hin Hmarks.
  assert (Hpass : passing entry = true).
  { unfold passing, marks_of, field. now rewrite Hmarks. }
  assert (Htotal : total entry = 0).
  { unfold total, marks_of, field. now rewrite Hmarks. }
  assert (He : student_entry entry = true) by exact (forallb_In _ _ _ Hwf Hin).
  assert (Hpassed : In entry (List.filter passing (contents s file_path))).
  { apply filter_In. now split. }
  split; [now rewrite (all_marks_pass_entry _ He), Hpass|].
  split; [now rewrite (total_of_entry _ He), Htotal|].
  split; [|split].
  - exists (map summary (List.filter passing (contents s file_path))).
    unfold Student.pass_fail_determination.
    rewrite run_read_json_bind. cbn [lift result].
    split; [now apply pass_students_summaries | now apply in_map].
  - unfold Student.highest_and_lowest_scores.
    rewrite run_read_json_bind. cbn [lift result].
    rewrite (extremes_totals _ Hwf).
    apply (in_map total) in Hpassed. rewrite Htotal in Hpassed.
    destruct (map total _) as [|t ts]; [destruct Hpassed|].
    exists (Student.max_list t ts), (Student.min_list t ts).
    split; [reflexivity | now apply extremes_bound].
  - rewrite calculate_rank_run. cbn [result]. rewrite (ranks_numbered _ Hwf).
    destruct (numbered_from_In 0 (sorted_by_total (List.filter passing (contents s file_path)))
                entry) as [rank Hrank].
    { now apply (Permutation_in _ (Permutation_sym (sorted_by_total_perm _))). }
    eauto.
Qed.

(** In the sample class C has no marks: C passes, the lowest total is C's
    0 and C is ranked (last). *)
Lemma empty_marks_student_passes_witness :
  Student.all_marks_pass (Examples.student "C" []) = Ok true /\
  result (Student.highest_and_lowest_scores "students.json"
            (State {["students.json" := Examples.class]} []))
    = Ok (PInt 175, PInt 0) /\
  exists ranks rank,
    result (Student.calculate_rank "students.json"
              (State {["students.json" := Examples.class]} [])) = Ok ranks /\
    In (PStr "C", rank) ranks.
Proof.
  assert (Hwf : forallb student_entry
                  (contents (State {["students.json" := Examples.class]} [])
                            "students.json") = true) by (vm_compute; reflexivity).
  assert (Hin : In (Examples.student "C" [])
                  (contents (State {["students.json" := Examples.class]} [])
                            "students.json")) by (vm_compute; tauto).
  destruct (empty_marks_student_passes "students.json" _ _ Hwf Hin eq_refl)
    as (Hpass & _ & _ & _ & Hrank).
  split; [exact Hpass|]. split; [reflexivity | exact Hrank].
Defined.

End EmptyMarks.

(* ===================================================================== *)
(** * Scoring: percentages *)
(* ===================================================================== *)

Section Percentages.
Import Py Env FileOperations Spec.

Lemma truediv_nonzero (a b : Z) :
  b <> 0 ->
  (exists q, truediv a b = Ok q) \/ truediv a b = Raise OverflowError.
Proof.
  intros Hb. unfold truediv. destruct (Z.eqb_spec b 0) as [|_]; [contradiction|].
  destruct (SFdiv prec emax (float_of_Z a) (float_of_Z b)); eauto.
Qed.

Lemma calculate_percentage_dict (items : list (string * pyval)) :
  forallb isinstance_int (map snd items) = true ->
  let marks := map int_of (map snd items) in
  Student.calculate_percentage (PDict items) =
    if existsb (fun z => z <? 32) marks then Ok Student.Dash
    else float_percentage (sum_list marks) (Z.of_nat (length items)).
Proof.
  intros Hints marks. unfold Student.calculate_percentage. cbn [values mbind outcome_bind].
  rewrite (sum_ints _ Hints). cbn [mbind outcome_bind].
  rewrite (any_lt_ints 32 _ Hints). cbn [mbind outcome_bind]. fold marks.
  destruct (existsb _ marks); reflexivity.
Qed.

Lemma In_Zrange (lo hi x : Z) : lo <= x <= hi -> In x (Zrange lo hi).
Proof.
  intros H. unfold Zrange. apply in_map_iff. exists (Z.to_nat (x - lo)).
  split; [lia|]. apply in_seq. lia.
Qed.

(** When the check succeeds the percentage is the rounded mean. *)
Lemma agrees_with_mean_sound (total count : Z) :
  agrees_with_mean total count = true ->
  float_percentage total count = Ok (Student.Percent (mean_rounded total count)).
Proof.
  unfold agrees_with_mean, float_percentage.
  destruct (truediv total (count * 100)) as [q|]; [|discriminate].
  cbn [mbind outcome_bind mret outcome_ret].
  destruct (Prim2SF (q * 100)) as [| | |[|] m e] eqn:Hq; try discriminate.
  intros Hk%Z.eqb_eq. unfold round. rewrite Hq.
  change (10 ^ 3) with 1000. rewrite Hk. reflexivity.
Qed.

(** The check succeeds for every total of one to fifteen marks between
    32 and 100. *)
Lemma agrees_up_to_fifteen : forallb agrees_for_count (Zrange 1 15) = true.
Proof. vm_compute. reflexivity. Qed.

Lemma float_percentage_mean (total count : Z) :
  1 <= count <= 15 -> 32 * count <= total <= 100 * count ->
  float_percentage total count = Ok (Student.Percent (mean_rounded total count)).
Proof.
  intros Hcount Htotal. apply agrees_with_mean_sound.
  pose proof agrees_up_to_fifteen as Hall.
  rewrite forallb_forall in Hall. specialize (Hall count (In_Zrange _ _ _ Hcount)).
  unfold agrees_for_count in Hall. rewrite forallb_forall in Hall.
  exact (Hall total (In_Zrange _ _ _ Htotal)).
Qed.

Lemma sum_list_bounds (zs : list Z) :
  Forall (fun z => 32 <= z <= 100) zs ->
  32 * Z.of_nat (length zs) <= sum_list zs <= 100 * Z.of_nat (length zs).
Proof.
  unfold sum_list. induction 1 as [|z zs Hz _ IH]; cbn [fold_right length]; lia.
Qed.

(** With sixteen marks the mean can fall exactly between two
    thousandths, and the floating-point product decides: the total 803
    (mean 50.1875) gives 50.187 and the total 805 (mean 50.3125) gives
    50.313, where rounding halves to even gives 50.188 and 50.312. *)
Example float_percentage_ties :
  float_percentage 803 16 = Ok (Student.Percent (thousandths 50187)) /\
  mean_rounded 803 16 = thousandths 50188 /\
  float_percentage 805 16 = Ok (Student.Percent (thousandths 50313)) /\
  mean_rounded 805 16 = thousandths 50312 /\
  thousandths 50187 <> thousandths 50188 /\
  thousandths 50313 <> thousandths 50312.
Proof.
  repeat split; try (vm_compute; reflexivity);
    intros H;
    match type of H with _ = ?y =>
      apply (f_equal (fun x => PrimFloat.eqb x y)) in H
    end; vm_compute in H; discriminate H.
Qed.


(** C9: the division of [calculate_percentage] is not guarded against an
    empty marks mapping. For the empty mapping the test for a failing
    mark finds none and the divisor [len(marks) * 100] is 0: the call
    raises [ZeroDivisionError]. That is the only way to the error: a
    marks mapping raises [ZeroDivisionError] iff it is empty. *)
Theorem calculate_percentage_zero_division (marks : pyval) :
  any_lt 32 [] = Ok false /\
  truediv 0 (0 * 100) = Raise ZeroDivisionError /\
  (Student.calculate_percentage marks = Raise ZeroDivisionError <-> marks = PDict []).
Proof.
  split; [reflexivity|]. split; [reflexivity|]. split.
  - destruct marks as [| | | | |items]; try discriminate.
    destruct items as [|[k v] items]; [reflexivity|]. intros H. exfalso.
    unfold Student.calculate_percentage in H. cbn [values mbind outcome_bind] in H.
    destruct (Py.sum _) as [total_marks|e] eqn:Hsum; cbn [mbind outcome_bind] in H.
    + destruct (any_lt 32 _) as [[|]|e] eqn:Hany; cbn [mbind outcome_bind] in H;
        [discriminate H | | apply any_lt_raises in Hany; congruence].
      cbn [len mbind outcome_bind] in H.
      destruct (truediv_nonzero total_marks (Z.of_nat (length ((k, v) :: items)) * 100))
        as [[q Hq]|Hq]; [cbn [length]; lia | |]; rewrite Hq in H; discriminate H.
    + apply sum_from_raises in Hsum. congruence.
  - intros ->. reflexivity.
Qed.

(** C7 (as stated, refuted): [calculate_percentage] is claimed to return,
    for every marks mapping, the sentinel or a percentage. On the empty
    mapping no mark is below 32 and nothing is returned: the division
    raises [ZeroDivisionError]. *)
Lemma calculate_percentage_empty_no_value :
  existsb (fun z => z <? 32) (marks_list (PDict [])) = false /\
  Student.calculate_percentage (PDict []) = Raise ZeroDivisionError /\
  ~ exists p, Student.calculate_percentage (PDict []) = Ok p.
Proof.
  split; [reflexivity|]. split; [reflexivity|]. intros [p Hp]. discriminate Hp.
Qed.

(** The percentages of a listing are those of each student's own marks. *)
Lemma percentages_pointwise (data : list pyval) (listed : list (pyval * Student.percentage)) :
  Student.percentages data = Ok listed ->
  Forall2 (fun entry row =>
             getitem entry "name" = Ok (fst row) /\
             exists m, getitem entry "marks" = Ok m /\
                       Student.calculate_percentage m = Ok (snd row))
          data listed.
Proof.
  revert listed. induction data as [|entry rest IH]; intros listed.
  - intros [= <-]. constructor.
  - cbn [Student.percentages].
    destruct (getitem entry "marks") as [m|] eqn:Hm; [|discriminate].
    cbn [mbind outcome_bind].
    destruct (Student.calculate_percentage m) as [p|] eqn:Hp; [|discriminate].
    cbn [mbind outcome_bind].
    destruct (getitem entry "name") as [n|] eqn:Hn; [|discriminate].
    cbn [mbind outcome_bind].
    destruct (Student.percentages rest) as [more|]; [|discriminate].
    intros [= <-]. constructor; [|now apply IH].
    split; [exact Hn|]. exists m. now split.
Qed.

(** C7 (amended): for every non-empty marks mapping of integers,
    [calculate_percentage] returns the sentinel iff some mark is below
    32; otherwise it evaluates [round((sum / (count * 100)) * 100, 3)] in
    double precision, which yields a float unless the quotient is too
    large for a double, and never divides by zero. For up to fifteen
    marks between 32 and 100 that float is the mean mark rounded to three
    decimals. The result depends on that mapping alone: in a listing,
    each student's percentage is the one of the student's own marks. *)
Theorem calculate_percentage_non_empty (items : list (string * pyval)) :
  items <> [] ->
  forallb isinstance_int (map snd items) = true ->
  let marks := marks_list (PDict items) in
  let value := float_percentage (sum_list marks) (Z.of_nat (length items)) in
  (Student.calculate_percentage (PDict items) = Ok Student.Dash <->
   Exists (fun z => z < 32) marks) /\
  (Forall (fun z => 32 <= z) marks ->
   Student.calculate_percentage (PDict items) = value /\
   ((exists x, value = Ok (Student.Percent x)) \/ value = Raise OverflowError)) /\
  ((length items <= 15)%nat -> Forall (fun z => 32 <= z <= 100) marks ->
   Student.calculate_percentage (PDict items) =
     Ok (Student.Percent (mean_rounded (sum_list marks) (Z.of_nat (length items))))) /\
  (forall data listed,
      Student.percentages data = Ok listed ->
      Forall2 (fun entry row =>
                 exists m, getitem entry "marks" = Ok m /\
                           Student.calculate_percentage m = Ok (snd row))
              data listed).
Proof.
  intros Hne Hints marks value.
  assert (Hlen : Z.of_nat (length items) * 100 <> 0) by (destruct items; cbn; [congruence | lia]).
  assert (Hvalue : (exists x, value = Ok (Student.Percent x)) \/ value = Raise OverflowError).
  { subst value. unfold float_percentage.
    destruct (truediv_nonzero (sum_list marks) _ Hlen) as [[q ->]| ->]; eauto. }
  rewrite (calculate_percentage_dict items Hints). cbn zeta.
  change (map int_of (map snd items)) with marks. fold value.
  split; [|split; [|split]].
  - destruct (existsb (fun z => z <? 32) marks) eqn:Hex.
    + split; [|reflexivity]. intros _. apply List.Exists_exists.
      apply existsb_exists in Hex as (z & Hz & Hlt). exists z. split; [exact Hz | lia].
    + split.
      * intros H. destruct Hvalue as [[x Hx]|Hx]; rewrite Hx in H; discriminate H.
      * intros (z & Hz & Hlt)%List.Exists_exists.
        assert (existsb (fun z => z <? 32) marks = true); [|congruence].
        apply existsb_exists. exists z. split; [exact Hz | lia].
  - intros Hall. split; [|exact Hvalue].
    destruct (existsb (fun z => z <? 32) marks) eqn:Hex; [|reflexivity].
    apply existsb_exists in Hex as (z & Hz & Hlt).
    rewrite List.Forall_forall in Hall. specialize (Hall z Hz). lia.
  - intros Hcount Hall.
    assert (Hlen' : length marks = length items)
      by (unfold marks, marks_list; now rewrite !length_map).
    pose proof (sum_list_bounds marks Hall) as Hsum. rewrite Hlen' in Hsum.
    destruct (existsb (fun z => z <? 32) marks) eqn:Hex.
    + apply existsb_exists in Hex as (z & Hz & Hlt).
      rewrite List.Forall_forall in Hall. specialize (Hall z Hz). lia.
    + subst value. apply float_percentage_mean; [|exact Hsum].
      destruct items; [congruence | cbn [length] in *; lia].
  - intros data listed H. apply percentages_pointwise in H.
    eapply Forall2_impl; [exact H|]. cbn. intros entry row [_ Hm]. exact Hm.
Qed.

(** B's marks of the specification's example, 90 and 85, give 87.5;
    A's, with 30 in science, give the sentinel. *)
Lemma calculate_percentage_non_empty_witness :
  Student.calculate_percentage (PDict [("math", PInt 90); ("sci", PInt 85)])
    = Ok (Student.Percent 87.5) /\
  Student.calculate_percentage (PDict [("math", PInt 40); ("sci", PInt 30)])
    = Ok Student.Dash.
Proof.
  split.
  - destruct (calculate_percentage_non_empty
                [("math", PInt 90); ("sci", PInt 85)] ltac:(discriminate) eq_refl)
      as (_ & _ & Hmean & _).
    rewrite Hmean; [reflexivity | cbn; lia | repeat constructor; cbn; lia].
  - apply (calculate_percentage_non_empty
             [("math", PInt 40); ("sci", PInt 30)] ltac:(discriminate) eq_refl).
    apply Exists_cons_tl, Exists_cons_hd. cbn. lia.
Defined.

(** The example of the specification: A fails science, B passes. *)
Example specification_example :
  let students := [Examples.student "A" [("math", 40); ("sci", 30)];
                   Examples.student "B" [("math", 90); ("sci", 85)]] in
  Student.pass_students students
    = Ok [PDict [("name", PStr "B");
                 ("marks", PDict [("math", PInt 90); ("sci", PInt 85)])]] /\
  Student.extremes students = Ok (PInt 175, PInt 175) /\
  Student.percentages students
    = Ok [(PStr "A", Student.Dash); (PStr "B", Student.Percent 87.5)] /\
  Student.ranks students = Ok [(PStr "B", 1)].
Proof. cbv zeta. repeat split; reflexivity. Qed.

End Percentages.

(* ===================================================================== *)
(** * Running commands step by step *)
(* ===================================================================== *)

Section Stepping.
Import Py Env FileOperations Authentication Spec Steps.
Context {A B : Type}.

Lemma after_nil (r : run A) : after [] r = r.
Proof. destruct r; reflexivity. Qed.

Lemma after_after (t t' : list event) (r : run A) :
  after t (after t' r) = after (t ++ t') r.
Proof. unfold after. cbn. now rewrite app_assoc. Qed.

Lemma after_bind_ok (t : list event) (m : io A) (f : A -> io B) (s : state) (a : A) :
  result (m s) = Ok a ->
  after t ((m ≫= f) s) = after (t ++ trace (m s)) (f a (final (m s))).
Proof.
  intros H. unfold after, mbind, io_bind. rewrite H. cbn. now rewrite app_assoc.
Qed.

Lemma after_bind_raise (t : list event) (m : io A) (f : A -> io B) (s : state) (e : exn) :
  result (m s) = Raise e ->
  after t ((m ≫= f) s) = Run (Raise e) (final (m s)) (t ++ trace (m s)).
Proof. intros H. unfold after, mbind, io_bind. now rewrite H. Qed.

End Stepping.

Section SteppingMore.
Import Py Env FileOperations Authentication Spec Steps.
Context {A B : Type}.

Lemma after_print (t : list event) (line : string) (f : unit -> io B) (s : state) :
  after t ((print line ≫= f) s) = after (t ++ [EvPrint line]) (f tt s).
Proof. now rewrite (after_bind_ok t (print line) f s tt). Qed.

Lemma after_input (t : list event) (prompt answer : string) (rest : list string)
    (fs : gmap string (list pyval)) (f : string -> io B) :
  after t ((input prompt ≫= f) (State fs (answer :: rest))) =
  after (t ++ [EvPrompt prompt; EvRead answer]) (f answer (State fs rest)).
Proof. now rewrite (after_bind_ok t (input prompt) f _ answer). Qed.

Lemma after_lift (t : list event) (o : outcome A) (f : A -> io B) (s : state) :
  after t ((lift o ≫= f) s) =
  match o with
  | Ok a => after t (f a s)
  | Raise e => Run (Raise e) s t
  end.
Proof.
  destruct o as [a|e].
  - rewrite (after_bind_ok t (lift (Ok a)) f s a) by reflexivity.
    cbn. now rewrite app_nil_r.
  - rewrite (after_bind_raise t (lift (Raise e)) f s e) by reflexivity.
    cbn. now rewrite app_nil_r.
Qed.

Lemma after_read_json (t : list event) (path : string)
    (f : list pyval -> io B) (s : state) :
  after t ((read_json path ≫= f) s) = after t (f (contents s path) s).
Proof. unfold after. now rewrite run_read_json_bind. Qed.

Lemma after_verify (t : list event) (path name teacher_id : string)
    (f : unit -> io B) (s : state) :
  after t ((Main.verify path name teacher_id ≫= f) s) =
  match matching_entry (contents s path) name teacher_id with
  | Ok true => after (t ++ [EvPrint verified_message]) (f tt s)
  | Ok false => Run (Raise (AuthenticationError "Invalid teacher credentials")) s t
  | Raise e => Run (Raise e) s t
  end.
Proof.
  pose proof (verify_run s path name teacher_id) as Hv.
  destruct (matching_entry (contents s path) name teacher_id) as [[|]|e].
  - rewrite (after_bind_ok t _ f s tt) by now rewrite Hv. now rewrite Hv.
  - rewrite (after_bind_raise t _ f s (AuthenticationError "Invalid teacher credentials"))
      by now rewrite Hv.
    rewrite Hv. cbn. now rewrite app_nil_r.
  - rewrite (after_bind_raise t _ f s e) by now rewrite Hv.
    rewrite Hv. cbn. now rewrite app_nil_r.
Qed.

End SteppingMore.

Section Commands.
Import Py Env FileOperations Authentication Spec Steps.

Lemma bind_assoc_run {A B C} (m : io A) (g : A -> io B) (f : B -> io C) (s : state) :
  ((m ≫= g) ≫= f) s = (m ≫= (fun a => g a ≫= f)) s.
Proof.
  unfold mbind, io_bind. destruct (result (m s)) as [a|e]; cbn; [|reflexivity].
  destruct (result (g a (final (m s)))) as [b|e]; cbn; [|reflexivity].
  now rewrite app_assoc.
Qed.

Lemma after_throw {A} (t : list event) (e : exn) (s : state) :
  after t ((mthrow e : io A) s) = Run (Raise e) s t.
Proof. unfold after. cbn. now rewrite app_nil_r. Qed.

Lemma after_ret {A} (t : list event) (a : A) (s : state) :
  after t ((mret a : io A) s) = Run (Ok a) s t.
Proof. unfold after. cbn. now rewrite app_nil_r. Qed.

Lemma after_print_last (t : list event) (line : string) (s : state) :
  after t (print line s) = Run (Ok tt) s (t ++ [EvPrint line]).
Proof. reflexivity. Qed.

Lemma after_write_json (t : list event) (path : string) (data : list pyval) (s : state) :
  after t (write_json path data s) =
  Run (Ok tt) (State (<[path := data]> (files s)) (stdin s)) (t ++ [EvWrite path data]).
Proof. reflexivity. Qed.

(** [append_json], run. *)
Lemma append_json_run (path : string) (v : pyval) (s : state) :
  append_json path v s =
  Run (Ok tt) (State (<[path := contents s path ++ [v]]> (files s)) (stdin s))
      [EvWrite path (contents s path ++ [v])].
Proof. unfold append_json. now rewrite run_read_json_bind. Qed.

Lemma teacher_accept_run (t : Teacher.instance) (path : string) (s : state) :
  Teacher.accept t path s =
  Run (Ok tt)
      (State (<[path := contents s path ++ [Teacher.new_data t]]> (files s)) (stdin s))
      [EvWrite path (contents s path ++ [Teacher.new_data t]);
       EvPrint "Teacher added successfully!"].
Proof.
  unfold Teacher.accept.
  rewrite (run_bind_ok _ _ s tt); rewrite append_json_run; reflexivity.
Qed.

Lemma student_accept_run (st : Student.instance) (path teachers_file : string) (s : state) :
  Student.accept st path teachers_file s =
  Run (Ok tt)
      (State (<[path := contents s path ++ [Student.new_data st]]> (files s)) (stdin s))
      [EvWrite path (contents s path ++ [Student.new_data st]);
       EvPrint "Student added successfully!"].
Proof.
  unfold Student.accept.
  assert (Hbody : (append_json path (Student.new_data st);;
                   print "Student added successfully!") s =
      Run (Ok tt)
          (State (<[path := contents s path ++ [Student.new_data st]]> (files s)) (stdin s))
          [EvWrite path (contents s path ++ [Student.new_data st]);
           EvPrint "Student added successfully!"]).
  { rewrite (run_bind_ok _ _ s tt); rewrite append_json_run; reflexivity. }
  rewrite (run_try_except_ok _ _ _ s tt); rewrite Hbody; reflexivity.
Qed.

Lemma after_ret_bind {A B} (t : list event) (a : A) (f : A -> io B) (s : state) :
  after t ((mret a ≫= f) s) = after t (f a s).
Proof.
  rewrite (after_bind_ok t (mret a) f s a) by reflexivity. cbn.
  now rewrite app_nil_r.
Qed.

Lemma try_except_reported (body : io unit) (caught : exn -> bool) (s : state) :
  try_except body caught (fun e => print (exn_message e)) s = reported caught (body s).
Proof.
  unfold try_except, reported. destruct (result (body s)) as [a|e]; [reflexivity|].
  destruct (caught e); reflexivity.
Qed.

Lemma after_input_eof {B} (t : list event) (prompt : string)
    (fs : gmap string (list pyval)) (f : string -> io B) :
  after t ((input prompt ≫= f) (State fs [])) =
  Run (Raise EOFError) (State fs []) (t ++ [EvPrompt prompt]).
Proof. now rewrite (after_bind_raise t (input prompt) f _ EOFError). Qed.

End Commands.

(** One step of a run: the command at the head is run and its events
    join the trace. *)
Ltac step :=
  first [ rewrite after_print | rewrite after_input | rewrite after_read_json
        | rewrite after_ret_bind | rewrite after_throw ];
  cbv beta.


(* ===================================================================== *)
(** * The store: appending, finding, deleting *)
(* ===================================================================== *)

Section Store.
Import Py Env FileOperations Authentication Records Spec Steps.

(** X1: [append_json] and [read_json]: the collection read back is the old one
    with the new record last (a missing file counts as an empty
    collection); no other file and no typed line is touched. *)
Theorem append_json_round_trip (path : string) (v : pyval) (s : state) :
  let r := append_json path v s in
  result r = Ok tt /\
  result (read_json path (final r)) = Ok (contents s path ++ [v]) /\
  (forall other, other <> path -> contents (final r) other = contents s other) /\
  stdin (final r) = stdin s.
Proof.
  cbv zeta. rewrite append_json_run. cbn [result final stdin].
  split; [reflexivity|]. split; [|split; [|reflexivity]].
  - unfold read_json. cbn. now rewrite lookup_insert_eq.
  - intros other Hne. apply contents_insert_ne. congruence.
Qed.

Lemma append_json_round_trip_witness :
  result (read_json "new.json"
            (final (append_json "new.json" (PStr "first") (State ∅ []))))
    = Ok [PStr "first"] /\
  contents (final (append_json "new.json" (PStr "first")
                     (State {["old.json" := [PInt 1]]} []))) "old.json" = [PInt 1].
Proof.
  split.
  - destruct (append_json_round_trip "new.json" (PStr "first") (State ∅ []))
      as (_ & Hread & _). exact Hread.
  - destruct (append_json_round_trip "new.json" (PStr "first")
                (State {["old.json" := [PInt 1]]} [])) as (_ & _ & Hother & _).
    apply (Hother "old.json"). discriminate.
Defined.

Lemma first_named_app (pre post : list pyval) (name : string) :
  forallb named pre = true ->
  first_named (pre ++ post) name =
    if existsb (fun e => field_is "name" e name) pre
    then first_named pre name else first_named post name.
Proof.
  induction pre as [|x pre IH]; [reflexivity|].
  cbn [forallb]. intros [Hx Hpre]%andb_true_iff.
  cbn [app first_named existsb]. unfold field_is at 1.
  destruct (has_key_getitem _ _ Hx) as [v ->]. cbn.
  destruct (eq_str v name); [reflexivity | now apply IH].
Qed.

Lemma existsb_negb_forallb {X : Type} (p : X -> bool) (l : list X) :
  existsb p l = negb (forallb (fun x => negb (p x)) l).
Proof.
  induction l as [|x l IH]; [reflexivity|]. cbn. rewrite IH.
  now destruct (p x).
Qed.

(** The loop of [search] returns the first record of the name. *)
Lemma first_named_first (data : list pyval) (name : string) (e : pyval) :
  forallb named data = true ->
  (first_named data name = Ok e <->
   exists pre post,
     data = pre ++ e :: post /\ field_is "name" e name = true /\
     forallb (fun x => negb (field_is "name" x name)) pre = true).
Proof.
  induction data as [|x data IH]; intros Hn.
  - split; [discriminate|]. intros (pre & post & H & _). now destruct pre.
  - cbn [forallb] in Hn. apply andb_true_iff in Hn as [Hx Hdata].
    cbn [first_named]. destruct (has_key_getitem _ _ Hx) as [v Hv]. rewrite Hv. cbn.
    assert (Hfx : field_is "name" x name = eq_str v name)
      by (unfold field_is; now rewrite Hv).
    destruct (eq_str v name) eqn:Hvn.
    + split.
      * intros [= <-]. exists [], data. auto.
      * intros ([|y pre] & post & Heq & He & Hpre).
        -- now injection Heq as ->.
        -- injection Heq as <- _. cbn in Hpre. rewrite Hfx in Hpre. discriminate.
    + rewrite (IH Hdata). split.
      * intros (pre & post & -> & He & Hpre). exists (x :: pre), post.
        cbn. rewrite Hfx, Hpre. auto.
      * intros ([|y pre] & post & Heq & He & Hpre).
        -- injection Heq as <- _. congruence.
        -- injection Heq as <- ->. cbn in Hpre.
           apply andb_true_iff in Hpre as [_ Hpre]. eauto.
Qed.

Lemma search_run (path name : string) (s : state) :
  Student.search path name s = Run (first_named (contents s path) name) s [].
Proof. unfold Student.search. now rewrite run_read_json_bind. Qed.

(** X2: [search]: on a collection of named records the record returned is the
    first one, in stored order, whose name is the name asked for, and
    [NoMatchingNameError] is raised exactly when no record has it; the
    search changes and prints nothing. *)
Theorem search_finds_first (path name : string) (s : state) :
  forallb named (contents s path) = true ->
  let r := Student.search path name s in
  (forall e,
      result r = Ok e <->
      exists pre post,
        contents s path = pre ++ e :: post /\ field_is "name" e name = true /\
        forallb (fun x => negb (field_is "name" x name)) pre = true) /\
  (result r = Raise (NoMatchingNameError "No matching name found") <->
   forallb (fun x => negb (field_is "name" x name)) (contents s path) = true) /\
  final r = s /\ trace r = [].
Proof.
  intros Hn r. subst r. rewrite search_run. cbn [result final trace].
  split; [intros e; now apply first_named_first|].
  split; [|split; reflexivity]. split.
  - intros Hraise.
    destruct (forallb (fun x => negb (field_is "name" x name)) (contents s path))
      eqn:Hall; [reflexivity|].
    destruct (first_named_some (contents s path) name Hn) as (e & He & _).
    { now rewrite existsb_negb_forallb, Hall. }
    congruence.
  - now apply first_named_none.
Qed.

(** Of the two records named Ann the one stored first is returned. *)
Lemma search_finds_first_witness :
  result (Student.search "students.json" "Ann"
            (State {["students.json" := Examples.two_anns]} []))
    = Ok (PDict [("name", PStr "Ann"); ("roll_number", PStr "1")]).
Proof.
  pose proof (search_finds_first "students.json" "Ann"
                (State {["students.json" := Examples.two_anns]} []) eq_refl)
    as (Hfound & _).
  apply Hfound. exists [], [PDict [("name", PStr "Bob"); ("roll_number", PStr "2")];
              PDict [("name", PStr "Ann"); ("roll_number", PStr "3")]].
  repeat split.
Defined.

Lemma named_new_data (t : Teacher.instance) : named (Teacher.new_data t) = true.
Proof. reflexivity. Qed.

Lemma name_of_new_data (t : Teacher.instance) (name : string) :
  field_is "name" (Teacher.new_data t) name = String.eqb (Teacher.name t) name.
Proof. reflexivity. Qed.

(** X3: [accept] then [search]: a teacher who was just stored is found under
    their name, unless an older record carries the same name, in which
    case the search still returns the older record. *)
Theorem accept_then_search (t : Teacher.instance) (path : string) (s : state) :
  forallb named (contents s path) = true ->
  let r := Teacher.accept t path s in
  let found := result (Teacher.search path (Teacher.name t) (final r)) in
  result r = Ok tt /\
  contents (final r) path = contents s path ++ [Teacher.new_data t] /\
  (forallb (fun x => negb (field_is "name" x (Teacher.name t))) (contents s path) = true ->
   found = Ok (Teacher.new_data t)) /\
  (forall old, first_named (contents s path) (Teacher.name t) = Ok old -> found = Ok old).
Proof.
  intros Hn r found. subst r found. rewrite teacher_accept_run. cbn [result final].
  rewrite contents_insert. split; [reflexivity|]. split; [reflexivity|].
  change Teacher.search with Student.search.
  rewrite search_run, contents_insert. cbn [result].
  rewrite (first_named_app _ _ _ Hn). split.
  - intros Hnone. rewrite existsb_negb_forallb, Hnone. cbn.
    now rewrite String.eqb_refl.
  - intros old Hold.
    destruct (existsb _ (contents s path)) eqn:Hex; [exact Hold|].
    rewrite existsb_negb_forallb in Hex. apply negb_false_iff in Hex.
    rewrite (first_named_none _ _ Hn Hex) in Hold. discriminate.
Qed.

Lemma accept_then_search_witness :
  result (Teacher.search "teachers.json" "Bob"
            (final (Teacher.accept
                      (Teacher.Build "Bob" "Physics" "T1" "2 Side St" "bob@school.org"
                                     (PInt 9876543210))
                      "teachers.json" Examples.unauthenticated_session)))
    = Ok Examples.bob.
Proof.
  pose proof (accept_then_search
                (Teacher.Build "Bob" "Physics" "T1" "2 Side St" "bob@school.org"
                               (PInt 9876543210))
                "teachers.json" Examples.unauthenticated_session eq_refl)
    as (_ & _ & Hnew & _).
  apply Hnew. reflexivity.
Defined.

Lemma teacher_entry_new_data (t : Teacher.instance) :
  teacher_entry (Teacher.new_data t) = true.
Proof. reflexivity. Qed.

(** X4: [accept] then [authenticate_teacher]: a teacher who was just stored
    can sign in with their name and id. *)
Theorem accept_then_authenticate (t : Teacher.instance) (path : string) (s : state) :
  forallb teacher_entry (contents s path) = true ->
  result (authenticate_teacher path (Teacher.name t) (Teacher.teacher_id t)
            (final (Teacher.accept t path s))) = Ok true.
Proof.
  intros Hwf. rewrite teacher_accept_run. cbn [final].
  rewrite authenticate_teacher_run, contents_insert.
  rewrite matching_entry_existsb.
  - rewrite existsb_app. cbn [existsb]. unfold field_is. cbn.
    rewrite !String.eqb_refl. cbn. now rewrite orb_true_r.
  - rewrite forallb_app, Hwf. reflexivity.
Qed.

Lemma accept_then_authenticate_witness :
  result (authenticate_teacher "teachers.json" "Bob" "T1"
            (final (Teacher.accept
                      (Teacher.Build "Bob" "Physics" "T1" "2 Side St" "bob@school.org"
                                     (PInt 9876543210))
                      "teachers.json" Examples.unauthenticated_session))) = Ok true.
Proof.
  exact (accept_then_authenticate
           (Teacher.Build "Bob" "Physics" "T1" "2 Side St" "bob@school.org"
                          (PInt 9876543210))
           "teachers.json" Examples.unauthenticated_session eq_refl).
Defined.

Lemma filter_all {X : Type} (p : X -> bool) (l : list X) :
  forallb p l = true -> List.filter p l = l.
Proof.
  induction l as [|x l IH]; [reflexivity|]. cbn.
  intros [-> Hl]%andb_true_iff. now rewrite IH.
Qed.

(** X5: [delete] of a name that no record carries: no error is raised (the
    [NoMatchingNameError] its callers expect never comes), and the file
    is rewritten with the collection it held. Deleting is idempotent: a
    second deletion of the same name leaves what the first one left. *)
Theorem delete_miss_is_silent (path name : string) (s : state) :
  forallb named (contents s path) = true ->
  (forallb (fun x => negb (field_is "name" x name)) (contents s path) = true ->
   Student.delete path name s =
     Run (Ok tt) (State (<[path := contents s path]> (files s)) (stdin s))
         [EvWrite path (contents s path)]) /\
  let once := final (Student.delete path name s) in
  let twice := Student.delete path name once in
  result twice = Ok tt /\ contents (final twice) path = contents once path.
Proof.
  intros Hn. split.
  - intros Hnone. rewrite (delete_run s path name Hn). cbv zeta.
    now rewrite (filter_all _ _ Hnone).
  - cbv zeta. rewrite (delete_run s path name Hn). cbn [final].
    set (kept := List.filter _ (contents s path)).
    set (s1 := State _ (stdin s)).
    assert (Hs1 : contents s1 path = kept) by apply contents_insert.
    assert (Hn1 : forallb named (contents s1 path) = true)
      by (rewrite Hs1; now apply forallb_filter_keeps).
    rewrite (delete_run s1 path name Hn1). cbn [result final].
    rewrite contents_insert, Hs1. split; [reflexivity|].
    apply filter_all, forallb_filter_same.
Qed.

Lemma delete_miss_is_silent_witness :
  Student.delete "students.json" "Zed"
    (State {["students.json" := Examples.two_anns]} []) =
  Run (Ok tt) (State (<["students.json" := Examples.two_anns]>
                        {["students.json" := Examples.two_anns]}) [])
      [EvWrite "students.json" Examples.two_anns].
Proof.
  pose proof (delete_miss_is_silent "students.json" "Zed"
                (State {["students.json" := Examples.two_anns]} []) eq_refl)
    as (Hmiss & _).
  apply Hmiss. reflexivity.
Defined.

End Store.

(* ===================================================================== *)
(** * main.py: deleting a record *)
(* ===================================================================== *)

Section DeleteRecord.
Import Py Env FileOperations Authentication Records Spec Steps.

Lemma getitem_raises (v : pyval) (k : string) (e : exn) :
  getitem v k = Raise e -> e = KeyError k \/ e = TypeError.
Proof.
  destruct v as [| | | | |items]; cbn; try (intros [= <-]; now right).
  destruct (lookup_item k items); [discriminate | intros [= <-]; now left].
Qed.

(** The comprehension of [delete] fails only on a record without a name,
    never with [NoMatchingNameError]. *)
Lemma not_named_raises (data : list pyval) (name : string) (e : exn) :
  not_named data name = Raise e -> Main.is_NoMatchingNameError e = false.
Proof.
  induction data as [|x data IH]; [discriminate|].
  cbn [not_named]. destruct (getitem x "name") as [v|e'] eqn:Hv; cbn.
  - destruct (not_named data name) as [kept|e'']; cbn; [discriminate|].
    intros [= <-]. now apply IH.
  - intros [= <-]. destruct (getitem_raises _ _ _ Hv) as [-> | ->]; reflexivity.
Qed.

Lemma not_named_app_raise (pre post : list pyval) (bad : pyval) (name : string) (e : exn) :
  forallb named pre = true -> getitem bad "name" = Raise e ->
  not_named (pre ++ bad :: post) name = Raise e.
Proof.
  intros Hpre Hbad. induction pre as [|x pre IH]; cbn [app not_named].
  - now rewrite Hbad.
  - cbn [forallb] in Hpre. apply andb_true_iff in Hpre as [Hx Hpre].
    destruct (has_key_getitem _ _ Hx) as [v ->]. cbn. now rewrite (IH Hpre).
Qed.

Lemma delete_cases (path name : string) (s : state) :
  Student.delete path name s =
  match not_named (contents s path) name with
  | Ok kept => Run (Ok tt) (State (<[path := kept]> (files s)) (stdin s))
                   [EvWrite path kept]
  | Raise e => Run (Raise e) s []
  end.
Proof.
  unfold Student.delete. rewrite run_read_json_bind, run_lift_bind.
  destruct (not_named (contents s path) name); reflexivity.
Qed.

Lemma delete_flag_cases (path name : string) (s : state) :
  try_except (Student.delete path name;; mret true)
             Main.is_NoMatchingNameError (fun _ => mret false) s =
  match not_named (contents s path) name with
  | Ok kept => Run (Ok true) (State (<[path := kept]> (files s)) (stdin s))
                   [EvWrite path kept]
  | Raise e => Run (Raise e) s []
  end.
Proof.
  unfold try_except, mbind, io_bind. rewrite delete_cases.
  destruct (not_named (contents s path) name) as [kept|e] eqn:Hd; cbn; [reflexivity|].
  now rewrite (not_named_raises _ _ _ Hd).
Qed.

(** Every run of [delete_record]. *)
Lemma delete_record_cases (teachers_file students_file name : string) (s : state) :
  Main.delete_record teachers_file students_file name s =
  match not_named (contents s teachers_file) name with
  | Raise e => Run (Raise e) s []
  | Ok kept_teachers =>
      let s1 := State (<[teachers_file := kept_teachers]> (files s)) (stdin s) in
      match not_named (contents s1 students_file) name with
      | Raise e => Run (Raise e) s1 [EvWrite teachers_file kept_teachers]
      | Ok kept_students =>
          Run (Ok tt)
              (State (<[students_file := kept_students]> (files s1)) (stdin s))
              [EvWrite teachers_file kept_teachers;
               EvWrite students_file kept_students;
               EvPrint ("Record for " +:+ name +:+ " deleted successfully.")]
      end
  end.
Proof.
  unfold Main.delete_record. change Teacher.delete with Student.delete.
  pose proof (delete_flag_cases teachers_file name s) as H1.
  destruct (not_named (contents s teachers_file) name) as [k1|e].
  - rewrite (run_bind_ok _ _ s true) by now rewrite H1.
    rewrite H1. cbn [result final trace]. cbv zeta.
    set (s1 := State _ (stdin s)).
    pose proof (delete_flag_cases students_file name s1) as H2.
    destruct (not_named (contents s1 students_file) name) as [k2|e].
    + rewrite (run_bind_ok _ _ s1 true) by now rewrite H2.
      rewrite H2. reflexivity.
    + rewrite (run_bind_raise _ _ s1 e) by now rewrite H2.
      rewrite H2. reflexivity.
  - rewrite (run_bind_raise _ _ s e) by now rewrite H1.
    now rewrite H1.
Qed.

Lemma success_is_not_miss (name : string) :
  EvPrint ("Record for " +:+ name +:+ " deleted successfully.")
  <> EvPrint "No matching name found.".
Proof.
  intros H.
  apply (f_equal (fun ev => match ev with
                            | EvPrint (String c _) => c
                            | _ => "000"%char
                            end)) in H.
  vm_compute in H. discriminate H.
Qed.

(** X6: [delete_record] never reports a miss: in no run does it print
    [No matching name found.]; whenever it returns it has printed that
    the record was deleted. *)
Theorem delete_record_never_reports_miss
    (teachers_file students_file name : string) (s : state) :
  let r := Main.delete_record teachers_file students_file name s in
  ~ In (EvPrint "No matching name found.") (trace r) /\
  (result r = Ok tt <->
   In (EvPrint ("Record for " +:+ name +:+ " deleted successfully.")) (trace r)).
Proof.
  cbv zeta. rewrite delete_record_cases.
  destruct (not_named (contents s teachers_file) name) as [k1|e]; cbv zeta.
  - destruct (not_named _ name) as [k2|e]; cbn [result trace].
    + split.
      * intros [H|[H|[H|[]]]]; try discriminate H;
          now apply (success_is_not_miss name).
      * split; [intros _; right; right; now left | reflexivity].
    + split.
      * intros [H|[]]. discriminate H.
      * split; [discriminate|]. intros [H|[]]. discriminate H.
  - cbn. split; [tauto|]. split; [discriminate | tauto].
Qed.

(** X7: On two collections of named records [delete_record] removes the
    records of the name from both, teachers and students alike, and
    reports success, also when neither collection held the name. *)
Theorem delete_record_both_collections
    (teachers_file students_file name : string) (s : state) :
  teachers_file <> students_file ->
  forallb named (contents s teachers_file) = true ->
  forallb named (contents s students_file) = true ->
  let keep := List.filter (fun e => negb (field_is "name" e name)) in
  let r := Main.delete_record teachers_file students_file name s in
  result r = Ok tt /\
  contents (final r) teachers_file = keep (contents s teachers_file) /\
  contents (final r) students_file = keep (contents s students_file) /\
  last (trace r) =
    Some (EvPrint ("Record for " +:+ name +:+ " deleted successfully.")).
Proof.
  intros Hne Ht Hs keep r. subst r. rewrite delete_record_cases.
  rewrite (not_named_filter _ _ Ht). cbv zeta.
  set (s1 := State _ (stdin s)).
  assert (Hs1 : contents s1 students_file = contents s students_file)
    by (apply contents_insert_ne; exact Hne).
  rewrite Hs1, (not_named_filter _ _ Hs). cbn [result final trace].
  split; [reflexivity|]. split; [|split; [|reflexivity]].
  - subst s1. unfold contents at 1. cbn [files].
    rewrite lookup_insert_ne by congruence. now rewrite lookup_insert_eq.
  - unfold contents at 1. cbn [files]. now rewrite lookup_insert_eq.
Qed.

Lemma delete_record_both_collections_witness :
  let r := Main.delete_record "teachers.json" "students.json" "Ann"
             (State {["teachers.json" := [Examples.ada];
                      "students.json" := Examples.two_anns]} []) in
  contents (final r) "teachers.json" = [Examples.ada] /\
  contents (final r) "students.json"
    = [PDict [("name", PStr "Bob"); ("roll_number", PStr "2")]].
Proof.
  pose proof (delete_record_both_collections "teachers.json" "students.json" "Ann"
                (State {["teachers.json" := [Examples.ada];
                         "students.json" := Examples.two_anns]} [])
                ltac:(discriminate) eq_refl eq_refl) as (_ & Ht & Hs & _).
  split; [exact Ht | exact Hs].
Defined.

(** X8: [delete_record] is not atomic: when the students' collection holds a
    record without a name, the command fails on it after the teachers'
    collection has already been rewritten without the name. *)
Theorem delete_record_partial
    (teachers_file students_file name : string) (s : state)
    (pre post : list pyval) (bad : pyval) (e : exn) :
  teachers_file <> students_file ->
  forallb named (contents s teachers_file) = true ->
  contents s students_file = pre ++ bad :: post ->
  forallb named pre = true ->
  getitem bad "name" = Raise e ->
  let r := Main.delete_record teachers_file students_file name s in
  result r = Raise e /\
  contents (final r) teachers_file =
    List.filter (fun x => negb (field_is "name" x name)) (contents s teachers_file) /\
  contents (final r) students_file = contents s students_file /\
  trace r = [EvWrite teachers_file
               (List.filter (fun x => negb (field_is "name" x name))
                            (contents s teachers_file))].
Proof.
  intros Hne Ht Hdata Hpre Hbad r. subst r. rewrite delete_record_cases.
  rewrite (not_named_filter _ _ Ht). cbv zeta.
  set (s1 := State _ (stdin s)).
  assert (Hs1 : contents s1 students_file = contents s students_file)
    by (apply contents_insert_ne; exact Hne).
  rewrite Hs1, Hdata, (not_named_app_raise pre post bad name e Hpre Hbad).
  cbn [result final trace]. rewrite <- Hdata, Hs1.
  split; [reflexivity|]. split; [|split; reflexivity].
  apply contents_insert.
Qed.

Lemma delete_record_partial_witness :
  let r := Main.delete_record "teachers.json" "students.json" "Ada"
             (State {["teachers.json" := [Examples.ada];
                      "students.json" := [PDict [("roll_number", PStr "7")]]]} []) in
  result r = Raise (KeyError "name") /\
  contents (final r) "teachers.json" = [].
Proof.
  pose proof (delete_record_partial "teachers.json" "students.json" "Ada"
                (State {["teachers.json" := [Examples.ada];
                         "students.json" := [PDict [("roll_number", PStr "7")]]]} [])
                [] [] (PDict [("roll_number", PStr "7")]) (KeyError "name")
                ltac:(discriminate) eq_refl eq_refl eq_refl eq_refl)
    as (Hres & Ht & _).
  split; [exact Hres | exact Ht].
Defined.

End DeleteRecord.

(* ===================================================================== *)
(** * main.py: the adding commands, run on enough typed lines *)
(* ===================================================================== *)

Section AddingRuns.
Import Py Env FileOperations Authentication Records Spec Steps.

Lemma add_new_student_run (json_loads : string -> outcome pyval)
    (students_file teachers_file : string) (fs : gmap string (list pyval))
    (n i name roll_number email phone_number marks_input address : string)
    (rest : list string) :
  Main.add_new_student_from_user json_loads students_file teachers_file
    (State fs (n :: i :: name :: roll_number :: email :: phone_number
                 :: marks_input :: address :: rest)) =
  reported Main.is_ValueError_or_AuthenticationError
    (student_body_run json_loads students_file teachers_file fs
       n i name roll_number email phone_number marks_input address rest).
Proof.
  unfold Main.add_new_student_from_user. rewrite try_except_reported. f_equal.
  etransitivity; [symmetry; apply after_nil|].
  do 3 step. rewrite after_verify. unfold student_body_run. cbv zeta.
  change (contents (State fs (name :: _)) teachers_file)
    with (contents (State fs []) teachers_file).
  destruct (matching_entry _ n i) as [[|]|e]; [|reflexivity..].
  do 5 step. rewrite after_lift.
  destruct (json_loads marks_input) as [marks|e]; [|reflexivity].
  do 2 step. rewrite after_lift.
  change (contents (State fs rest) students_file)
    with (contents (State fs []) students_file).
  destruct (Main.any_roll_number _ roll_number) as [[|]|e]; [| |reflexivity].
  - step. reflexivity.
  - rewrite after_lift. destruct (int phone_number) as [phone|e]; [|reflexivity].
    unfold after. rewrite student_accept_run. cbn [result final trace files stdin].
    cbn [app]. reflexivity.
Qed.

Ltac teacher_rest_steps fs rest :=
  do 6 step; rewrite after_lift; unfold teacher_rest_run; cbv zeta;
  match goal with
  | |- context [Main.any_teacher_id ?ts ?id] =>
      destruct (Main.any_teacher_id ts id) as [[|]|?]; [| |reflexivity]
  end;
  [ step; reflexivity
  | rewrite after_lift;
    match goal with
    | |- context [int ?p] => destruct (int p) as [?|?]; [|reflexivity]
    end;
    rewrite after_lift;
    match goal with
    | |- context [Teacher.init ?a ?b ?c ?d ?e ?f] =>
        destruct (Teacher.init a b c d e f) as [?|?]; [|reflexivity]
    end;
    unfold after; rewrite teacher_accept_run;
    cbn [result final trace files stdin app];
    change (contents (State fs rest)) with (contents (State fs []));
    rewrite <- ?app_assoc; reflexivity ].


Lemma add_new_teacher_run (file_path : string) (fs : gmap string (list pyval))
    (n i name subject teacher_id address email phone_number : string)
    (rest : list string) :
  contents (State fs []) file_path <> [] ->
  Main.add_new_teacher_from_user file_path
    (State fs (n :: i :: name :: subject :: teacher_id :: address :: email
                 :: phone_number :: rest)) =
  reported is_ValueError
    (teacher_body_run file_path fs
       n i name subject teacher_id address email phone_number rest).
Proof.
  intros Hne.
  unfold Main.add_new_teacher_from_user. rewrite try_except_reported. f_equal.
  etransitivity; [symmetry; apply after_nil|].
  step. change (contents (State fs (n :: _)) file_path)
          with (contents (State fs []) file_path).
  unfold teacher_body_run. cbv zeta.
  destruct (contents (State fs []) file_path) as [|t ts] eqn:Hdata; [congruence|].
  cbv iota beta.
  rewrite bind_assoc_run. step. rewrite bind_assoc_run. step.
  rewrite bind_assoc_run. step. rewrite after_verify.
  change (contents (State fs (name :: _)) file_path)
    with (contents (State fs []) file_path).
  rewrite Hdata.
  destruct (matching_entry (t :: ts) n i) as [[|]|e]; [|reflexivity..].
  teacher_rest_steps fs rest.
Qed.

End AddingRuns.

(* ===================================================================== *)
(** * main.py: signing in *)
(* ===================================================================== *)

Section SigningIn.
Import Py Env FileOperations Authentication Records Spec Steps.

(** The body of [add_new_student_from_user] up to the sign-in, when the
    sign-in fails or the typed lines run out. *)
Lemma student_sign_in_fails (json_loads : string -> outcome pyval)
    (students_file teachers_file : string) (s : state) :
  (forall n i, matching_entry (contents s teachers_file) n i = Ok false) ->
  let r := Main.add_new_student_from_user json_loads students_file teachers_file s in
  files (final r) = files s /\
  existsb is_write (trace r) = false /\
  (forall n i rest, stdin s = n :: i :: rest ->
     r = Run (Ok tt) (State (files s) rest)
             (sign_in_trace "Enter your Id number: " n i
              ++ [EvPrint "Invalid teacher credentials"])).
Proof.
  intros Hno r. subst r. destruct s as [fs lines]. cbn [files stdin].
  unfold Main.add_new_student_from_user. rewrite try_except_reported.
  match goal with |- context [reported _ (?b ?s)] =>
    rewrite <- (after_nil (b s))
  end.
  step. destruct lines as [|n [|i rest]].
  - rewrite after_input_eof. cbn. repeat split; try reflexivity. discriminate.
  - step. rewrite after_input_eof. cbn. repeat split; try reflexivity. discriminate.
  - do 2 step. rewrite after_verify.
    change (contents (State fs rest) teachers_file)
      with (contents (State fs (n :: i :: rest)) teachers_file).
    rewrite Hno. cbn. repeat split; try reflexivity.
    intros n' i' rest' [= <- <- <-]. reflexivity.
Qed.

(** X9: Without a stored teacher no student can be added: on an empty (or
    missing) teachers' collection [add_new_student_from_user] writes
    nothing, whatever is typed; once the two sign-in lines are typed it
    reports [Invalid teacher credentials] and returns. *)
Theorem no_teacher_no_student (json_loads : string -> outcome pyval)
    (students_file teachers_file : string) (s : state) :
  contents s teachers_file = [] ->
  let r := Main.add_new_student_from_user json_loads students_file teachers_file s in
  files (final r) = files s /\
  existsb is_write (trace r) = false /\
  (forall n i rest, stdin s = n :: i :: rest ->
     result r = Ok tt /\
     last (trace r) = Some (EvPrint "Invalid teacher credentials")).
Proof.
  intros Hempty r.
  destruct (student_sign_in_fails json_loads students_file teachers_file s)
    as (Hfiles & Hquiet & Hrun).
  { intros n i. now rewrite Hempty. }
  split; [exact Hfiles|]. split; [exact Hquiet|].
  intros n i rest Hlines. subst r. rewrite (Hrun n i rest Hlines).
  split; reflexivity.
Qed.

Lemma no_teacher_no_student_witness :
  let r := Main.add_new_student_from_user (fun _ => Ok (PDict [])) "students.json"
             "teachers.json"
             (State ∅ ["Ada"; "T1"; "Sam"; "7"; "sam@school.org"; "5"; "{}"; "Home"]) in
  files (final r) = ∅ /\ result r = Ok tt.
Proof.
  pose proof (no_teacher_no_student (fun _ => Ok (PDict [])) "students.json"
                "teachers.json"
                (State ∅ ["Ada"; "T1"; "Sam"; "7"; "sam@school.org"; "5"; "{}"; "Home"])
                eq_refl) as (Hfiles & _ & Hrun).
  split; [exact Hfiles|].
  exact (proj1 (Hrun "Ada" "T1" _ eq_refl)).
Defined.

Lemma teacher_sign_in_fails (file_path : string) (fs : gmap string (list pyval))
    (n i : string) (rest : list string) :
  contents (State fs []) file_path <> [] ->
  matching_entry (contents (State fs []) file_path) n i = Ok false ->
  Main.add_new_teacher_from_user file_path (State fs (n :: i :: rest)) =
  Run (Raise (AuthenticationError "Invalid teacher credentials")) (State fs rest)
      (sign_in_trace "Enter your ID number: " n i).
Proof.
  intros Hne Hno.
  unfold Main.add_new_teacher_from_user. rewrite try_except_reported.
  match goal with |- context [reported _ (?b ?s)] =>
    rewrite <- (after_nil (b s))
  end.
  step. change (contents (State fs (n :: _)) file_path)
          with (contents (State fs []) file_path).
  destruct (contents (State fs []) file_path) as [|t ts] eqn:Hdata; [congruence|].
  cbv iota beta.
  rewrite bind_assoc_run. step. rewrite bind_assoc_run. step.
  rewrite bind_assoc_run. step. rewrite after_verify.
  change (contents (State fs rest) file_path)
    with (contents (State fs []) file_path).
  rewrite Hdata, Hno. reflexivity.
Qed.

(** X10: A failed sign-in is handled differently by the two adding commands.
    [add_new_teacher_from_user] catches [ValueError] only: the
    [AuthenticationError] leaves the command uncaught, with no message
    printed. [add_new_student_from_user] catches it, prints its message
    and returns. Neither writes. *)
Theorem failed_sign_in (file_path : string) (s : state) (n i : string) (rest : list string) :
  forallb teacher_entry (contents s file_path) = true ->
  contents s file_path <> [] ->
  stdin s = n :: i :: rest ->
  existsb (fun e => field_is "name" e n && field_is "id" e i) (contents s file_path)
    = false ->
  let teacher_run := Main.add_new_teacher_from_user file_path s in
  (result teacher_run = Raise (AuthenticationError "Invalid teacher credentials") /\
   files (final teacher_run) = files s /\
   trace teacher_run = sign_in_trace "Enter your ID number: " n i) /\
  (forall (json_loads : string -> outcome pyval) (students_file : string),
      let student_run :=
        Main.add_new_student_from_user json_loads students_file file_path s in
      result student_run = Ok tt /\
      files (final student_run) = files s /\
      trace student_run = sign_in_trace "Enter your Id number: " n i
                          ++ [EvPrint "Invalid teacher credentials"]).
Proof.
  intros Hwf Hne Hlines Hno. destruct s as [fs lines]. cbn [stdin] in Hlines. subst lines.
  change (contents (State fs (n :: i :: rest)) file_path)
    with (contents (State fs []) file_path) in *.
  assert (Hmatch : matching_entry (contents (State fs []) file_path) n i = Ok false)
    by now rewrite (matching_entry_existsb _ _ _ Hwf), Hno.
  split.
  - cbv zeta. rewrite (teacher_sign_in_fails file_path fs n i rest Hne Hmatch).
    repeat split.
  - intros json_loads students_file. cbv zeta.
    unfold Main.add_new_student_from_user. rewrite try_except_reported.
    match goal with |- context [reported _ (?b ?s)] =>
      rewrite <- (after_nil (b s))
    end.
    do 3 step. rewrite after_verify.
    change (contents (State fs rest) file_path)
      with (contents (State fs []) file_path).
    rewrite Hmatch. repeat split.
Qed.

Lemma failed_sign_in_witness :
  result (Main.add_new_teacher_from_user "teachers.json"
            (State {["teachers.json" := [Examples.ada]]} ["Ada"; "wrong"]))
    = Raise (AuthenticationError "Invalid teacher credentials") /\
  result (Main.add_new_student_from_user (fun _ => Ok (PDict [])) "students.json"
            "teachers.json"
            (State {["teachers.json" := [Examples.ada]]} ["Ada"; "wrong"]))
    = Ok tt.
Proof.
  pose proof (failed_sign_in "teachers.json"
                (State {["teachers.json" := [Examples.ada]]} ["Ada"; "wrong"])
                "Ada" "wrong" [] eq_refl ltac:(discriminate) eq_refl eq_refl)
    as [(Ht & _) Hs].
  split; [exact Ht|].
  exact (proj1 (Hs (fun _ => Ok (PDict [])) "students.json")).
Defined.

End SigningIn.

(* ===================================================================== *)
(** * Creating teachers and students *)
(* ===================================================================== *)

Section Creating.
Import Py Env FileOperations Authentication Records Spec Steps.

Lemma validate_phone_number_int (z : Z) :
  Teacher.validate_phone_number (PInt z) =
    if Z.of_nat (String.length (str_int z)) =? 10 then Ok (PInt z)
    else Raise (ValueError "Phone number must be an integer with 10 digits").
Proof. reflexivity. Qed.

Lemma validate_phone_number_in_range (z : Z) :
  ten_digit_positive z \/ nine_digit_negative z ->
  Teacher.validate_phone_number (PInt z) = Ok (PInt z).
Proof.
  intros Hr%str_int_length_10. rewrite validate_phone_number_int, Hr. reflexivity.
Qed.

Lemma validate_phone_number_out_of_range (z : Z) :
  ~ (ten_digit_positive z \/ nine_digit_negative z) ->
  Teacher.validate_phone_number (PInt z) =
    Raise (ValueError "Phone number must be an integer with 10 digits").
Proof.
  intros Hr. rewrite validate_phone_number_int.
  destruct (Z.eqb_spec (Z.of_nat (String.length (str_int z))) 10) as [Hlen|]; [|reflexivity].
  exfalso. apply Hr, str_int_length_10. lia.
Qed.

Lemma validate_phone_number_returns (v p : pyval) :
  Teacher.validate_phone_number v = Ok p ->
  exists z, v = PInt z /\ p = PInt z /\ (ten_digit_positive z \/ nine_digit_negative z).
Proof.
  destruct v as [|[|]|z| | |]; try discriminate.
  rewrite validate_phone_number_int.
  destruct (Z.eqb_spec (Z.of_nat (String.length (str_int z))) 10) as [Hlen|];
    [|discriminate].
  intros [= <-]. exists z. repeat split. apply str_int_length_10. lia.
Qed.

Lemma teacher_init_ok (name subject teacher_id address email : string) (z : Z) :
  email_prefix email -> ten_digit_positive z \/ nine_digit_negative z ->
  Teacher.init name subject teacher_id address email (PInt z) =
    Ok (Teacher.Build name subject teacher_id address email (PInt z)).
Proof.
  intros He%email_pattern_prefix Hz. unfold Teacher.init, Teacher.validate_email.
  rewrite He. cbn [mbind outcome_bind].
  now rewrite (validate_phone_number_in_range z Hz).
Qed.

Lemma teacher_init_bad_email (name subject teacher_id address email : string)
    (phone_number : pyval) :
  ~ email_prefix email ->
  Teacher.init name subject teacher_id address email phone_number
    = Raise (ValueError "Invalid email address").
Proof.
  intros Hn. unfold Teacher.init, Teacher.validate_email.
  destruct (re_match Teacher.email_pattern email) eqn:Hm; [|reflexivity].
  apply email_pattern_prefix in Hm. contradiction.
Qed.

Lemma teacher_init_returns (name subject teacher_id address email : string)
    (phone_number : pyval) (t : Teacher.instance) :
  Teacher.init name subject teacher_id address email phone_number = Ok t ->
  email_prefix email /\
  (exists z, phone_number = PInt z /\
             (ten_digit_positive z \/ nine_digit_negative z)) /\
  t = Teacher.Build name subject teacher_id address email phone_number.
Proof.
  unfold Teacher.init, Teacher.validate_email.
  destruct (re_match Teacher.email_pattern email) eqn:Hm; [|discriminate].
  apply email_pattern_prefix in Hm. cbn [mbind outcome_bind].
  destruct (Teacher.validate_phone_number phone_number) as [p|e] eqn:Hp;
    [|discriminate].
  destruct (validate_phone_number_returns _ _ Hp) as (z & -> & -> & Hr).
  intros [= <-]. split; [exact Hm|]. split; [eauto | reflexivity].
Qed.

(** X11: The constructor: a [Teacher] object comes into being exactly when the
    e-mail address matches the pattern and the phone number has ten
    characters, and then it holds the arguments unchanged. The e-mail is
    checked first: with an e-mail that does not match, the error is the
    one about the e-mail, whatever the phone number. *)
Theorem teacher_init_validates
    (name subject teacher_id address email : string) (phone_number : pyval) :
  (forall t,
      Teacher.init name subject teacher_id address email phone_number = Ok t <->
      email_prefix email /\
      (exists z, phone_number = PInt z /\
                 (ten_digit_positive z \/ nine_digit_negative z)) /\
      t = Teacher.Build name subject teacher_id address email phone_number) /\
  (~ email_prefix email ->
   Teacher.init name subject teacher_id address email phone_number
     = Raise (ValueError "Invalid email address")).
Proof.
  split; [|apply teacher_init_bad_email].
  intros t. split; [apply teacher_init_returns|].
  intros (He & (z & -> & Hz) & ->). now apply teacher_init_ok.
Qed.

Lemma teacher_init_validates_witness :
  Teacher.init "Bob" "Physics" "T1" "2 Side St" "bob@school.org" (PInt 9876543210)
    = Ok (Teacher.Build "Bob" "Physics" "T1" "2 Side St" "bob@school.org"
                        (PInt 9876543210)) /\
  Teacher.init "Bob" "Physics" "T1" "2 Side St" "bob" (PInt 1)
    = Raise (ValueError "Invalid email address").
Proof.
  destruct (teacher_init_validates "Bob" "Physics" "T1" "2 Side St" "bob@school.org"
              (PInt 9876543210)) as [Hok _].
  destruct (teacher_init_validates "Bob" "Physics" "T1" "2 Side St" "bob" (PInt 1))
    as [_ Hbad].
  split.
  - apply Hok. split.
    + exists "bob@school.o", "rg". split; [reflexivity|].
      exists "bob", "school", "o". repeat split; (reflexivity || discriminate).
    + split; [|reflexivity]. exists 9876543210. split; [reflexivity|].
      left. unfold ten_digit_positive. lia.
  - apply Hbad. intros H. apply email_pattern_prefix in H. vm_compute in H.
    discriminate H.
Defined.



Lemma any_roll_number_existsb (students : list pyval) (roll_number : string) :
  forallb (has_key "roll_number") students = true ->
  Main.any_roll_number students roll_number =
    Ok (existsb (fun e => field_is "roll_number" e roll_number) students).
Proof.
  induction students as [|x l IH]; [reflexivity|].
  cbn [forallb]. intros [Hx Hl]%andb_true_iff.
  cbn [Main.any_roll_number existsb]. unfold field_is at 1.
  destruct (has_key_getitem _ _ Hx) as [v ->]. cbn.
  destruct (eq_str v roll_number); [reflexivity | now apply IH].
Qed.

(** X13: A roll number that is taken: after a successful sign-in
    [add_new_student_from_user] refuses a student whose roll number a
    stored record carries. It prints that the roll number must be unique
    and writes nothing. *)
Theorem taken_roll_number_is_refused (json_loads : string -> outcome pyval)
    (students_file teachers_file : string) (s : state)
    (n i name roll_number email phone_number marks_input address : string)
    (rest : list string) (marks : pyval) :
  stdin s = n :: i :: name :: roll_number :: email :: phone_number
              :: marks_input :: address :: rest ->
  matching_entry (contents s teachers_file) n i = Ok true ->
  json_loads marks_input = Ok marks ->
  forallb (has_key "roll_number") (contents s students_file) = true ->
  existsb (fun e => field_is "roll_number" e roll_number) (contents s students_file)
    = true ->
  let r := Main.add_new_student_from_user json_loads students_file teachers_file s in
  result r = Ok tt /\
  files (final r) = files s /\
  existsb is_write (trace r) = false /\
  last (trace r) = Some (EvPrint "Student roll number must be unique.").
Proof.
  intros Hlines Hsign Hjson Hkeys Htaken r. subst r.
  destruct s as [fs lines]. cbn [stdin] in Hlines. subst lines.
  change (contents (State fs _)) with (contents (State fs [])) in *.
  rewrite add_new_student_run. unfold student_body_run. cbv zeta.
  rewrite Hsign, Hjson, (any_roll_number_existsb _ _ Hkeys), Htaken.
  repeat split.
Qed.

Lemma taken_roll_number_is_refused_witness :
  let r := Main.add_new_student_from_user (fun _ => Ok (PDict [])) "students.json"
             "teachers.json"
             (State {["teachers.json" := [Examples.ada];
                      "students.json" := Examples.two_anns]}
                    ["Ada"; "T1"; "Cy"; "2"; "cy@school.org"; "5"; "{}"; "Home"]) in
  result r = Ok tt /\
  last (trace r) = Some (EvPrint "Student roll number must be unique.").
Proof.
  pose proof (taken_roll_number_is_refused (fun _ => Ok (PDict [])) "students.json"
                "teachers.json"
                (State {["teachers.json" := [Examples.ada];
                         "students.json" := Examples.two_anns]}
                       ["Ada"; "T1"; "Cy"; "2"; "cy@school.org"; "5"; "{}"; "Home"])
                "Ada" "T1" "Cy" "2" "cy@school.org" "5" "{}" "Home" [] (PDict [])
                eq_refl eq_refl eq_refl eq_refl eq_refl) as (Hres & _ & _ & Hlast).
  split; [exact Hres | exact Hlast].
Defined.



End Creating.

(* ===================================================================== *)
(** * What the adding commands can do to the files, on every input *)
(* ===================================================================== *)

Section Ensuring.
Import Py Env FileOperations Authentication Records Spec Steps.












Lemma int_raises_ValueError (text : string) (e : exn) :
  int text = Raise e -> is_ValueError e = true.
Proof.
  unfold int. intros H.
  repeat match type of H with
         | context [match ?x with _ => _ end] => destruct x
         end; inversion H; reflexivity.
Qed.







End Ensuring.

(* ===================================================================== *)
(** * Scoring: the reports over a whole class *)
(* ===================================================================== *)

Section Reporting.
Import Py Env FileOperations Spec Steps.

Lemma max_list_In (t : Z) (ts : list Z) : In (Student.max_list t ts) (t :: ts).
Proof.
  unfold Student.max_list. revert t. induction ts as [|x ts IH]; intros t; cbn.
  - now left.
  - destruct (IH (Z.max t x)) as [H|H]; [|right; right; exact H].
    rewrite <- H. destruct (Z.max_spec t x) as [[_ ->]|[_ ->]]; auto.
Qed.

Lemma min_list_In (t : Z) (ts : list Z) : In (Student.min_list t ts) (t :: ts).
Proof.
  unfold Student.min_list. revert t. induction ts as [|x ts IH]; intros t; cbn.
  - now left.
  - destruct (IH (Z.min t x)) as [H|H]; [|right; right; exact H].
    rewrite <- H. destruct (Z.min_spec t x) as [[_ ->]|[_ ->]]; auto.
Qed.

Lemma highest_and_lowest_scores_run (file_path : string) (s : state) :
  forallb student_entry (contents s file_path) = true ->
  Student.highest_and_lowest_scores file_path s =
    Run (Ok match map total (List.filter passing (contents s file_path)) with
            | t :: ts => (PInt (Student.max_list t ts), PInt (Student.min_list t ts))
            | [] => (PStr "-", PStr "-")
            end) s [].
Proof.
  intros Hwf. unfold Student.highest_and_lowest_scores.
  rewrite run_read_json_bind. unfold lift. now rewrite (extremes_totals _ Hwf).
Qed.

(** X17: The extremes are attained: on a class of well-formed records
    [highest_and_lowest_scores] returns the pair of dashes exactly when
    no student passes. Otherwise it returns two integers, each the total
    of a passing student, and the total of every passing student lies
    between them. Students who fail do not count. *)
Theorem highest_and_lowest_attained (file_path : string) (s : state) :
  forallb student_entry (contents s file_path) = true ->
  let passed := List.filter passing (contents s file_path) in
  let scores := result (Student.highest_and_lowest_scores file_path s) in
  (passed = [] -> scores = Ok (PStr "-", PStr "-")) /\
  (passed <> [] ->
   exists top bottom,
     In top passed /\ In bottom passed /\
     scores = Ok (PInt (total top), PInt (total bottom)) /\
     forall entry, In entry passed -> total bottom <= total entry <= total top).
Proof.
  intros Hwf passed scores. subst scores.
  rewrite (highest_and_lowest_scores_run _ _ Hwf). cbn [result]. fold passed.
  split; [now intros ->|]. intros Hne.
  destruct (map total passed) as [|t ts] eqn:Htotals.
  { destruct passed; [congruence | discriminate]. }
  destruct (proj1 (in_map_iff total passed (Student.max_list t ts))) as (top & Htop & Hintop).
  { rewrite Htotals. apply max_list_In. }
  destruct (proj1 (in_map_iff total passed (Student.min_list t ts)))
    as (bottom & Hbottom & Hinbottom).
  { rewrite Htotals. apply min_list_In. }
  exists top, bottom. rewrite Htop, Hbottom. repeat split; auto.
  all: apply (extremes_bound (total entry) t ts); rewrite <- Htotals; now apply in_map.
Qed.

Lemma highest_and_lowest_attained_witness :
  result (Student.highest_and_lowest_scores "students.json"
            (State {["students.json" := [Examples.student "F" [("c", 10)]]]} []))
    = Ok (PStr "-", PStr "-").
Proof.
  assert (Hwf : forallb student_entry
                  (contents (State {["students.json" := [Examples.student "F" [("c", 10)]]]} [])
                            "students.json") = true) by (vm_compute; reflexivity).
  apply (highest_and_lowest_attained "students.json" _ Hwf).
  vm_compute. reflexivity.
Defined.

(** X18: The report of the extremes: on a class of well-formed records
    [find_highest_and_lowest_scores] prints two lines, changes nothing
    and does not fail. Both lines show a dash when no student passes;
    otherwise they show the decimal numerals of the two extremes, the
    lowest being at most the highest. *)
Theorem find_highest_and_lowest_scores_prints (students_file : string) (s : state) :
  forallb student_entry (contents s students_file) = true ->
  exists high low,
    Reports.find_highest_and_lowest_scores students_file s =
      Run (Ok tt) s [EvPrint ("Highest Score: " +:+ high);
                     EvPrint ("Lowest Score: " +:+ low)] /\
    (List.filter passing (contents s students_file) = [] /\ high = "-" /\ low = "-" \/
     exists highest lowest,
       result (Student.highest_and_lowest_scores students_file s)
         = Ok (PInt highest, PInt lowest) /\
       high = str_int highest /\ low = str_int lowest /\ lowest <= highest).
Proof.
  intros Hwf. unfold Reports.find_highest_and_lowest_scores.
  pose proof (highest_and_lowest_scores_run _ _ Hwf) as Hrun.
  destruct (map total (List.filter passing (contents s students_file)))
    as [|t ts] eqn:Htotals.
  - exists "-", "-". split.
    + rewrite (run_bind_ok _ _ _ _ (f_equal result Hrun)), Hrun. reflexivity.
    + left. destruct (List.filter passing _); [auto | discriminate].
  - exists (str_int (Student.max_list t ts)), (str_int (Student.min_list t ts)). split.
    + rewrite (run_bind_ok _ _ _ _ (f_equal result Hrun)), Hrun. reflexivity.
    + right. exists (Student.max_list t ts), (Student.min_list t ts).
      rewrite Hrun. repeat split.
      pose proof (extremes_bound t t ts (or_introl eq_refl)). lia.
Qed.

Lemma find_highest_and_lowest_scores_prints_witness :
  exists high low,
    Reports.find_highest_and_lowest_scores "students.json"
      (State {["students.json" := Examples.class]} []) =
      Run (Ok tt) (State {["students.json" := Examples.class]} [])
          [EvPrint ("Highest Score: " +:+ high); EvPrint ("Lowest Score: " +:+ low)].
Proof.
  assert (Hwf : forallb student_entry
                  (contents (State {["students.json" := Examples.class]} [])
                            "students.json") = true) by (vm_compute; reflexivity).
  destruct (find_highest_and_lowest_scores_prints "students.json" _ Hwf)
    as (high & low & Hrun & _).
  exists high, low. exact Hrun.
Defined.

End Reporting.

(* ===================================================================== *)
(** * Scoring: the lists of passing students and of percentages *)
(* ===================================================================== *)

Section Listing.
Import Py Env FileOperations Spec Steps.

Lemma summary_fields (entry : pyval) :
  student_entry entry = true ->
  student_entry (summary entry) = true /\
  marks_of (summary entry) = marks_of entry /\
  summary (summary entry) = summary entry.
Proof.
  intros (n & items & Hn & Hm & Hints & Hfn & Hfm & Hmarks)%student_entry_inv.
  unfold summary. rewrite Hfn, Hfm.
  repeat split.
  - unfold student_entry. cbn. exact Hints.
  - unfold marks_of at 1. unfold field. cbn. now rewrite Hmarks.
Qed.

Lemma summaries_pass_again (data : list pyval) :
  forallb student_entry data = true ->
  forallb student_entry (map summary (List.filter passing data)) = true /\
  map summary (List.filter passing (map summary (List.filter passing data)))
    = map summary (List.filter passing data).
Proof.
  induction data as [|entry rest IH]; [now split|].
  cbn [forallb]. intros [He Hrest]%andb_true_iff.
  destruct (IH Hrest) as [IH1 IH2].
  destruct (summary_fields _ He) as (Hs & Hmarks & Hss).
  cbn [List.filter]. destruct (passing entry) eqn:Hpass; [|now split].
  cbn [map forallb List.filter]. rewrite Hs, IH1. split; [reflexivity|].
  unfold passing at 1. rewrite Hmarks. fold (passing entry). rewrite Hpass.
  cbn [map]. now rewrite Hss, IH2.
Qed.

(** X19: The list of passing students, run on itself: on a class of
    well-formed records [pass_fail_determination] returns a list that is
    again such a class, and stored in place of the class it is returned
    unchanged. Every listed record has the two fields name and marks,
    every mark in it is at least 32, and no more records are listed than
    the class has. *)
Theorem pass_fail_determination_idempotent (file_path : string) (s : state) :
  forallb student_entry (contents s file_path) = true ->
  exists listed,
    result (Student.pass_fail_determination file_path s) = Ok listed /\
    result (Student.pass_fail_determination file_path
              (State (<[file_path := listed]> (files s)) (stdin s))) = Ok listed /\
    Forall (fun row => passing row = true /\ summary row = row) listed /\
    (length listed <= length (contents s file_path))%nat.
Proof.
  intros Hwf. exists (map summary (List.filter passing (contents s file_path))).
  destruct (summaries_pass_again _ Hwf) as [Hagain Hsame].
  unfold Student.pass_fail_determination. rewrite !run_read_json_bind.
  rewrite contents_insert. cbn [lift result].
  rewrite (pass_students_summaries _ Hwf), (pass_students_summaries _ Hagain), Hsame.
  repeat split.
  - apply List.Forall_forall. intros row (entry & <- & Hin)%in_map_iff.
    apply filter_In in Hin as [Hin Hpass].
    destruct (summary_fields entry (forallb_In _ _ _ Hwf Hin)) as (_ & Hmarks & Hss).
    split; [|exact Hss]. unfold passing. now rewrite Hmarks.
  - rewrite length_map. apply filter_length_le.
Qed.

Lemma pass_fail_determination_idempotent_witness :
  exists listed,
    result (Student.pass_fail_determination "students.json"
              (State {["students.json" := Examples.class]} [])) = Ok listed /\
    (length listed <= 4)%nat.
Proof.
  assert (Hwf : forallb student_entry
                  (contents (State {["students.json" := Examples.class]} [])
                            "students.json") = true) by (vm_compute; reflexivity).
  destruct (pass_fail_determination_idempotent "students.json" _ Hwf)
    as (listed & Hrun & _ & _ & Hlen).
  exists listed. split; [exact Hrun | exact Hlen].
Defined.

Lemma graded_inv (entry : pyval) :
  graded entry = true ->
  student_entry entry = true /\ 1 <= count_marks entry <= 15 /\
  Forall (fun z => z <= 100) (marks_of entry).
Proof.
  unfold graded. intros [[[He H1]%andb_true_iff H15]%andb_true_iff Hle]%andb_true_iff.
  split; [exact He|]. split; [lia|].
  apply List.Forall_forall. intros z Hz.
  rewrite forallb_forall in Hle. specialize (Hle z Hz). lia.
Qed.

Lemma percentage_of_graded (entry : pyval) :
  graded entry = true ->
  exists m, getitem entry "marks" = Ok m /\
            getitem entry "name" = Ok (field "name" entry) /\
            Student.calculate_percentage m = Ok (snd (percentage_row entry)).
Proof.
  intros (He & Hcount & Hle)%graded_inv.
  destruct (student_entry_inv _ He) as (n & items & Hn & Hm & Hints & Hfn & _ & Hmarks).
  exists (PDict items). rewrite Hfn. repeat split; [exact Hm | exact Hn |].
  rewrite (calculate_percentage_dict _ Hints). cbv zeta.
  unfold percentage_row, passing, total, count_marks in *. cbn [snd].
  rewrite Hmarks in *. rewrite !length_map in Hcount.
  destruct (forallb (Z.leb 32) _) eqn:Hpass.
  - assert (Hnone : existsb (fun z => z <? 32) (map int_of (map snd items)) = false).
    { rewrite existsb_negb_forallb. apply negb_false_iff.
      rewrite forallb_forall in Hpass |- *. intros z Hz.
      specialize (Hpass z Hz). apply negb_true_iff. lia. }
    rewrite Hnone, !length_map. apply float_percentage_mean; [exact Hcount|].
    rewrite <- (length_map snd), <- (length_map int_of).
    apply sum_list_bounds. apply List.Forall_forall. intros z Hz.
    rewrite List.Forall_forall in Hle. specialize (Hle z Hz).
    rewrite forallb_forall in Hpass. specialize (Hpass z Hz). lia.
  - assert (Hsome : existsb (fun z => z <? 32) (map int_of (map snd items)) = true).
    { destruct (existsb _ _) eqn:Hex; [reflexivity|].
      rewrite <- Hpass. apply forallb_forall. intros z Hz.
      destruct (Z.leb_spec 32 z) as [|Hlt]; [reflexivity|].
      rewrite <- Hex. apply existsb_exists. exists z.
      split; [exact Hz | now apply Z.ltb_lt]. }
    now rewrite Hsome.
Qed.

(** X20: The list of percentages: on a class in which every student has one
    to fifteen marks, none above 100, [calculate_percentage_for_all]
    lists every student, passing or not, in stored order: the name with
    the mean of the marks rounded to three decimals when every mark is
    at least 32, and with a dash otherwise. *)
Theorem calculate_percentage_for_all_lists_everyone (file_path : string) (s : state) :
  forallb graded (contents s file_path) = true ->
  Student.calculate_percentage_for_all file_path s =
    Run (Ok (map percentage_row (contents s file_path))) s [].
Proof.
  intros Hwf. unfold Student.calculate_percentage_for_all.
  rewrite run_read_json_bind. unfold lift. f_equal.
  induction (contents s file_path) as [|entry rest IH]; [reflexivity|].
  cbn [forallb] in Hwf. apply andb_true_iff in Hwf as [He Hrest].
  destruct (percentage_of_graded _ He) as (m & Hm & Hn & Hp).
  cbn [Student.percentages map]. rewrite Hm. cbn [mbind outcome_bind].
  rewrite Hp. cbn [mbind outcome_bind]. rewrite Hn. cbn [mbind outcome_bind].
  rewrite (IH Hrest). reflexivity.
Qed.

Lemma calculate_percentage_for_all_lists_everyone_witness :
  result (Student.calculate_percentage_for_all "students.json"
            (State {["students.json" :=
                       [Examples.student "A" [("math", 40); ("sci", 30)];
                        Examples.student "B" [("math", 90); ("sci", 85)]]]} []))
  = Ok [(PStr "A", Student.Dash); (PStr "B", Student.Percent (mean_rounded 175 2))].
Proof.
  assert (Hwf : forallb graded
                  (contents (State {["students.json" :=
                       [Examples.student "A" [("math", 40); ("sci", 30)];
                        Examples.student "B" [("math", 90); ("sci", 85)]]]} [])
                            "students.json") = true) by (vm_compute; reflexivity).
  rewrite (calculate_percentage_for_all_lists_everyone "students.json" _ Hwf).
  reflexivity.
Defined.

End Listing.

(* ===================================================================== *)
(** * Scoring: one record that breaks a report *)
(* ===================================================================== *)

Section Breaking.
Import Py Env FileOperations Spec Steps.

Lemma percentages_app_graded (before rest : list pyval) :
  forallb graded before = true ->
  Student.percentages (before ++ rest) =
    more ← Student.percentages rest; mret (map percentage_row before ++ more).
Proof.
  induction before as [|entry before IH]; intros Hwf.
  - cbn. now destruct (Student.percentages rest).
  - cbn [forallb] in Hwf. apply andb_true_iff in Hwf as [He Hbefore].
    destruct (percentage_of_graded _ He) as (m & Hm & Hn & Hp).
    cbn [app Student.percentages map]. rewrite Hm. cbn [mbind outcome_bind].
    rewrite Hp. cbn [mbind outcome_bind]. rewrite Hn. cbn [mbind outcome_bind].
    rewrite (IH Hbefore). destruct (Student.percentages rest); reflexivity.
Qed.

(** X21: One student without marks and the list of percentages: when the
    students stored before are well-formed with one to fifteen marks and
    the next one has an empty marks mapping,
    [calculate_percentage_for_all] raises [ZeroDivisionError]. Nobody is
    listed, whoever is stored after. *)
Theorem empty_marks_fails_the_listing (file_path : string) (s : state)
    (before rest : list pyval) (entry : pyval) :
  contents s file_path = before ++ entry :: rest ->
  forallb graded before = true ->
  student_entry entry = true ->
  marks_of entry = [] ->
  Student.calculate_percentage_for_all file_path s = Run (Raise ZeroDivisionError) s [].
Proof.
  intros Hdata Hbefore He Hempty. unfold Student.calculate_percentage_for_all.
  rewrite run_read_json_bind, Hdata. unfold lift. f_equal.
  rewrite (percentages_app_graded _ _ Hbefore).
  destruct (student_entry_inv _ He) as (n & items & _ & Hm & _ & _ & _ & Hmarks).
  rewrite Hempty in Hmarks. destruct items; [|discriminate].
  cbn [Student.percentages]. rewrite Hm. reflexivity.
Qed.

Lemma empty_marks_fails_the_listing_witness :
  Student.calculate_percentage_for_all "students.json"
    (State {["students.json" := Examples.class]} [])
  = Run (Raise ZeroDivisionError) (State {["students.json" := Examples.class]} []) [].
Proof.
  apply (empty_marks_fails_the_listing "students.json"
           (State {["students.json" := Examples.class]} [])
           [Examples.student "A" [("math", 40); ("sci", 30)];
            Examples.student "B" [("math", 90); ("sci", 85)]]
           [Examples.student "D" [("math", 85); ("sci", 90)]]
           (Examples.student "C" [])); reflexivity.
Defined.

Lemma all_marks_pass_raises (entry : pyval) :
  (forall items, getitem entry "marks" <> Ok (PDict items)) ->
  exists e, Student.all_marks_pass entry = Raise e.
Proof.
  intros Hno. unfold Student.all_marks_pass.
  destruct (getitem entry "marks") as [m|e]; [|now exists e].
  destruct m; try (eexists; reflexivity). now destruct (Hno items).
Qed.

Lemma passed_students_raises (data : list pyval) (entry : pyval) :
  In entry data ->
  (forall items, getitem entry "marks" <> Ok (PDict items)) ->
  exists e, Student.passed_students data = Raise e.
Proof.
  intros Hin Hno. induction data as [|x rest IH]; [destruct Hin|].
  cbn [Student.passed_students].
  destruct Hin as [->|Hin].
  - destruct (all_marks_pass_raises _ Hno) as [e ->]. now exists e.
  - destruct (IH Hin) as [e He]. rewrite He.
    destruct (Student.all_marks_pass x) as [ok|e']; eexists; reflexivity.
Qed.

Lemma pass_students_raises (data : list pyval) (entry : pyval) :
  In entry data ->
  (forall items, getitem entry "marks" <> Ok (PDict items)) ->
  exists e, Student.pass_students data = Raise e.
Proof.
  intros Hin Hno. induction data as [|x rest IH]; [destruct Hin|].
  cbn [Student.pass_students].
  destruct Hin as [->|Hin].
  - destruct (all_marks_pass_raises _ Hno) as [e ->]. now exists e.
  - destruct (IH Hin) as [e He]. rewrite He.
    destruct (Student.all_marks_pass x) as [[|]|e']; try (eexists; reflexivity).
    cbn [mbind outcome_bind].
    destruct (getitem x "name"); [|eexists; reflexivity].
    destruct (getitem x "marks"); eexists; reflexivity.
Qed.

Lemma percentages_raises (data : list pyval) (entry : pyval) :
  In entry data ->
  (forall items, getitem entry "marks" <> Ok (PDict items)) ->
  exists e, Student.percentages data = Raise e.
Proof.
  intros Hin Hno. induction data as [|x rest IH]; [destruct Hin|].
  cbn [Student.percentages].
  destruct Hin as [->|Hin].
  - destruct (getitem entry "marks") as [m|e]; [|now exists e].
    destruct m; try (eexists; reflexivity). now destruct (Hno items).
  - destruct (IH Hin) as [e He]. rewrite He.
    destruct (getitem x "marks"); [|eexists; reflexivity]. cbn [mbind outcome_bind].
    destruct (Student.calculate_percentage _); [|eexists; reflexivity].
    cbn [mbind outcome_bind].
    destruct (getitem x "name"); eexists; reflexivity.
Qed.

(** X22: One record without a marks mapping: when some stored record has no
    marks, or marks that are not a dictionary, none of the four reports
    returns a result; each ends in an exception, wherever the record is
    stored and whatever the other records are. *)
Theorem record_without_marks_fails_every_report (file_path : string) (s : state)
    (entry : pyval) :
  In entry (contents s file_path) ->
  (forall items, getitem entry "marks" <> Ok (PDict items)) ->
  (exists e, result (Student.pass_fail_determination file_path s) = Raise e) /\
  (exists e, result (Student.highest_and_lowest_scores file_path s) = Raise e) /\
  (exists e, result (Student.calculate_percentage_for_all file_path s) = Raise e) /\
  (exists e, result (Student.calculate_rank file_path s) = Raise e).
Proof.
  intros Hin Hno.
  unfold Student.pass_fail_determination, Student.highest_and_lowest_scores,
    Student.calculate_percentage_for_all, Student.calculate_rank.
  rewrite !run_read_json_bind. cbn [lift result].
  destruct (pass_students_raises _ _ Hin Hno) as [e1 H1].
  destruct (passed_students_raises _ _ Hin Hno) as [e2 H2].
  destruct (percentages_raises _ _ Hin Hno) as [e3 H3].
  unfold Student.extremes, Student.ranks. rewrite H1, H2, H3.
  repeat split; eexists; reflexivity.
Qed.

Lemma record_without_marks_fails_every_report_witness :
  exists e,
    result (Student.calculate_rank "students.json"
              (State {["students.json" :=
                         [Examples.student "B" [("math", 90)];
                          PDict [("name", PStr "E"); ("marks", PInt 70)]]]} []))
    = Raise e.
Proof.
  apply (record_without_marks_fails_every_report "students.json"
           (State {["students.json" :=
                      [Examples.student "B" [("math", 90)];
                       PDict [("name", PStr "E"); ("marks", PInt 70)]]]} [])
           (PDict [("name", PStr "E"); ("marks", PInt 70)])).
  - vm_compute. tauto.
  - intros items. vm_compute. discriminate.
Defined.

End Breaking.

(* ===================================================================== *)
(** * Validation: a phone number as it is typed *)
(* ===================================================================== *)

Section TypedPhone.
Import Py Env Spec Steps.

Lemma digit_is_no_space (c : ascii) : is_digit c = true -> is_space c = false.
Proof.
  unfold is_digit, is_space. cbv zeta.
  intros [H1 H2]%andb_true_iff. apply Nat.leb_le in H1, H2.
  apply orb_false_iff. split; apply andb_false_iff.
  - right. apply Nat.leb_gt. lia.
  - right. apply Nat.leb_gt. lia.
Qed.

Lemma rstrip_all_digits (s : string) : all_digits s = true -> rstrip s = s.
Proof.
  induction s as [|c rest IH]; [reflexivity|].
  cbn [all_digits]. intros [Hc Hrest]%andb_true_iff.
  cbn [rstrip]. rewrite (IH Hrest).
  destruct rest; [now rewrite (digit_is_no_space c Hc) | reflexivity].
Qed.

Lemma digit_val_range (c : ascii) : is_digit c = true -> 0 <= digit_val c <= 9.
Proof.
  unfold is_digit, digit_val. cbv zeta.
  intros [H1 H2]%andb_true_iff. apply Nat.leb_le in H1, H2. lia.
Qed.

Lemma digit_val_zero (c : ascii) : digit_val c = 0 <-> c = "0"%char.
Proof.
  unfold digit_val. split; [|now intros ->].
  intros H. rewrite <- (ascii_nat_embedding c).
  replace (nat_of_ascii c) with 48%nat by lia. reflexivity.
Qed.

(** The value of a run of digits read after the value [acc]. *)
Lemma int_digits_all_digits (s : string) (acc : Z) (after_digit : bool) :
  all_digits s = true -> after_digit = true \/ s <> EmptyString ->
  exists n, int_digits s acc after_digit = Some n /\
            acc * 10 ^ Z.of_nat (String.length s) <= n
              < (acc + 1) * 10 ^ Z.of_nat (String.length s).
Proof.
  revert acc after_digit. induction s as [|c rest IH]; intros acc after_digit Hall Hsome.
  - destruct Hsome as [->|H]; [|congruence]. exists acc. cbn. split; [reflexivity | lia].
  - cbn [all_digits] in Hall. apply andb_true_iff in Hall as [Hc Hrest].
    cbn [int_digits]. rewrite Hc.
    destruct (IH (10 * acc + digit_val c) true Hrest (or_introl eq_refl)) as (n & -> & Hn).
    exists n. split; [reflexivity|].
    pose proof (digit_val_range c Hc) as Hd.
    cbn [String.length]. rewrite Nat2Z.inj_succ, Z.pow_succ_r by lia.
    set (p := 10 ^ Z.of_nat (String.length rest)) in *.
    assert (0 < p) by (apply Z.pow_pos_nonneg; lia). nia.
Qed.

Lemma int_of_digits (c : ascii) (digits : string) :
  is_digit c = true -> all_digits digits = true ->
  exists n, int (String c digits) = Ok n /\
            digit_val c * 10 ^ Z.of_nat (String.length digits) <= n
              < (digit_val c + 1) * 10 ^ Z.of_nat (String.length digits).
Proof.
  intros Hc Hall.
  assert (Hs : all_digits (String c digits) = true) by (cbn; now rewrite Hc).
  destruct (int_digits_all_digits (String c digits) 0 false Hs) as (n & Hn & _).
  { right. discriminate. }
  destruct (int_digits_all_digits digits (10 * 0 + digit_val c) true Hall
              (or_introl eq_refl)) as (n' & Hn' & Hbound).
  assert (n' = n).
  { cbn [int_digits] in Hn. rewrite Hc in Hn. congruence. }
  subst n'. exists n. split; [|now rewrite Z.mul_0_r, Z.add_0_l in Hbound].
  unfold int. cbn [lstrip]. rewrite (digit_is_no_space c Hc), (rstrip_all_digits _ Hs).
  assert (Hminus : Ascii.eqb c "-" = false).
  { apply Ascii.eqb_neq. intros ->. discriminate Hc. }
  assert (Hplus : Ascii.eqb c "+" = false).
  { apply Ascii.eqb_neq. intros ->. discriminate Hc. }
  destruct c as [[] [] [] [] [] [] [] []]; try discriminate Hminus;
    try discriminate Hplus; now rewrite Hn.
Qed.

(** X23: Ten digits, as typed: the number that [int] reads from ten typed
    digits is accepted by [validate_phone_number] exactly when the first
    digit is not a zero. A phone number typed with a leading zero is
    read as a shorter number and refused. *)
Theorem ten_typed_digits (c : ascii) (digits : string) :
  is_digit c = true -> all_digits digits = true -> String.length digits = 9%nat ->
  exists phone,
    int (String c digits) = Ok phone /\
    Teacher.validate_phone_number (PInt phone) =
      if Ascii.eqb c "0"
      then Raise (ValueError "Phone number must be an integer with 10 digits")
      else Ok (PInt phone).
Proof.
  intros Hc Hall Hlen.
  destruct (int_of_digits c digits Hc Hall) as (phone & Hint & Hbound).
  exists phone. split; [exact Hint|].
  rewrite Hlen in Hbound. change (10 ^ Z.of_nat 9) with 1000000000 in Hbound.
  pose proof (digit_val_range c Hc) as Hd.
  destruct (Ascii.eqb_spec c "0") as [->|Hne].
  - apply validate_phone_number_out_of_range.
    unfold ten_digit_positive, nine_digit_negative.
    change (digit_val "0") with 0 in Hbound. lia.
  - apply validate_phone_number_in_range. left.
    assert (digit_val c <> 0) by (intros H; now apply digit_val_zero in H).
    unfold ten_digit_positive. lia.
Qed.

Lemma ten_typed_digits_witness :
  exists phone,
    int "0123456789" = Ok phone /\
    Teacher.validate_phone_number (PInt phone) =
      Raise (ValueError "Phone number must be an integer with 10 digits").
Proof.
  exact (ten_typed_digits "0" "123456789" eq_refl eq_refl eq_refl).
Defined.

End TypedPhone.

(* ===================================================================== *)
(** * The commands that display *)
(* ===================================================================== *)

Section Displaying.
Import Py Env FileOperations Records Spec Steps.

Variable repr : pyval -> string.
Variable repr_float : float -> string.

Lemma reads_only_ret {A} (a : A) : reads_only (mret a : io A).
Proof. intros s. split; reflexivity. Qed.

Lemma reads_only_print (line : string) : reads_only (print line).
Proof. intros s. split; reflexivity. Qed.

Lemma reads_only_lift {A} (o : outcome A) : reads_only (lift o).
Proof. intros s. split; reflexivity. Qed.

Lemma reads_only_read_json (path : string) : reads_only (read_json path).
Proof. intros s. split; reflexivity. Qed.

Lemma reads_only_bind {A B} (m : io A) (f : A -> io B) :
  reads_only m -> (forall a, reads_only (f a)) -> reads_only (m ≫= f).
Proof.
  intros Hm Hf s. destruct (Hm s) as [Hs Ht].
  unfold mbind, io_bind. cbv zeta.
  destruct (result (m s)) as [a|e]; cbn [final trace]; [|now split].
  rewrite Hs. destruct (Hf a s) as [Hs' Ht']. split; [exact Hs'|].
  now rewrite forallb_app, Ht, Ht'.
Qed.

Lemma reads_only_try_except {A} (body : io A) (caught : exn -> bool)
    (handler : exn -> io A) :
  reads_only body -> (forall e, reads_only (handler e)) ->
  reads_only (try_except body caught handler).
Proof.
  intros Hb Hh s. destruct (Hb s) as [Hs Ht]. unfold try_except. cbv zeta.
  destruct (result (body s)) as [a|e]; [now split|].
  destruct (caught e); [|now split]. cbn [final trace].
  rewrite Hs. destruct (Hh e s) as [Hs' Ht']. split; [exact Hs'|].
  now rewrite forallb_app, Ht, Ht'.
Qed.

Lemma reads_only_print_each (parts : list (string * string)) (data : list pyval) :
  reads_only (Display.print_each repr parts data).
Proof.
  induction data as [|entry rest IH]; [apply reads_only_ret|].
  cbn [Display.print_each].
  apply reads_only_bind; [apply reads_only_lift | intros line].
  apply reads_only_bind; [apply reads_only_print | intros _; exact IH].
Qed.

Lemma reads_only_print_percentages (rows : list (pyval * Student.percentage)) :
  reads_only (Display.print_percentages repr repr_float rows).
Proof.
  induction rows as [|[name p] rest IH]; [apply reads_only_ret|].
  cbn [Display.print_percentages].
  apply reads_only_bind; [apply reads_only_print | intros _; exact IH].
Qed.

Lemma reads_only_print_ranks (rows : list (pyval * Z)) :
  reads_only (Display.print_ranks repr rows).
Proof.
  induction rows as [|[name rank] rest IH]; [apply reads_only_ret|].
  cbn [Display.print_ranks].
  apply reads_only_bind; [apply reads_only_print | intros _; exact IH].
Qed.

Ltac reads_only_steps :=
  repeat first
    [ apply reads_only_ret | apply reads_only_print | apply reads_only_lift
    | apply reads_only_read_json | apply reads_only_print_each
    | apply reads_only_print_percentages | apply reads_only_print_ranks
    | apply reads_only_bind; [|intros ?]
    | apply reads_only_try_except; [|intros ?] ].

Lemma reads_only_search (path name : string) : reads_only (Student.search path name).
Proof. unfold Student.search. reads_only_steps. Qed.

Lemma reads_only_teacher_display_all (path : string) :
  reads_only (Display.teacher_display_all repr path).
Proof. unfold Display.teacher_display_all. reads_only_steps. Qed.

Lemma reads_only_student_display_all (path : string) :
  reads_only (Display.student_display_all repr path).
Proof. unfold Display.student_display_all. reads_only_steps. Qed.

Lemma reads_only_display_general_info (teachers_file students_file : string) :
  reads_only (Display.display_general_info repr teachers_file students_file).
Proof.
  unfold Display.display_general_info.
  apply reads_only_bind; [apply reads_only_print | intros _].
  apply reads_only_bind; [apply reads_only_teacher_display_all | intros _].
  apply reads_only_bind; [apply reads_only_print | intros _].
  apply reads_only_student_display_all.
Qed.

Lemma reads_only_teacher_display_full_details (path : string) :
  reads_only (Display.teacher_display_full_details repr path).
Proof. unfold Display.teacher_display_full_details. reads_only_steps. Qed.

Lemma reads_only_student_display_full_details (path : string) :
  reads_only (Display.student_display_full_details repr path).
Proof. unfold Display.student_display_full_details. reads_only_steps. Qed.

Lemma reads_only_search_record (teachers_file students_file name : string) :
  reads_only (Display.search_record repr teachers_file students_file name).
Proof.
  unfold Display.search_record.
  apply reads_only_bind.
  { apply reads_only_try_except; [|intros e; apply reads_only_ret].
    apply reads_only_bind; [apply reads_only_search | intros record].
    reads_only_steps. }
  intros found. apply reads_only_bind.
  { apply reads_only_try_except; [|intros e; apply reads_only_ret].
    apply reads_only_bind; [apply reads_only_search | intros record].
    reads_only_steps. }
  intros [|]; [apply reads_only_ret | apply reads_only_print].
Qed.

Lemma reads_only_determine_pass_fail (path : string) :
  reads_only (Display.determine_pass_fail repr path).
Proof.
  unfold Display.determine_pass_fail, Student.pass_fail_determination. reads_only_steps.
Qed.

Lemma reads_only_find_highest_and_lowest_scores (path : string) :
  reads_only (Reports.find_highest_and_lowest_scores path).
Proof.
  unfold Reports.find_highest_and_lowest_scores, Student.highest_and_lowest_scores.
  reads_only_steps.
Qed.

Lemma reads_only_calculate_percentages (path : string) :
  reads_only (Display.calculate_percentages repr repr_float path).
Proof.
  unfold Display.calculate_percentages, Student.calculate_percentage_for_all.
  reads_only_steps.
Qed.

Lemma reads_only_calculate_rank (path : string) :
  reads_only (Display.calculate_rank repr path).
Proof.
  unfold Display.calculate_rank, Student.calculate_rank. reads_only_steps.
Qed.

(** X24: The commands that display only display: whatever the files hold,
    and whether they return or fail on a record, the eight commands of
    the menu that show, search or report leave every file and every
    typed line as it was, and each of their events is a printed line. *)
Theorem displaying_changes_nothing (teachers_file students_file name : string) :
  reads_only (Display.display_general_info repr teachers_file students_file) /\
  reads_only (Display.teacher_display_full_details repr teachers_file) /\
  reads_only (Display.student_display_full_details repr students_file) /\
  reads_only (Display.search_record repr teachers_file students_file name) /\
  reads_only (Display.determine_pass_fail repr students_file) /\
  reads_only (Reports.find_highest_and_lowest_scores students_file) /\
  reads_only (Display.calculate_percentages repr repr_float students_file) /\
  reads_only (Display.calculate_rank repr students_file).
Proof.
  repeat split.
  all: first [ apply reads_only_display_general_info
             | apply reads_only_teacher_display_full_details
             | apply reads_only_student_display_full_details
             | apply reads_only_search_record
             | apply reads_only_determine_pass_fail
             | apply reads_only_find_highest_and_lowest_scores
             | apply reads_only_calculate_percentages
             | apply reads_only_calculate_rank ].
Qed.

End Displaying.

(* ===================================================================== *)
(** * What is displayed *)
(* ===================================================================== *)

Section Lines.
Import Py Env FileOperations Records Spec Steps.

Variable repr : pyval -> string.

Lemma fields_complete (parts : list (string * string)) (entry : pyval) :
  complete parts entry = true ->
  Display.fields repr entry parts = Ok (line_of repr entry parts).
Proof.
  induction parts as [|[label key] rest IH]; [reflexivity|].
  unfold complete. cbn [forallb snd]. intros [Hkey Hrest]%andb_true_iff.
  cbn [Display.fields line_of]. unfold field.
  destruct (has_key_getitem _ _ Hkey) as [v ->]. cbn [mbind outcome_bind].
  now rewrite (IH Hrest).
Qed.

Lemma fields_incomplete (parts : list (string * string)) (entry : pyval) :
  complete parts entry = false -> exists e, Display.fields repr entry parts = Raise e.
Proof.
  induction parts as [|[label key] rest IH]; [discriminate|].
  unfold complete. cbn [forallb snd Display.fields]. intros H.
  destruct (getitem entry key) as [v|e] eqn:Hv; [|now exists e].
  cbn [mbind outcome_bind].
  assert (Hkey : has_key key entry = true).
  { destruct entry as [| | | | |items]; try discriminate Hv. cbn in Hv |- *.
    now destruct (lookup_item key items). }
  rewrite Hkey in H. destruct (IH H) as [e ->]. now exists e.
Qed.

Lemma run_print_bind {B} (line : string) (f : unit -> io B) (s : state) :
  (print line ≫= f) s =
    Run (result (f tt s)) (final (f tt s)) (EvPrint line :: trace (f tt s)).
Proof. reflexivity. Qed.

Lemma print_each_complete (parts : list (string * string)) (data : list pyval)
    (s : state) :
  forallb (complete parts) data = true ->
  Display.print_each repr parts data s =
    Run (Ok tt) s (map (fun entry => EvPrint (line_of repr entry parts)) data).
Proof.
  induction data as [|entry rest IH]; [reflexivity|].
  cbn [forallb]. intros [He Hrest]%andb_true_iff.
  cbn [Display.print_each map]. rewrite run_lift_bind, (fields_complete _ _ He).
  rewrite run_print_bind, (IH Hrest). reflexivity.
Qed.

Lemma print_each_stops (parts : list (string * string)) (before after : list pyval)
    (bad : pyval) (s : state) :
  forallb (complete parts) before = true ->
  complete parts bad = false ->
  exists e,
    Display.print_each repr parts (before ++ bad :: after) s =
      Run (Raise e) s (map (fun entry => EvPrint (line_of repr entry parts)) before).
Proof.
  intros Hbefore Hbad. destruct (fields_incomplete _ _ Hbad) as [e He]. exists e.
  induction before as [|entry rest IH].
  - cbn [app Display.print_each map]. now rewrite run_lift_bind, He.
  - cbn [forallb] in Hbefore. apply andb_true_iff in Hbefore as [Hentry Hrest].
    cbn [app Display.print_each map].
    rewrite run_lift_bind, (fields_complete _ _ Hentry).
    rewrite run_print_bind, (IH Hrest). reflexivity.
Qed.

(** X25: The full details of the teachers, record by record: when every
    stored record has the six keys, [display_full_details] prints the
    heading and then one line per record, in stored order, and returns.
    When a record lacks a key, the command fails at that record: the
    heading and the lines of the records before it have been printed,
    and nothing of the records after it is. *)
Theorem teacher_display_full_details_lines (file_path : string) (s : state) :
  let heading := EvPrint (Display.newline +:+ "Teacher Record:") in
  let line := fun entry => EvPrint (line_of repr entry Display.teacher_full) in
  (forallb (complete Display.teacher_full) (contents s file_path) = true ->
   Display.teacher_display_full_details repr file_path s =
     Run (Ok tt) s (heading :: map line (contents s file_path))) /\
  (forall before bad after,
      contents s file_path = before ++ bad :: after ->
      forallb (complete Display.teacher_full) before = true ->
      complete Display.teacher_full bad = false ->
      exists e,
        Display.teacher_display_full_details repr file_path s =
          Run (Raise e) s (heading :: map line before)).
Proof.
  cbv zeta. unfold Display.teacher_display_full_details. split.
  - intros Hall.
    rewrite run_print_bind, run_read_json_bind, (print_each_complete _ _ _ Hall).
    reflexivity.
  - intros before bad after Hdata Hbefore Hbad.
    destruct (print_each_stops _ before after bad s Hbefore Hbad) as [e He].
    exists e. rewrite run_print_bind, run_read_json_bind, Hdata, He. reflexivity.
Qed.

Lemma first_named_find (data : list pyval) (name : string) :
  forallb named data = true ->
  first_named data name =
    match find (fun e => field_is "name" e name) data with
    | Some entry => Ok entry
    | None => Raise (NoMatchingNameError "No matching name found")
    end.
Proof.
  induction data as [|entry rest IH]; [reflexivity|].
  cbn [forallb]. intros [He Hrest]%andb_true_iff.
  cbn [first_named find]. unfold field_is at 1.
  destruct (has_key_getitem _ _ He) as [v ->]. cbn [mbind outcome_bind].
  destruct (eq_str v name); [reflexivity | now apply IH].
Qed.

Lemma complete_named (parts : list (string * string)) (data : list pyval) :
  In "name" (map snd parts) ->
  forallb (complete parts) data = true -> forallb named data = true.
Proof.
  intros Hin Hall. apply forallb_forall. intros entry Hentry.
  rewrite forallb_forall in Hall. specialize (Hall entry Hentry).
  unfold complete in Hall. rewrite forallb_forall in Hall.
  apply in_map_iff in Hin as (part & Hkey & Hpart).
  specialize (Hall part Hpart). unfold named. now rewrite <- Hkey.
Qed.

Lemma find_complete (parts : list (string * string)) (data : list pyval)
    (p : pyval -> bool) (entry : pyval) :
  forallb (complete parts) data = true -> find p data = Some entry ->
  complete parts entry = true.
Proof.
  intros Hall Hfind. apply find_some in Hfind as [Hin _].
  rewrite forallb_forall in Hall. now apply Hall.
Qed.

(** One search inside [search_record], with the flag it leaves. *)
Lemma search_part_run (path name heading : string) (parts : list (string * string))
    (found : bool) (s : state) :
  In "name" (map snd parts) ->
  forallb (complete parts) (contents s path) = true ->
  let hit := find (fun e => field_is "name" e name) (contents s path) in
  try_except
    (record ← Student.search path name;
     print (Display.newline +:+ heading);;
     line ← lift (Display.fields repr record parts);
     print line;;
     mret true)
    Main.is_NoMatchingNameError (fun _ => mret found) s =
  Run (Ok match hit with Some _ => true | None => found end) s
      (record_lines repr heading parts hit).
Proof.
  intros Hname Hall hit. subst hit.
  assert (Hsearch : Student.search path name s =
            Run match find (fun e => field_is "name" e name) (contents s path) with
                | Some entry => Ok entry
                | None => Raise (NoMatchingNameError "No matching name found")
                end s []).
  { unfold Student.search. rewrite run_read_json_bind. unfold lift.
    now rewrite (first_named_find _ _ (complete_named _ _ Hname Hall)). }
  destruct (find _ (contents s path)) as [entry|] eqn:Hfind.
  - pose proof (find_complete _ _ _ _ Hall Hfind) as Hentry.
    rewrite (run_try_except_ok _ _ _ s true).
    all: rewrite (run_bind_ok _ _ _ _ (f_equal result Hsearch)), Hsearch.
    all: cbn [final trace result].
    all: rewrite run_print_bind, run_lift_bind, (fields_complete _ _ Hentry).
    all: reflexivity.
  - unfold try_except. cbv zeta.
    rewrite (run_bind_raise _ _ _ _ (f_equal result Hsearch)), Hsearch. reflexivity.
Qed.

(** X26: What [search_record] reports: on two collections of complete
    records it prints the first teacher record of the name, if there is
    one, then the first student record of the name, if there is one,
    each under its heading, and [No matching record found.] exactly when
    neither collection holds the name. It returns in every case. *)
Theorem search_record_reports (teachers_file students_file name : string) (s : state) :
  forallb (complete Display.teacher_full) (contents s teachers_file) = true ->
  forallb (complete Display.student_full) (contents s students_file) = true ->
  let teacher := find (fun e => field_is "name" e name) (contents s teachers_file) in
  let student := find (fun e => field_is "name" e name) (contents s students_file) in
  Display.search_record repr teachers_file students_file name s =
    Run (Ok tt) s
        (record_lines repr "Teacher Record:" Display.teacher_full teacher
         ++ record_lines repr "Student Record:" Display.student_full student
         ++ match teacher, student with
            | None, None => [EvPrint "No matching record found."]
            | _, _ => []
            end).
Proof.
  intros Ht Hs teacher student. unfold Display.search_record.
  change Teacher.search with Student.search.
  assert (Hrun1 := search_part_run teachers_file name "Teacher Record:"
                     Display.teacher_full false s ltac:(cbn; tauto) Ht).
  cbv zeta in Hrun1. fold teacher in Hrun1.
  rewrite (run_bind_ok _ _ _ _ (f_equal result Hrun1)), Hrun1. cbn [final trace result].
  set (found := match teacher with Some _ => true | None => false end).
  assert (Hrun2 := search_part_run students_file name "Student Record:"
                     Display.student_full found s ltac:(cbn; tauto) Hs).
  cbv zeta in Hrun2. fold student in Hrun2.
  rewrite (run_bind_ok _ _ _ _ (f_equal result Hrun2)), Hrun2. cbn [final trace result].
  subst found. destruct teacher, student; cbn; rewrite ?app_nil_r; reflexivity.
Qed.

Lemma pass_students_rows (data listed : list pyval) :
  Student.pass_students data = Ok listed ->
  forallb (complete [("Name: ", "name"); (", Marks: ", "marks")]) listed = true.
Proof.
  revert listed. induction data as [|entry rest IH]; intros listed.
  - now intros [= <-].
  - cbn [Student.pass_students].
    destruct (Student.all_marks_pass entry) as [[|]|e]; [| |discriminate];
      cbn [mbind outcome_bind]; [|apply IH].
    destruct (getitem entry "name") as [n|e]; [|discriminate].
    destruct (getitem entry "marks") as [m|e]; [|discriminate].
    cbn [mbind outcome_bind].
    destruct (Student.pass_students rest) as [more|e]; [|discriminate].
    intros [= <-]. cbn [forallb]. now rewrite (IH more eq_refl).
Qed.

(** X27: The list of passing students is always printable: on every state,
    either [pass_fail_determination] fails and [determine_pass_fail]
    fails in the same way without printing anything, or the command
    returns, having printed the heading and one line for each listed
    student. It never fails while printing. *)
Theorem determine_pass_fail_prints (students_file : string) (s : state) :
  let r := Display.determine_pass_fail repr students_file s in
  match result (Student.pass_fail_determination students_file s) with
  | Raise e => r = Run (Raise e) s []
  | Ok listed =>
      r = Run (Ok tt) s
            (EvPrint "Pass Students:"
             :: map (fun row =>
                       EvPrint (line_of repr row [("Name: ", "name"); (", Marks: ", "marks")]))
                    listed)
  end.
Proof.
  cbv zeta.
  assert (Hrun : Student.pass_fail_determination students_file s =
                 Run (Student.pass_students (contents s students_file)) s []).
  { unfold Student.pass_fail_determination. now rewrite run_read_json_bind. }
  unfold Display.determine_pass_fail.
  destruct (Student.pass_students (contents s students_file)) as [listed|e] eqn:Hlisted.
  - rewrite (run_bind_ok _ _ _ _ (f_equal result Hrun)), Hrun. cbn [result final trace].
    rewrite run_print_bind, (print_each_complete _ _ _ (pass_students_rows _ _ Hlisted)).
    reflexivity.
  - rewrite (run_bind_raise _ _ _ _ (f_equal result Hrun)), Hrun. reflexivity.
Qed.

End Lines.

Section LinesExamples.
Import Py Env FileOperations Records Spec Steps.

Lemma teacher_display_full_details_lines_witness :
  Display.teacher_display_full_details (fun _ => "{}") "teachers.json"
    (State {["teachers.json" := [Examples.ada]]} [])
  = Run (Ok tt) (State {["teachers.json" := [Examples.ada]]} [])
        [EvPrint (Display.newline +:+ "Teacher Record:");
         EvPrint (line_of (fun _ => "{}") Examples.ada Display.teacher_full)].
Proof.
  exact (proj1 (teacher_display_full_details_lines (fun _ => "{}") "teachers.json"
                  (State {["teachers.json" := [Examples.ada]]} [])) eq_refl).
Defined.

Lemma search_record_reports_witness :
  Display.search_record (fun _ => "{}") "teachers.json" "students.json" "Zed"
    (State {["teachers.json" := [Examples.ada]]} [])
  = Run (Ok tt) (State {["teachers.json" := [Examples.ada]]} [])
        [EvPrint "No matching record found."].
Proof.
  exact (search_record_reports (fun _ => "{}") "teachers.json" "students.json" "Zed"
           (State {["teachers.json" := [Examples.ada]]} []) eq_refl eq_refl).
Defined.

End LinesExamples.

(* ===================================================================== *)
(** * main.py: the menu *)
(* ===================================================================== *)

Section Sessions.
Import Py Env FileOperations Authentication Records Spec Steps.

Variable json_loads : string -> outcome pyval.
Variable repr : pyval -> string.
Variable repr_float : float -> string.

Lemma print_lines_run (lines : list string) (s : state) :
  Menu.print_lines lines s = Run (Ok tt) s (map EvPrint lines).
Proof.
  induction lines as [|line rest IH]; [reflexivity|].
  cbn [Menu.print_lines map]. rewrite run_print_bind, IH. reflexivity.
Qed.

(** One turn of the loop. *)
Lemma main_loop_turn (fuel : nat) (s : state) :
  Menu.main_loop json_loads repr repr_float (S fuel) s =
  match stdin s with
  | [] => Run (Raise EOFError) s
              (map EvPrint Menu.menu_lines ++ [EvPrompt "Enter your choice (1-12): "])
  | choice :: rest =>
      let r := Menu.dispatch json_loads repr repr_float choice (State (files s) rest) in
      match result r with
      | Ok true => Run (Ok (Some tt)) (final r) (turn_trace choice ++ trace r)
      | Ok false =>
          after (turn_trace choice ++ trace r)
                (Menu.main_loop json_loads repr repr_float fuel (final r))
      | Raise e => Run (Raise e) (final r) (turn_trace choice ++ trace r)
      end
  end.
Proof.
  cbn [Menu.main_loop].
  rewrite (run_bind_ok _ _ s tt) by now rewrite print_lines_run.
  rewrite print_lines_run. cbn [result final trace].
  destruct s as [fs [|choice rest]]; cbn [stdin files].
  - reflexivity.
  - rewrite (run_bind_ok _ _ _ choice) by reflexivity.
    cbn [input stdin files result final trace]. cbv zeta.
    destruct (result (Menu.dispatch _ _ _ choice (State fs rest))) as [[|]|e] eqn:Hd.
    + rewrite (run_bind_ok _ _ _ _ Hd). cbn [mret io_ret result final trace].
      unfold turn_trace. now rewrite <- !app_assoc, app_nil_r.
    + rewrite (run_bind_ok _ _ _ _ Hd). unfold turn_trace, after.
      now rewrite <- !app_assoc.
    + rewrite (run_bind_raise _ _ _ _ Hd). unfold turn_trace.
      now rewrite <- !app_assoc.
Qed.

Lemma reads_forward_of_reads_only {A} (m : io A) : reads_only m -> reads_forward m.
Proof. intros H s. destruct (H s) as [Hs _]. rewrite Hs. lia. Qed.

Lemma reads_forward_bind {A B} (m : io A) (f : A -> io B) :
  reads_forward m -> (forall a, reads_forward (f a)) -> reads_forward (m ≫= f).
Proof.
  intros Hm Hf s. specialize (Hm s). unfold mbind, io_bind. cbv zeta.
  destruct (result (m s)) as [a|e]; cbn [final]; [|exact Hm].
  specialize (Hf a (final (m s))). lia.
Qed.

Lemma reads_forward_try_except {A} (body : io A) (caught : exn -> bool)
    (handler : exn -> io A) :
  reads_forward body -> (forall e, reads_forward (handler e)) ->
  reads_forward (try_except body caught handler).
Proof.
  intros Hb Hh s. specialize (Hb s). unfold try_except. cbv zeta.
  destruct (result (body s)) as [a|e]; [exact Hb|].
  destruct (caught e); [|exact Hb]. cbn [final].
  specialize (Hh e (final (body s))). lia.
Qed.

Lemma reads_forward_input (prompt : string) : reads_forward (input prompt).
Proof. intros [fs [|line rest]]; cbn; lia. Qed.

Lemma reads_forward_write_json (path : string) (data : list pyval) :
  reads_forward (write_json path data).
Proof. intros s. cbn. lia. Qed.

Lemma reads_forward_still {A} (m : io A) :
  (forall s, stdin (final (m s)) = stdin s) -> reads_forward m.
Proof. intros H s. rewrite H. lia. Qed.

Ltac forward_steps :=
  repeat first
    [ apply reads_forward_input | apply reads_forward_write_json
    | apply reads_forward_still; intros ?; reflexivity
    | apply reads_forward_bind; [|intros ?]
    | apply reads_forward_try_except; [|intros ?]
    | match goal with |- reads_forward (if ?b then _ else _) => destruct b end
    | match goal with |- reads_forward (match ?l with [] => _ | _ :: _ => _ end) =>
        destruct l
      end ].

Lemma reads_forward_add_new_teacher (file_path : string) :
  reads_forward (Main.add_new_teacher_from_user file_path).
Proof.
  unfold Main.add_new_teacher_from_user, Main.verify, authenticate_teacher,
    Teacher.accept, append_json, read_json.
  forward_steps.
Qed.

Lemma reads_forward_add_new_student (students_file teachers_file : string) :
  reads_forward (Main.add_new_student_from_user json_loads students_file teachers_file).
Proof.
  unfold Main.add_new_student_from_user, Main.verify, authenticate_teacher,
    Student.accept, append_json, read_json.
  forward_steps.
Qed.

Lemma reads_forward_delete_record (teachers_file students_file name : string) :
  reads_forward (Main.delete_record teachers_file students_file name).
Proof.
  unfold Main.delete_record, Teacher.delete, Student.delete, read_json.
  forward_steps.
Qed.

Lemma reads_forward_dispatch (choice : string) :
  reads_forward (Menu.dispatch json_loads repr repr_float choice).
Proof.
  unfold Menu.dispatch.
  repeat match goal with
         | |- reads_forward (if ?b then _ else _) => destruct b
         end.
  all: apply reads_forward_bind; [|intros ?; forward_steps].
  all: first
    [ apply reads_forward_add_new_teacher
    | apply reads_forward_add_new_student
    | apply reads_forward_input
    | apply reads_forward_of_reads_only;
      first [ apply reads_only_display_general_info
            | apply reads_only_teacher_display_full_details
            | apply reads_only_student_display_full_details
            | apply reads_only_determine_pass_fail
            | apply reads_only_find_highest_and_lowest_scores
            | apply reads_only_calculate_percentages
            | apply reads_only_calculate_rank
            | apply reads_only_print ] ].
Qed.

Lemma result_after {A} (t : list event) (r : run A) : result (after t r) = result r.
Proof. reflexivity. Qed.

(** X28: The loop on a finite session: with more fuel than there are typed
    lines the loop has ended, by the choice 12 or by an exception (the
    [EOFError] of [input] when the lines run out, if nothing else), and
    any larger amount of fuel gives the same run. *)
Theorem main_loop_ends (fuel : nat) (s : state) :
  (length (stdin s) < fuel)%nat ->
  result (Menu.main_loop json_loads repr repr_float fuel s) <> Ok None /\
  forall more,
    Menu.main_loop json_loads repr repr_float (fuel + more) s =
    Menu.main_loop json_loads repr repr_float fuel s.
Proof.
  revert s. induction fuel as [|fuel IH]; intros s Hlen; [lia|].
  change (S fuel + ?more)%nat with (S (fuel + more)).
  split; [|intros more]; rewrite !main_loop_turn.
  all: destruct (stdin s) as [|choice rest] eqn:Hlines; [try discriminate; reflexivity|].
  all: cbv zeta.
  all: pose proof (reads_forward_dispatch choice (State (files s) rest)) as Hforward.
  all: cbn [stdin] in Hforward; cbn [length] in Hlen.
  all: destruct (result (Menu.dispatch _ _ _ choice _)) as [[|]|e];
         try discriminate; try reflexivity.
  - rewrite result_after. apply IH. lia.
  - f_equal. apply IH. lia.
Qed.

Lemma no_write_of_prints (tr : list event) :
  forallb is_print tr = true -> existsb is_write tr = false.
Proof.
  induction tr as [|ev tr IH]; [reflexivity|].
  cbn [forallb existsb]. intros [Hev Htr]%andb_true_iff.
  rewrite (IH Htr). now destruct ev.
Qed.

(** What a choice that is not 1, 2 or 7 can do. *)
Lemma dispatch_displays (choice : string) (s : state) (P : string -> bool) :
  writing_choice choice = false ->
  forallb P (stdin s) = true ->
  let r := Menu.dispatch json_loads repr repr_float choice s in
  files (final r) = files s /\ existsb is_write (trace r) = false /\
  forallb P (stdin (final r)) = true.
Proof.
  intros Hchoice Hlines. cbv zeta.
  assert (Hshow : forall (m : io unit) (leave : bool),
             reads_only m ->
             files (final ((m;; mret leave) s)) = files s /\
             existsb is_write (trace ((m;; mret leave) s)) = false /\
             forallb P (stdin (final ((m;; mret leave) s))) = true).
  { intros m leave Hm.
    assert (Hall : reads_only (m;; mret leave))
      by (apply reads_only_bind; [exact Hm | intros _; apply reads_only_ret]).
    destruct (Hall s) as [Hs Ht]. rewrite Hs.
    split; [reflexivity|]. split; [now apply no_write_of_prints | exact Hlines]. }
  unfold writing_choice in Hchoice.
  apply orb_false_iff in Hchoice as [[H1 H2]%orb_false_iff H7].
  unfold Menu.dispatch. rewrite H1, H2, H7.
  repeat match goal with
         | |- context [if String.eqb choice ?c then _ else _] =>
             destruct (String.eqb choice c)
         end.
  all: try (apply Hshow;
            first [ apply reads_only_display_general_info
                  | apply reads_only_teacher_display_full_details
                  | apply reads_only_student_display_full_details
                  | apply reads_only_determine_pass_fail
                  | apply reads_only_find_highest_and_lowest_scores
                  | apply reads_only_calculate_percentages
                  | apply reads_only_calculate_rank
                  | apply reads_only_print ]).
  (* the search asks for a name first *)
  destruct s as [fs [|name rest]].
  - repeat split.
  - rewrite (run_bind_ok _ _ _ name) by reflexivity.
    cbn [input stdin files result final trace].
    cbn [forallb stdin] in Hlines. apply andb_true_iff in Hlines as [_ Hrest].
    assert (Hall : reads_only
                     (Display.search_record repr Menu.TEACHERS_FILE Menu.STUDENTS_FILE name;;
                      mret false))
      by (apply reads_only_bind;
          [apply reads_only_search_record | intros _; apply reads_only_ret]).
    destruct (Hall (State fs rest)) as [Hs Ht]. rewrite Hs.
    split; [reflexivity|]. split; [|exact Hrest].
    cbn [existsb is_write app orb]. now apply no_write_of_prints.
Qed.

(** X29: Only three choices write: in a session in which no typed line is
    [1], [2] or [7], the menu changes no file and writes nothing,
    however long the session is and however it ends. *)
Theorem menu_writes_only_on_three_choices (fuel : nat) (s : state) :
  forallb (fun line => negb (writing_choice line)) (stdin s) = true ->
  let r := Menu.main_loop json_loads repr repr_float fuel s in
  files (final r) = files s /\ existsb is_write (trace r) = false.
Proof.
  revert s. induction fuel as [|fuel IH]; intros s Hlines; [now split|].
  cbv zeta. rewrite main_loop_turn.
  assert (Hmenu : existsb is_write (map EvPrint Menu.menu_lines) = false) by reflexivity.
  destruct s as [fs [|choice rest]]; cbn [stdin files].
  - cbn [final trace]. split; [reflexivity|]. now rewrite existsb_app, Hmenu.
  - cbn [forallb stdin] in Hlines. apply andb_true_iff in Hlines as [Hc Hrest].
    apply negb_true_iff in Hc.
    destruct (dispatch_displays choice (State fs rest) _ Hc Hrest) as (Hf & Hw & Hl).
    cbv zeta in Hf, Hw, Hl |- *. cbn [files] in Hf.
    assert (Hturn : existsb is_write (turn_trace choice) = false)
      by (unfold turn_trace; now rewrite existsb_app, Hmenu).
    destruct (result (Menu.dispatch _ _ _ choice _)) as [[|]|e]; cbn [final trace].
    + split; [exact Hf|]. now rewrite existsb_app, Hturn, Hw.
    + destruct (IH _ Hl) as [Hf' Hw']. cbv zeta in Hf', Hw'.
      unfold after. cbn [final trace]. split; [congruence|].
      now rewrite !existsb_app, Hturn, Hw, Hw'.
    + split; [exact Hf|]. now rewrite existsb_app, Hturn, Hw.
Qed.

(** X30: A failed sign-in and the session: when adding a teacher is chosen
    and the sign-in matches no stored teacher, the [AuthenticationError]
    that [add_new_teacher_from_user] does not catch ends the whole
    program; the lines typed after it are never read. When adding a
    student is chosen the message is printed and the menu is shown
    again. *)
Theorem failed_sign_in_ends_session (fuel : nat) (fs : gmap string (list pyval))
    (n i : string) (rest : list string) :
  contents (State fs []) Menu.TEACHERS_FILE <> [] ->
  matching_entry (contents (State fs []) Menu.TEACHERS_FILE) n i = Ok false ->
  Menu.main_loop json_loads repr repr_float (S fuel) (State fs ("1" :: n :: i :: rest)) =
    Run (Raise (AuthenticationError "Invalid teacher credentials")) (State fs rest)
        (turn_trace "1" ++ sign_in_trace "Enter your ID number: " n i) /\
  Menu.main_loop json_loads repr repr_float (S fuel) (State fs ("2" :: n :: i :: rest)) =
    after (turn_trace "2" ++ sign_in_trace "Enter your Id number: " n i
           ++ [EvPrint "Invalid teacher credentials"])
          (Menu.main_loop json_loads repr repr_float fuel (State fs rest)).
Proof.
  intros Hne Hno. split; rewrite main_loop_turn; cbn [stdin files]; cbv zeta.
  - assert (Hrun : Menu.dispatch json_loads repr repr_float "1" (State fs (n :: i :: rest)) =
                   Run (Raise (AuthenticationError "Invalid teacher credentials"))
                       (State fs rest) (sign_in_trace "Enter your ID number: " n i)).
    { unfold Menu.dispatch. cbn [String.eqb Ascii.eqb Bool.eqb].
      rewrite (run_bind_raise _ _ _ (AuthenticationError "Invalid teacher credentials"));
        now rewrite (teacher_sign_in_fails _ fs n i rest Hne Hno). }
    now rewrite Hrun.
  - assert (Hadd : Main.add_new_student_from_user json_loads Menu.STUDENTS_FILE
                     Menu.TEACHERS_FILE (State fs (n :: i :: rest)) =
                   Run (Ok tt) (State fs rest)
                       (sign_in_trace "Enter your Id number: " n i
                        ++ [EvPrint "Invalid teacher credentials"])).
    { unfold Main.add_new_student_from_user. rewrite try_except_reported.
      match goal with |- context [reported _ (?b ?s)] =>
        rewrite <- (after_nil (b s))
      end.
      do 3 step. rewrite after_verify.
      change (contents (State fs rest) Menu.TEACHERS_FILE)
        with (contents (State fs []) Menu.TEACHERS_FILE).
      now rewrite Hno. }
    assert (Hrun : Menu.dispatch json_loads repr repr_float "2" (State fs (n :: i :: rest)) =
                   Run (Ok false) (State fs rest)
                       (sign_in_trace "Enter your Id number: " n i
                        ++ [EvPrint "Invalid teacher credentials"])).
    { unfold Menu.dispatch. cbn [String.eqb Ascii.eqb Bool.eqb].
      rewrite (run_bind_ok _ _ _ tt); rewrite Hadd; [|reflexivity].
      cbn [mret io_ret result final trace]. now rewrite app_nil_r. }
    rewrite Hrun. reflexivity.
Qed.

End Sessions.

Section SessionsExamples.
Import Py Env FileOperations Records Spec Steps.

Lemma main_loop_ends_witness :
  result (Menu.main_loop (fun _ => Ok (PDict [])) (fun _ => "{}") (fun _ => "0.0") 3
            (State ∅ ["0"; "12"])) <> Ok None.
Proof.
  apply (main_loop_ends (fun _ => Ok (PDict [])) (fun _ => "{}") (fun _ => "0.0") 3
           (State ∅ ["0"; "12"])).
  cbn. lia.
Defined.

Lemma menu_writes_only_on_three_choices_witness :
  files (final (Menu.main_loop (fun _ => Ok (PDict [])) (fun _ => "{}") (fun _ => "0.0") 5
                  (State ∅ ["3"; "6"; "9"; "12"]))) = ∅.
Proof.
  exact (proj1 (menu_writes_only_on_three_choices
                  (fun _ => Ok (PDict [])) (fun _ => "{}") (fun _ => "0.0") 5
                  (State ∅ ["3"; "6"; "9"; "12"]) eq_refl)).
Defined.

Lemma failed_sign_in_ends_session_witness :
  result (Menu.main_loop (fun _ => Ok (PDict [])) (fun _ => "{}") (fun _ => "0.0") 1
            (State {[Menu.TEACHERS_FILE := [Examples.ada]]} ["1"; "Ada"; "wrong"; "12"]))
  = Raise (AuthenticationError "Invalid teacher credentials").
Proof.
  assert (Hne : contents (State {[Menu.TEACHERS_FILE := [Examples.ada]]} [])
                         Menu.TEACHERS_FILE <> []) by (vm_compute; discriminate).
  destruct (failed_sign_in_ends_session (fun _ => Ok (PDict [])) (fun _ => "{}")
              (fun _ => "0.0") 0 {[Menu.TEACHERS_FILE := [Examples.ada]]}
              "Ada" "wrong" ["12"] Hne eq_refl) as [Hrun _].
  now rewrite Hrun.
Defined.

End SessionsExamples.
